(** * superup: wallet ledger, order settlement and subscriptions

    A shallow embedding of the marketplace server's wallet, order and
    subscription models (Mongoose schemas with their methods) and of the
    route handlers that drive them, followed by the properties of the
    wallet/settlement subsystem.

    Conventions of the embedding.
    - A Mongoose collection is a list of documents; a document's position
      in the list is its storage slot.  [findOne]/[findById] return the
      first match together with its slot, [save] writes the in-memory
      document back to that slot, a new document is appended.
    - In the route handlers over the whole database, JavaScript numbers
      that carry XOF amounts, quantities and stock are exact integers
      ([Z]) and [save()] always stores; times are milliseconds since the
      epoch ([Z]).
    - The wallet collection is modelled a second time, in [Stored], as
      MongoDB keeps it: amounts are IEEE 754 doubles ([Number]), [save()]
      runs the validators of the transaction schema, and the unique
      index of the transaction references is enforced.
    - ObjectIds and the hexadecimal references drawn from
      [crypto.randomBytes] are strings.
    - The express-validator chains of the routes are modelled; schema
      validators ([required], [enum], [min]) are modelled in [Stored]
      only. *)

From stdpp Require Import base decidable option list strings pretty.
From Stdlib Require Import ZArith Lia.
From Stdlib Require PrimFloat FloatOps SpecFloat.

Open Scope string_scope.
Open Scope Z_scope.
Open Scope list_scope.
Open Scope stdpp_scope.

Definition ObjectId := string.

(** ** Wallet model (models/wallet.model.js) *)

Inductive TransactionType :=
  deposit | withdrawal | payment | refund | commission | fee.

Module TransactionStatus.
Inductive t := pending | completed | failed | cancelled.
End TransactionStatus.

#[global] Instance TransactionType_eq_dec : EqDecision TransactionType.
Proof. solve_decision. Defined.
#[global] Instance TransactionStatus_eq_dec : EqDecision TransactionStatus.t.
Proof. solve_decision. Defined.

(** The [paymentDetails] sub-object of a transaction. *)
Record PaymentDetails := {
  provider : option string;
  transactionId : option string;
  accountNumber : option string
}.

Module Transaction.
Record t := mk {
  type : TransactionType;
  amount : Z;
  description : string;
  status : TransactionStatus.t;
  reference : string;
  relatedOrder : option ObjectId;
  relatedUser : option ObjectId;
  paymentMethod : string;
  paymentDetails : PaymentDetails;
  createdAt : Z
}.
End Transaction.

Module Wallet.
Record t := mk {
  owner : ObjectId;
  walletType : string;
  balance : Z;
  currency : string;
  isActive : bool;
  transactions : list Transaction.t
}.

(** [new Wallet({ owner, walletType, balance: 0, currency: 'XOF' })] *)
Definition new (owner : ObjectId) (walletType : string) : t :=
  {| owner := owner; walletType := walletType; balance := 0;
     currency := "XOF"; isActive := true; transactions := [] |}.

(** [walletSchema.methods.addTransaction], the in-memory part: push the
    transaction, then move the balance by the sign of its type.  The
    [this.save()] that ends the method is the caller's [saveWallet]. *)
Definition addTransaction (transactionData : Transaction.t) (this : t) : t :=
  let pushed := transactions this ++ [transactionData] in
  let ty := Transaction.type transactionData in
  let balance' :=
    if bool_decide (ty ∈ [deposit; refund; commission]) then
      balance this + Transaction.amount transactionData
    else if bool_decide (ty ∈ [withdrawal; payment; fee]) then
      balance this - Transaction.amount transactionData
    else balance this in
  {| owner := owner this; walletType := walletType this;
     balance := balance'; currency := currency this;
     isActive := isActive this; transactions := pushed |}.

(** [walletSchema.methods.hasSufficientBalance] *)
Definition hasSufficientBalance (amount : Z) (this : t) : bool :=
  bool_decide (amount ≤ balance this).
End Wallet.

(** Credit types are deposit, refund and commission, debit types are
    withdrawal, payment and fee. *)
Definition isCredit (tx : Transaction.t) : bool :=
  bool_decide (Transaction.type tx ∈ [deposit; refund; commission]).
Definition isDebit (tx : Transaction.t) : bool :=
  bool_decide (Transaction.type tx ∈ [withdrawal; payment; fee]).

(** ** Product and user models (models/product.model.js, models/user.model.js) *)

Module Product.
Record t := mk {
  _id : ObjectId;
  name : string;
  price : Z;
  seller : ObjectId;
  stock : Z;
  isAvailable : bool
}.

Definition set_stock (v : Z) (this : t) : t :=
  {| _id := _id this; name := name this; price := price this;
     seller := seller this; stock := v;
     isAvailable := isAvailable this |}.
Definition set_isAvailable (v : bool) (this : t) : t :=
  {| _id := _id this; name := name this; price := price this;
     seller := seller this; stock := stock this; isAvailable := v |}.

(** [productSchema.methods.isInStock] *)
Definition isInStock (quantity : Z) (this : t) : bool :=
  bool_decide (quantity ≤ stock this) && isAvailable this.

(** [productSchema.methods.reduceStock], the in-memory part; [None] is
    the thrown [Error('Insufficient stock')]. *)
Definition reduceStock (quantity : Z) (this : t) : option t :=
  if negb (isInStock quantity this) then None
  else
    let this := set_stock (stock this - quantity) this in
    Some (if bool_decide (stock this = 0) then set_isAvailable false this
          else this).
End Product.

Record SellerInfo := {
  subscriptionStatus : string;
  subscriptionType : string;
  subscriptionStartDate : option Z;
  subscriptionEndDate : option Z
}.

Record DeliveryInfo := { deliveryIsAvailable : bool }.

Module User.
Record t := mk {
  _id : ObjectId;
  roles : list string;
  sellerInfo : option SellerInfo;
  deliveryInfo : option DeliveryInfo
}.

Definition set_sellerInfo (v : option SellerInfo) (this : t) : t :=
  {| _id := _id this; roles := roles this; sellerInfo := v;
     deliveryInfo := deliveryInfo this |}.

(** [userSchema.methods.hasRole] / [roles.includes(role)] *)
Definition hasRole (role : string) (this : t) : bool :=
  bool_decide (role ∈ roles this).
End User.

(** ** Order model (models/order.model.js) *)

Module OrderStatus.
Inductive t := pending | processing | shipped | delivered | cancelled | refunded.
End OrderStatus.

Module PaymentStatus.
Inductive t := pending | paid | released | refunded | failed.
End PaymentStatus.

Module DeliveryStatus.
Inductive t := pending | assigned | picked_up | in_transit | delivered | failed.
End DeliveryStatus.

#[global] Instance OrderStatus_eq_dec : EqDecision OrderStatus.t.
Proof. solve_decision. Defined.
#[global] Instance PaymentStatus_eq_dec : EqDecision PaymentStatus.t.
Proof. solve_decision. Defined.
#[global] Instance DeliveryStatus_eq_dec : EqDecision DeliveryStatus.t.
Proof. solve_decision. Defined.

Record OrderItem := {
  product : ObjectId;
  quantity : Z;
  price : Z;
  subtotal : Z
}.

(** [order.paymentDetails] *)
Record OrderPayment := {
  op_transactionId : string;
  op_paymentDate : Z;
  op_provider : string
}.

(** [order.deliveryProof]; an absent key is [None]. *)
Record DeliveryProof := {
  signature : option string;
  photo : option string;
  deliveryDate : option Z;
  notes : option string
}.

Definition noProof : DeliveryProof :=
  {| signature := None; photo := None; deliveryDate := None; notes := None |}.

(** [{ ...a, ...b }] on delivery proofs: the keys of [b] win. *)
Definition spreadProof (a b : DeliveryProof) : DeliveryProof :=
  {| signature := from_option Some (signature a) (signature b);
     photo := from_option Some (photo a) (photo b);
     deliveryDate := from_option Some (deliveryDate a) (deliveryDate b);
     notes := from_option Some (notes a) (notes b) |}.

Module Order.
Record t := mk {
  _id : ObjectId;
  buyer : ObjectId;
  items : list OrderItem;
  totalAmount : Z;
  platformFee : Z;
  deliveryFee : Z;
  adminFee : Z;
  currency : string;
  status : OrderStatus.t;
  paymentStatus : PaymentStatus.t;
  paymentMethod : string;
  paymentDetails : option OrderPayment;
  shippingAddress : string;
  deliveryAgent : option ObjectId;
  deliveryStatus : DeliveryStatus.t;
  deliveryProof : DeliveryProof;
  estimatedDeliveryDate : option Z;
  actualDeliveryDate : option Z
}.

Definition set_totalAmount (v : Z) (this : t) : t :=
  {| _id := _id this; buyer := buyer this; items := items this;
     totalAmount := v; platformFee := platformFee this;
     deliveryFee := deliveryFee this; adminFee := adminFee this;
     currency := currency this; status := status this;
     paymentStatus := paymentStatus this;
     paymentMethod := paymentMethod this;
     paymentDetails := paymentDetails this;
     shippingAddress := shippingAddress this;
     deliveryAgent := deliveryAgent this;
     deliveryStatus := deliveryStatus this;
     deliveryProof := deliveryProof this;
     estimatedDeliveryDate := estimatedDeliveryDate this;
     actualDeliveryDate := actualDeliveryDate this |}.
Definition set_status (v : OrderStatus.t) (this : t) : t :=
  {| _id := _id this; buyer := buyer this; items := items this;
     totalAmount := totalAmount this; platformFee := platformFee this;
     deliveryFee := deliveryFee this; adminFee := adminFee this;
     currency := currency this; status := v;
     paymentStatus := paymentStatus this;
     paymentMethod := paymentMethod this;
     paymentDetails := paymentDetails this;
     shippingAddress := shippingAddress this;
     deliveryAgent := deliveryAgent this;
     deliveryStatus := deliveryStatus this;
     deliveryProof := deliveryProof this;
     estimatedDeliveryDate := estimatedDeliveryDate this;
     actualDeliveryDate := actualDeliveryDate this |}.
Definition set_paymentStatus (v : PaymentStatus.t) (this : t) : t :=
  {| _id := _id this; buyer := buyer this; items := items this;
     totalAmount := totalAmount this; platformFee := platformFee this;
     deliveryFee := deliveryFee this; adminFee := adminFee this;
     currency := currency this; status := status this;
     paymentStatus := v; paymentMethod := paymentMethod this;
     paymentDetails := paymentDetails this;
     shippingAddress := shippingAddress this;
     deliveryAgent := deliveryAgent this;
     deliveryStatus := deliveryStatus this;
     deliveryProof := deliveryProof this;
     estimatedDeliveryDate := estimatedDeliveryDate this;
     actualDeliveryDate := actualDeliveryDate this |}.
Definition set_paymentDetails (v : option OrderPayment) (this : t) : t :=
  {| _id := _id this; buyer := buyer this; items := items this;
     totalAmount := totalAmount this; platformFee := platformFee this;
     deliveryFee := deliveryFee this; adminFee := adminFee this;
     currency := currency this; status := status this;
     paymentStatus := paymentStatus this;
     paymentMethod := paymentMethod this; paymentDetails := v;
     shippingAddress := shippingAddress this;
     deliveryAgent := deliveryAgent this;
     deliveryStatus := deliveryStatus this;
     deliveryProof := deliveryProof this;
     estimatedDeliveryDate := estimatedDeliveryDate this;
     actualDeliveryDate := actualDeliveryDate this |}.
Definition set_deliveryAgent (v : option ObjectId) (this : t) : t :=
  {| _id := _id this; buyer := buyer this; items := items this;
     totalAmount := totalAmount this; platformFee := platformFee this;
     deliveryFee := deliveryFee this; adminFee := adminFee this;
     currency := currency this; status := status this;
     paymentStatus := paymentStatus this;
     paymentMethod := paymentMethod this;
     paymentDetails := paymentDetails this;
     shippingAddress := shippingAddress this; deliveryAgent := v;
     deliveryStatus := deliveryStatus this;
     deliveryProof := deliveryProof this;
     estimatedDeliveryDate := estimatedDeliveryDate this;
     actualDeliveryDate := actualDeliveryDate this |}.
Definition set_deliveryStatus (v : DeliveryStatus.t) (this : t) : t :=
  {| _id := _id this; buyer := buyer this; items := items this;
     totalAmount := totalAmount this; platformFee := platformFee this;
     deliveryFee := deliveryFee this; adminFee := adminFee this;
     currency := currency this; status := status this;
     paymentStatus := paymentStatus this;
     paymentMethod := paymentMethod this;
     paymentDetails := paymentDetails this;
     shippingAddress := shippingAddress this;
     deliveryAgent := deliveryAgent this; deliveryStatus := v;
     deliveryProof := deliveryProof this;
     estimatedDeliveryDate := estimatedDeliveryDate this;
     actualDeliveryDate := actualDeliveryDate this |}.
Definition set_deliveryProof (v : DeliveryProof) (this : t) : t :=
  {| _id := _id this; buyer := buyer this; items := items this;
     totalAmount := totalAmount this; platformFee := platformFee this;
     deliveryFee := deliveryFee this; adminFee := adminFee this;
     currency := currency this; status := status this;
     paymentStatus := paymentStatus this;
     paymentMethod := paymentMethod this;
     paymentDetails := paymentDetails this;
     shippingAddress := shippingAddress this;
     deliveryAgent := deliveryAgent this;
     deliveryStatus := deliveryStatus this; deliveryProof := v;
     estimatedDeliveryDate := estimatedDeliveryDate this;
     actualDeliveryDate := actualDeliveryDate this |}.
Definition set_actualDeliveryDate (v : option Z) (this : t) : t :=
  {| _id := _id this; buyer := buyer this; items := items this;
     totalAmount := totalAmount this; platformFee := platformFee this;
     deliveryFee := deliveryFee this; adminFee := adminFee this;
     currency := currency this; status := status this;
     paymentStatus := paymentStatus this;
     paymentMethod := paymentMethod this;
     paymentDetails := paymentDetails this;
     shippingAddress := shippingAddress this;
     deliveryAgent := deliveryAgent this;
     deliveryStatus := deliveryStatus this;
     deliveryProof := deliveryProof this;
     estimatedDeliveryDate := estimatedDeliveryDate this;
     actualDeliveryDate := v |}.

(** [orderSchema.pre('save')]: the total is recomputed from the stored
    subtotals whenever [isModified('items')]. *)
Definition preSave (itemsModified : bool) (this : t) : t :=
  if itemsModified then
    let total := foldl (λ total item, total + subtotal item) 0 (items this) in
    set_totalAmount (total + platformFee this) this
  else this.

(** [orderSchema.methods.assignDeliveryAgent], before its [save()]. *)
Definition assignDeliveryAgent (agentId : ObjectId) (this : t) : t :=
  let this := set_deliveryAgent (Some agentId) this in
  set_deliveryStatus DeliveryStatus.assigned this.

(** [orderSchema.methods.updateStatus], before its [save()]. *)
Definition updateStatus (now : Z) (status' : OrderStatus.t) (this : t) : t :=
  let this := set_status status' this in
  if bool_decide (status' = OrderStatus.delivered) then
    let this := set_paymentStatus PaymentStatus.released this in
    set_actualDeliveryDate (Some now) this
  else if bool_decide (status' = OrderStatus.cancelled) then
    set_paymentStatus PaymentStatus.refunded this
  else this.

(** [orderSchema.methods.updateDeliveryStatus], before its [save()]. *)
Definition updateDeliveryStatus (now : Z) (status' : DeliveryStatus.t)
    (proof : DeliveryProof) (this : t) : t :=
  let this := set_deliveryStatus status' this in
  if bool_decide (status' = DeliveryStatus.delivered) then
    let proof' :=
      spreadProof (spreadProof (deliveryProof this) proof)
        {| signature := None; photo := None;
           deliveryDate := Some now; notes := None |} in
    let this := set_deliveryProof proof' this in
    let this := set_status OrderStatus.delivered this in
    set_paymentStatus PaymentStatus.released this
  else this.
End Order.

(** ** JavaScript dates

    A [Date] object is a mutable cell holding a time value; the cells live
    in a heap so that two references to one object see each other's
    [setMonth]/[setDate]/[setFullYear].  The calendar arithmetic is
    ECMAScript's (Day, TimeWithinDay, YearFromTime, MonthFromTime,
    DateFromTime, MakeDay, MakeDate), for a local time zone at the constant
    offset [tza] milliseconds from UTC. *)

Module JsDate.
Definition msPerDay : Z := 86400000.

Definition Day (t : Z) : Z := t `div` msPerDay.
Definition TimeWithinDay (t : Z) : Z := t `mod` msPerDay.

(** Civil date (year, month 1..12, day 1..31) of a day number counted
    from 1970-01-01, in the proleptic Gregorian calendar. *)
Definition civilFromDays (days : Z) : Z * Z * Z :=
  let z := days + 719468 in
  let era := z `div` 146097 in
  let doe := z - era * 146097 in
  let yoe := (doe - doe `div` 1460 + doe `div` 36524 - doe `div` 146096) `div` 365 in
  let y := yoe + era * 400 in
  let doy := doe - (365 * yoe + yoe `div` 4 - yoe `div` 100) in
  let mp := (5 * doy + 2) `div` 153 in
  let d := doy - (153 * mp + 2) `div` 5 + 1 in
  let m := if bool_decide (mp < 10) then mp + 3 else mp - 9 in
  (if bool_decide (m ≤ 2) then y + 1 else y, m, d).

(** Day number of the civil date [y]-[m]-[d], [m] in 1..12. *)
Definition daysFromCivil (y m d : Z) : Z :=
  let y := if bool_decide (m ≤ 2) then y - 1 else y in
  let era := y `div` 400 in
  let yoe := y - era * 400 in
  let doy := (153 * (if bool_decide (2 < m) then m - 3 else m + 9) + 2) `div` 5 + d - 1 in
  let doe := yoe * 365 + yoe `div` 4 - yoe `div` 100 + doy in
  era * 146097 + doe - 719468.

Definition YearFromTime (t : Z) : Z := (civilFromDays (Day t)).1.1.
(** Months are numbered from 0 (January) to 11. *)
Definition MonthFromTime (t : Z) : Z := (civilFromDays (Day t)).1.2 - 1.
Definition DateFromTime (t : Z) : Z := (civilFromDays (Day t)).2.

Definition MakeDay (year month date : Z) : Z :=
  let ym := year + month `div` 12 in
  let mn := month `mod` 12 in
  daysFromCivil ym (mn + 1) 1 + date - 1.
Definition MakeDate (day time : Z) : Z := day * msPerDay + time.

Definition LocalTime (tza t : Z) : Z := t + tza.
Definition UTC (tza t : Z) : Z := t - tza.

(** Time values after [setMonth], [setDate] and [setFullYear]. *)
Definition withMonth (tza month tv : Z) : Z :=
  let t := LocalTime tza tv in
  UTC tza (MakeDate (MakeDay (YearFromTime t) month (DateFromTime t))
                    (TimeWithinDay t)).
Definition withDate (tza date tv : Z) : Z :=
  let t := LocalTime tza tv in
  UTC tza (MakeDate (MakeDay (YearFromTime t) (MonthFromTime t) date)
                    (TimeWithinDay t)).
Definition withFullYear (tza year tv : Z) : Z :=
  let t := LocalTime tza tv in
  UTC tza (MakeDate (MakeDay year (MonthFromTime t) (DateFromTime t))
                    (TimeWithinDay t)).

(** The heap of [Date] objects and the state monad over it. *)
Definition ref := nat.
Definition Heap := list Z.
Definition Js (A : Type) : Type := Heap → A * Heap.

#[global] Instance Js_ret : MRet Js := λ A a h, (a, h).
#[global] Instance Js_bind : MBind Js :=
  λ A B f m h, let '(a, h') := m h in f a h'.

(** [new Date(tv)]; [new Date()] is [newDate now]. *)
Definition newDate (tv : Z) : Js ref := λ h, (length h, h ++ [tv]).
Definition getTime (d : ref) : Js Z := λ h, (h !!! d, h).
Definition update (f : Z → Z) (d : ref) : Js Z :=
  λ h, let tv := f (h !!! d) in (tv, <[d := tv]> h).

Definition getMonth (tza : Z) (d : ref) : Js Z :=
  tv ← getTime d; mret (MonthFromTime (LocalTime tza tv)).
Definition getDate (tza : Z) (d : ref) : Js Z :=
  tv ← getTime d; mret (DateFromTime (LocalTime tza tv)).
Definition getFullYear (tza : Z) (d : ref) : Js Z :=
  tv ← getTime d; mret (YearFromTime (LocalTime tza tv)).

(** The setters mutate the object and return its new time value. *)
Definition setMonth (tza : Z) (d : ref) (month : Z) : Js Z :=
  update (withMonth tza month) d.
Definition setDate (tza : Z) (d : ref) (date : Z) : Js Z :=
  update (withDate tza date) d.
Definition setFullYear (tza : Z) (d : ref) (year : Z) : Js Z :=
  update (withFullYear tza year) d.
End JsDate.

(** ** Subscription model (models/subscription.model.js)

    The records are parametric in the representation [D] of a date: a
    [JsDate.ref] while the document is in memory, a time value once it is
    stored. *)

Inductive Plan := free_trial | weekly | monthly | yearly.

Module SubscriptionStatus.
Inductive t := active | expired | cancelled | pending.
End SubscriptionStatus.

#[global] Instance Plan_eq_dec : EqDecision Plan.
Proof. solve_decision. Defined.
#[global] Instance SubscriptionStatus_eq_dec : EqDecision SubscriptionStatus.t.
Proof. solve_decision. Defined.

(** [subscription.paymentDetails] *)
Record SubscriptionPayment (D : Type) := {
  sp_transactionId : option string;
  sp_paymentDate : option D;
  sp_provider : option string
}.
Arguments sp_transactionId {D}.
Arguments sp_paymentDate {D}.
Arguments sp_provider {D}.

(** An entry of [subscription.renewalHistory]. *)
Record Renewal (D : Type) := {
  r_plan : Plan;
  r_startDate : D;
  r_endDate : option D;
  r_price : Z;
  r_paymentMethod : string;
  r_transactionId : option string;
  r_status : SubscriptionStatus.t
}.
Arguments r_plan {D}.
Arguments r_startDate {D}.
Arguments r_endDate {D}.
Arguments r_price {D}.
Arguments r_paymentMethod {D}.
Arguments r_transactionId {D}.
Arguments r_status {D}.

(** The [paymentDetails] argument of [renew] and [changePlan]. *)
Record RenewalPayment := {
  rp_paymentMethod : option string;
  rp_transactionId : option string;
  rp_provider : option string
}.

(** [a || b] on strings: the empty string and [undefined] are falsy. *)
Definition orElse (a : option string) (b : string) : string :=
  match a with
  | Some s => if bool_decide (s = "") then b else s
  | None => b
  end.

Module Subscription.
Import JsDate.

Record t (D : Type) := mk {
  seller : ObjectId;
  plan : Plan;
  status : SubscriptionStatus.t;
  startDate : D;
  endDate : option D;
  autoRenew : bool;
  price : Z;
  paymentMethod : string;
  paymentDetails : option (SubscriptionPayment D);
  renewalHistory : list (Renewal D)
}.
Arguments mk {D}.
Arguments seller {D}.
Arguments plan {D}.
Arguments status {D}.
Arguments startDate {D}.
Arguments endDate {D}.
Arguments autoRenew {D}.
Arguments price {D}.
Arguments paymentMethod {D}.
Arguments paymentDetails {D}.
Arguments renewalHistory {D}.

Definition set_plan {D} (v : Plan) (this : t D) : t D :=
  {| seller := seller this; plan := v; status := status this;
     startDate := startDate this; endDate := endDate this;
     autoRenew := autoRenew this; price := price this;
     paymentMethod := paymentMethod this;
     paymentDetails := paymentDetails this;
     renewalHistory := renewalHistory this |}.
Definition set_status {D} (v : SubscriptionStatus.t) (this : t D) : t D :=
  {| seller := seller this; plan := plan this; status := v;
     startDate := startDate this; endDate := endDate this;
     autoRenew := autoRenew this; price := price this;
     paymentMethod := paymentMethod this;
     paymentDetails := paymentDetails this;
     renewalHistory := renewalHistory this |}.
Definition set_startDate {D} (v : D) (this : t D) : t D :=
  {| seller := seller this; plan := plan this; status := status this;
     startDate := v; endDate := endDate this;
     autoRenew := autoRenew this; price := price this;
     paymentMethod := paymentMethod this;
     paymentDetails := paymentDetails this;
     renewalHistory := renewalHistory this |}.
Definition set_endDate {D} (v : option D) (this : t D) : t D :=
  {| seller := seller this; plan := plan this; status := status this;
     startDate := startDate this; endDate := v;
     autoRenew := autoRenew this; price := price this;
     paymentMethod := paymentMethod this;
     paymentDetails := paymentDetails this;
     renewalHistory := renewalHistory this |}.
Definition set_autoRenew {D} (v : bool) (this : t D) : t D :=
  {| seller := seller this; plan := plan this; status := status this;
     startDate := startDate this; endDate := endDate this;
     autoRenew := v; price := price this;
     paymentMethod := paymentMethod this;
     paymentDetails := paymentDetails this;
     renewalHistory := renewalHistory this |}.
Definition set_price {D} (v : Z) (this : t D) : t D :=
  {| seller := seller this; plan := plan this; status := status this;
     startDate := startDate this; endDate := endDate this;
     autoRenew := autoRenew this; price := v;
     paymentMethod := paymentMethod this;
     paymentDetails := paymentDetails this;
     renewalHistory := renewalHistory this |}.
Definition set_paymentMethod {D} (v : string) (this : t D) : t D :=
  {| seller := seller this; plan := plan this; status := status this;
     startDate := startDate this; endDate := endDate this;
     autoRenew := autoRenew this; price := price this;
     paymentMethod := v; paymentDetails := paymentDetails this;
     renewalHistory := renewalHistory this |}.
Definition set_paymentDetails {D} (v : option (SubscriptionPayment D)) (this : t D) : t D :=
  {| seller := seller this; plan := plan this; status := status this;
     startDate := startDate this; endDate := endDate this;
     autoRenew := autoRenew this; price := price this;
     paymentMethod := paymentMethod this; paymentDetails := v;
     renewalHistory := renewalHistory this |}.
Definition set_renewalHistory {D} (v : list (Renewal D)) (this : t D) : t D :=
  {| seller := seller this; plan := plan this; status := status this;
     startDate := startDate this; endDate := endDate this;
     autoRenew := autoRenew this; price := price this;
     paymentMethod := paymentMethod this;
     paymentDetails := paymentDetails this; renewalHistory := v |}.

(** Visit every date of a document: used to bring a stored document
    into memory ([load]) and to read the time values back ([store]). *)
Definition traverseOpt {A B} (f : A → Js B) (o : option A) : Js (option B) :=
  match o with
  | Some a => b ← f a; mret (Some b)
  | None => mret None
  end.

Fixpoint traverseList {A B} (f : A → Js B) (l : list A) : Js (list B) :=
  match l with
  | [] => mret []
  | a :: rest => b ← f a; bs ← traverseList f rest; mret (b :: bs)
  end.

Definition traverseRenewal {D E} (f : D → Js E) (r : Renewal D) : Js (Renewal E) :=
  s ← f (r_startDate r);
  e ← traverseOpt f (r_endDate r);
  mret {| r_plan := r_plan r; r_startDate := s; r_endDate := e;
          r_price := r_price r; r_paymentMethod := r_paymentMethod r;
          r_transactionId := r_transactionId r; r_status := r_status r |}.

Definition traversePayment {D E} (f : D → Js E) (p : SubscriptionPayment D)
    : Js (SubscriptionPayment E) :=
  d ← traverseOpt f (sp_paymentDate p);
  mret {| sp_transactionId := sp_transactionId p; sp_paymentDate := d;
          sp_provider := sp_provider p |}.

Definition traverse {D E} (f : D → Js E) (this : t D) : Js (t E) :=
  s ← f (startDate this);
  e ← traverseOpt f (endDate this);
  p ← traverseOpt (traversePayment f) (paymentDetails this);
  h ← traverseList (traverseRenewal f) (renewalHistory this);
  mret {| seller := seller this; plan := plan this; status := status this;
          startDate := s; endDate := e; autoRenew := autoRenew this;
          price := price this; paymentMethod := paymentMethod this;
          paymentDetails := p; renewalHistory := h |}.

Definition load (stored : t Z) : Js (t ref) := traverse newDate stored.
Definition store (this : t ref) : Js (t Z) := traverse getTime this.

(** [subscriptionSchema.pre('save')]; [fresh] is
    [this.isNew || this.isModified('plan')]. *)
Definition preSave (tza now : Z) (fresh : bool) (this : t ref) : Js (t ref) :=
  if fresh then
    currentDate ← newDate now;
    match plan this with
    | free_trial =>
        m ← getMonth tza currentDate;
        tv ← setMonth tza currentDate (m + 2);
        e ← newDate tv;
        mret (set_price 0 (set_endDate (Some e) this))
    | weekly =>
        d ← getDate tza currentDate;
        tv ← setDate tza currentDate (d + 7);
        e ← newDate tv;
        mret (set_price 2000 (set_endDate (Some e) this))
    | monthly =>
        m ← getMonth tza currentDate;
        tv ← setMonth tza currentDate (m + 1);
        e ← newDate tv;
        mret (set_price 7500 (set_endDate (Some e) this))
    | yearly =>
        y ← getFullYear tza currentDate;
        tv ← setFullYear tza currentDate (y + 1);
        e ← newDate tv;
        mret (set_price 75000 (set_endDate (Some e) this))
    end
  else mret this.

(** [this.save()]: the hook, then the document as it is stored. *)
Definition save (tza now : Z) (fresh : bool) (this : t ref) : Js (t Z) :=
  this ← preSave tza now fresh this;
  store this.

(** The entry pushed on [renewalHistory] by [renew] and [changePlan]. *)
Definition historyEntry (this : t ref) : Renewal ref :=
  {| r_plan := plan this; r_startDate := startDate this;
     r_endDate := endDate this; r_price := price this;
     r_paymentMethod := paymentMethod this;
     r_transactionId := p ← paymentDetails this; sp_transactionId p;
     r_status := status this |}.

(** [if (paymentDetails) { ... }] of [renew] and [changePlan]. *)
Definition applyPayment (paymentDetails' : option RenewalPayment)
    (currentDate : ref) (this : t ref) : t ref :=
  match paymentDetails' with
  | Some pd =>
      let this :=
        set_paymentMethod
          (orElse (rp_paymentMethod pd) (paymentMethod this)) this in
      set_paymentDetails
        (Some {| sp_transactionId := rp_transactionId pd;
                 sp_paymentDate := Some currentDate;
                 sp_provider := rp_provider pd |}) this
  | None => this
  end.

(** [subscriptionSchema.methods.renew].  [currentDate] is one [Date]
    object: it is stored as [startDate] (and as the payment date) and
    then advanced in place by [setDate]/[setMonth]/[setFullYear]. *)
Definition renew (tza now : Z) (paymentDetails' : option RenewalPayment)
    (this : t ref) : Js (t Z) :=
  let this := set_renewalHistory (renewalHistory this ++ [historyEntry this]) this in
  currentDate ← newDate now;
  let this := set_startDate currentDate this in
  let this := set_status SubscriptionStatus.active this in
  let this := applyPayment paymentDetails' currentDate this in
  this ← match plan this with
         | weekly =>
             d ← getDate tza currentDate;
             tv ← setDate tza currentDate (d + 7);
             e ← newDate tv;
             mret (set_endDate (Some e) this)
         | monthly =>
             m ← getMonth tza currentDate;
             tv ← setMonth tza currentDate (m + 1);
             e ← newDate tv;
             mret (set_endDate (Some e) this)
         | yearly =>
             y ← getFullYear tza currentDate;
             tv ← setFullYear tza currentDate (y + 1);
             e ← newDate tv;
             mret (set_endDate (Some e) this)
         | free_trial => mret this
         end;
  save tza now false this.

(** [subscriptionSchema.methods.changePlan] *)
Definition changePlan (tza now : Z) (newPlan : Plan)
    (paymentDetails' : option RenewalPayment) (this : t ref) : Js (t Z) :=
  let planModified := bool_decide (newPlan ≠ plan this) in
  let this := set_plan newPlan this in
  let this := set_renewalHistory (renewalHistory this ++ [historyEntry this]) this in
  currentDate ← newDate now;
  let this := set_startDate currentDate this in
  let this := set_status SubscriptionStatus.active this in
  let this := applyPayment paymentDetails' currentDate this in
  save tza now planModified this.

(** Run a method on a stored document, from an empty heap. *)
Definition onStored (method : t ref → Js (t Z)) (stored : t Z) : t Z :=
  ((this ← load stored; method this) []).1.
End Subscription.

(** ** The database and the handler monad *)

Record Db := {
  users : list User.t;
  products : list Product.t;
  wallets : list Wallet.t;
  orders : list Order.t;
  subscriptions : list (Subscription.t Z)
}.

Definition set_users (v : list User.t) (db : Db) : Db :=
  {| users := v; products := products db; wallets := wallets db;
     orders := orders db; subscriptions := subscriptions db |}.
Definition set_products (v : list Product.t) (db : Db) : Db :=
  {| users := users db; products := v; wallets := wallets db;
     orders := orders db; subscriptions := subscriptions db |}.
Definition set_wallets (v : list Wallet.t) (db : Db) : Db :=
  {| users := users db; products := products db; wallets := v;
     orders := orders db; subscriptions := subscriptions db |}.
Definition set_orders (v : list Order.t) (db : Db) : Db :=
  {| users := users db; products := products db; wallets := wallets db;
     orders := v; subscriptions := subscriptions db |}.
Definition set_subscriptions (v : list (Subscription.t Z)) (db : Db) : Db :=
  {| users := users db; products := products db; wallets := wallets db;
     orders := orders db; subscriptions := v |}.

(** What a handler sends back: the status code and the JSON (or text)
    body.  Messages that interpolate numbers keep them as numbers. *)
Inductive Body :=
  | Msg (msg : string)
  | Text (text : string)
  | Errors (fields : list string)
  | InsufficientBalance (required available : Z)
  | InsufficientStock (name : string) (available : Z)
  | OrderJson (order : Order.t)
  | WalletJson (wallet : Wallet.t)
  | TransferJson (fromWallet toWallet : Wallet.t)
  | SubscriptionJson (subscription : Subscription.t Z)
  | SubscriptionCreated (subscription : Subscription.t Z) (isNew : bool).

Record Response := { code : Z; body : Body }.

(** A step of a handler either goes on with a value, has sent its
    response ([return res.status(..).json(..)]), or has thrown. *)
Inductive Outcome (A : Type) :=
  | Val (a : A)
  | Reply (r : Response)
  | Throw (err : string).
Arguments Val {A}.
Arguments Reply {A}.
Arguments Throw {A}.

Definition Handler (A : Type) : Type := Db → Outcome A * Db.

#[global] Instance Handler_ret : MRet Handler := λ A a db, (Val a, db).
#[global] Instance Handler_bind : MBind Handler :=
  λ A B f m db,
    match m db with
    | (Val a, db') => f a db'
    | (Reply r, db') => (Reply r, db')
    | (Throw e, db') => (Throw e, db')
    end.

Definition reply {A} (code : Z) (body : Body) : Handler A :=
  λ db, (Reply {| code := code; body := body |}, db).
(** [res.json(body)] *)
Definition json {A} (body : Body) : Handler A := reply 200 body.
Definition throw {A} (err : string) : Handler A := λ db, (Throw err, db).

(** The [try { ... } catch (err) { res.status(500).send('Server error') }]
    around every handler body. *)
Definition serve (h : Handler Response) (db : Db) : Response * Db :=
  match h db with
  | (Val r, db') => (r, db')
  | (Reply r, db') => (r, db')
  | (Throw _, db') => ({| code := 500; body := Text "Server error" |}, db')
  end.

(** A document in memory: its storage slot and its current fields. *)
Definition Doc (A : Type) : Type := nat * A.

(** *** Queries and saves *)

Definition Wallet_findOne (owner walletType : string) : Handler (option (Doc Wallet.t)) :=
  λ db, (Val (list_find
                (λ w, Wallet.owner w = owner ∧ Wallet.walletType w = walletType)
                (wallets db)), db).

Definition Wallet_save (wallet : Doc Wallet.t) : Handler unit :=
  λ db, (Val (), set_wallets (<[wallet.1 := wallet.2]> (wallets db)) db).

(** [wallet.addTransaction(tx)]: the method with its [save()]. *)
Definition Wallet_addTransaction (wallet : Doc Wallet.t) (tx : Transaction.t)
    : Handler (Doc Wallet.t) :=
  let wallet := (wallet.1, Wallet.addTransaction tx wallet.2) in
  _ ← Wallet_save wallet;
  mret wallet.

Definition Product_findById (id : ObjectId) : Handler (option (Doc Product.t)) :=
  λ db, (Val (list_find (λ p, Product._id p = id) (products db)), db).

Definition Product_save (p : Doc Product.t) : Handler unit :=
  λ db, (Val (), set_products (<[p.1 := p.2]> (products db)) db).

(** [Product.find({ _id: { $in: ids } })] *)
Definition Product_findIn (ids : list ObjectId) : Handler (list Product.t) :=
  λ db, (Val (filter (λ p, Product._id p ∈ ids) (products db)), db).

Definition User_findById (id : ObjectId) : Handler (option (Doc User.t)) :=
  λ db, (Val (list_find (λ u, User._id u = id) (users db)), db).

(** [User.findOne({ roles: role })]: the first user holding the role. *)
Definition User_findOneByRole (role : string) : Handler (option (Doc User.t)) :=
  λ db, (Val (list_find (λ u, role ∈ User.roles u) (users db)), db).

Definition User_save (u : Doc User.t) : Handler unit :=
  λ db, (Val (), set_users (<[u.1 := u.2]> (users db)) db).

Definition Order_findById (id : ObjectId) : Handler (option (Doc Order.t)) :=
  λ db, (Val (list_find (λ o, Order._id o = id) (orders db)), db).

(** [order.save()] on a loaded document whose items were not touched. *)
Definition Order_save (order : Doc Order.t) : Handler (Doc Order.t) :=
  let order := (order.1, Order.preSave false order.2) in
  λ db, (Val order, set_orders (<[order.1 := order.2]> (orders db)) db).

(** [order.save()] on a [new Order(..)]: the items count as modified. *)
Definition Order_insert (order : Order.t) : Handler (Doc Order.t) :=
  let order := Order.preSave true order in
  λ db, (Val (length (orders db), order), set_orders (orders db ++ [order]) db).

Definition Subscription_findOne (seller : ObjectId)
    : Handler (option (Doc (Subscription.t Z))) :=
  λ db, (Val (list_find (λ s, Subscription.seller s = seller) (subscriptions db)), db).

(** Store a subscription at its slot; a new one ([slot] past the end) is
    appended. *)
Definition Subscription_put (s : Doc (Subscription.t Z)) : Handler unit :=
  λ db,
    let subs := subscriptions db in
    (Val (), set_subscriptions
               (if bool_decide (s.1 < length subs)%nat then <[s.1 := s.2]> subs
                else subs ++ [s.2]) db).

(** *** Requests *)

(** Per-request environment: the clock read by [new Date()] and
    [Date.now()], the zone offset of the server, the ObjectId given to a
    document created by the request, and the successive outputs of
    [crypto.randomBytes(10).toString('hex')]. *)
Record Env := {
  now : Z;
  tza : Z;
  newId : ObjectId;
  randomHex : nat → string
}.

(** [req.user], the payload of the token accepted by the [auth]
    middleware. *)
Record ReqUser := { id : ObjectId; user_roles : list string }.

(** [checkRole(roles)] *)
Definition checkRole {A} (roles : list string) (user : ReqUser) (next : Handler A)
    : Handler A :=
  if existsb (λ role, bool_decide (role ∈ user_roles user)) roles then next
  else reply 403 (Msg "Access denied. Insufficient permissions").

(** The fields that fail an express-validator chain; a non-empty list is
    answered with 400. *)
Definition failing (checks : list (string * bool)) : list string :=
  (filter (λ c, c.2 = false) checks).*1.

Definition validated {A} (checks : list (string * bool)) (next : Handler A)
    : Handler A :=
  match failing checks with
  | [] => next
  | errors => reply 400 (Errors errors)
  end.

Definition notEmpty (s : string) : bool := negb (bool_decide (s = "")).

Definition walletTypes : list string := ["buyer"; "seller"; "delivery"; "admin"].

(** ** Wallet routes (POST api/wallet/deposit, withdraw, transfer) *)

Record WalletRequest := {
  wr_amount : Z;
  wr_walletType : string;
  wr_paymentMethod : string;
  wr_paymentDetails : option PaymentDetails
}.

(** [isFloat({ min: 0.01 })] on an integer amount. *)
Definition isPositiveAmount (amount : Z) : bool := bool_decide (0 < amount).

(** [{ ...paymentDetails, transactionId: paymentDetails?.transactionId ||
    reference, provider: paymentDetails?.provider || paymentMethod }] *)
Definition externalDetails (paymentDetails : option PaymentDetails)
    (reference paymentMethod : string) : PaymentDetails :=
  {| provider := Some (orElse (pd ← paymentDetails; provider pd) paymentMethod);
     transactionId := Some (orElse (pd ← paymentDetails; transactionId pd) reference);
     accountNumber := pd ← paymentDetails; accountNumber pd |}.

Definition internalDetails (reference : string) : PaymentDetails :=
  {| provider := Some "internal"; transactionId := Some reference;
     accountNumber := None |}.

Definition postDeposit (env : Env) (user : ReqUser) (req : WalletRequest)
    : Handler Response :=
  validated [("amount", isPositiveAmount (wr_amount req));
             ("walletType", notEmpty (wr_walletType req));
             ("paymentMethod", notEmpty (wr_paymentMethod req))] (
  if negb (bool_decide (wr_walletType req ∈ walletTypes)) then
    reply 400 (Msg "Invalid wallet type")
  else
    wallet ← Wallet_findOne (id user) (wr_walletType req);
    match wallet with
    | None => reply 404 (Msg "Wallet not found")
    | Some wallet =>
        let reference := randomHex env 0 in
        let transaction :=
          {| Transaction.type := deposit;
             Transaction.amount := wr_amount req;
             Transaction.description :=
               "Deposit to " +:+ wr_walletType req +:+ " wallet";
             Transaction.status := TransactionStatus.completed;
             Transaction.reference := reference;
             Transaction.relatedOrder := None;
             Transaction.relatedUser := Some (id user);
             Transaction.paymentMethod := wr_paymentMethod req;
             Transaction.paymentDetails :=
               externalDetails (wr_paymentDetails req) reference
                 (wr_paymentMethod req);
             Transaction.createdAt := now env |} in
        wallet ← Wallet_addTransaction wallet transaction;
        json (WalletJson wallet.2)
    end).

Definition postWithdraw (env : Env) (user : ReqUser) (req : WalletRequest)
    : Handler Response :=
  validated [("amount", isPositiveAmount (wr_amount req));
             ("walletType", notEmpty (wr_walletType req));
             ("paymentMethod", notEmpty (wr_paymentMethod req))] (
  if negb (bool_decide (wr_walletType req ∈ walletTypes)) then
    reply 400 (Msg "Invalid wallet type")
  else
    wallet ← Wallet_findOne (id user) (wr_walletType req);
    match wallet with
    | None => reply 404 (Msg "Wallet not found")
    | Some wallet =>
        if negb (Wallet.hasSufficientBalance (wr_amount req) wallet.2) then
          reply 400 (Msg "Insufficient balance")
        else
          let reference := randomHex env 0 in
          let transaction :=
            {| Transaction.type := withdrawal;
               Transaction.amount := wr_amount req;
               Transaction.description :=
                 "Withdrawal from " +:+ wr_walletType req +:+ " wallet";
               Transaction.status := TransactionStatus.completed;
               Transaction.reference := reference;
               Transaction.relatedOrder := None;
               Transaction.relatedUser := Some (id user);
               Transaction.paymentMethod := wr_paymentMethod req;
               Transaction.paymentDetails :=
                 externalDetails (wr_paymentDetails req) reference
                   (wr_paymentMethod req);
               Transaction.createdAt := now env |} in
          wallet ← Wallet_addTransaction wallet transaction;
          json (WalletJson wallet.2)
    end).

Record TransferRequest := {
  tr_amount : Z;
  tr_fromWalletType : string;
  tr_toWalletType : string
}.

(** The two entries of a transfer; they share one reference. *)
Definition withdrawalTransaction (env : Env) (user : ReqUser)
    (req : TransferRequest) (reference : string) : Transaction.t :=
  {| Transaction.type := withdrawal;
     Transaction.amount := tr_amount req;
     Transaction.description := "Transfer to " +:+ tr_toWalletType req +:+ " wallet";
     Transaction.status := TransactionStatus.completed;
     Transaction.reference := reference;
     Transaction.relatedOrder := None;
     Transaction.relatedUser := Some (id user);
     Transaction.paymentMethod := "internal";
     Transaction.paymentDetails := internalDetails reference;
     Transaction.createdAt := now env |}.

Definition depositTransaction (env : Env) (user : ReqUser)
    (req : TransferRequest) (reference : string) : Transaction.t :=
  {| Transaction.type := deposit;
     Transaction.amount := tr_amount req;
     Transaction.description :=
       "Transfer from " +:+ tr_fromWalletType req +:+ " wallet";
     Transaction.status := TransactionStatus.completed;
     Transaction.reference := reference;
     Transaction.relatedOrder := None;
     Transaction.relatedUser := Some (id user);
     Transaction.paymentMethod := "internal";
     Transaction.paymentDetails := internalDetails reference;
     Transaction.createdAt := now env |}.

Definition postTransfer (env : Env) (user : ReqUser) (req : TransferRequest)
    : Handler Response :=
  validated [("amount", isPositiveAmount (tr_amount req));
             ("fromWalletType", notEmpty (tr_fromWalletType req));
             ("toWalletType", notEmpty (tr_toWalletType req))] (
  if negb (bool_decide (tr_fromWalletType req ∈ walletTypes))
     || negb (bool_decide (tr_toWalletType req ∈ walletTypes)) then
    reply 400 (Msg "Invalid wallet type")
  else if bool_decide (tr_fromWalletType req = tr_toWalletType req) then
    reply 400 (Msg "Cannot transfer to the same wallet")
  else
    fromWallet ← Wallet_findOne (id user) (tr_fromWalletType req);
    match fromWallet with
    | None => reply 404 (Msg "Source wallet not found")
    | Some fromWallet =>
        toWallet ← Wallet_findOne (id user) (tr_toWalletType req);
        match toWallet with
        | None => reply 404 (Msg "Destination wallet not found")
        | Some toWallet =>
            if negb (Wallet.hasSufficientBalance (tr_amount req) fromWallet.2) then
              reply 400 (Msg "Insufficient balance")
            else
              let reference := randomHex env 0 in
              fromWallet ← Wallet_addTransaction fromWallet
                             (withdrawalTransaction env user req reference);
              toWallet ← Wallet_addTransaction toWallet
                           (depositTransaction env user req reference);
              json (TransferJson fromWallet.2 toWallet.2)
        end
    end).

(** ** Order routes (routes/order.routes.js) *)

Record ItemRequest := { ir_product : ObjectId; ir_quantity : Z }.

Record OrderRequest := {
  or_items : list ItemRequest;
  or_shippingAddress : string;
  or_paymentMethod : string
}.

(** A transaction between the platform's own wallets. *)
Definition internalTransaction (env : Env) (type : TransactionType)
    (amount : Z) (description reference : string) (order : Order.t)
    (paymentMethod : string) : Transaction.t :=
  {| Transaction.type := type;
     Transaction.amount := amount;
     Transaction.description := description;
     Transaction.status := TransactionStatus.completed;
     Transaction.reference := reference;
     Transaction.relatedOrder := Some (Order._id order);
     Transaction.relatedUser := None;
     Transaction.paymentMethod := paymentMethod;
     Transaction.paymentDetails := internalDetails reference;
     Transaction.createdAt := now env |}.

(** The first loop of POST api/orders: look every product up, check it,
    and accumulate the line items and the product total. *)
Fixpoint collectItems (items : list ItemRequest) (orderItems : list OrderItem)
    (productTotal : Z) : Handler (list OrderItem * Z) :=
  match items with
  | [] => mret (orderItems, productTotal)
  | item :: rest =>
      found ← Product_findById (ir_product item);
      match found with
      | None => reply 404 (Msg ("Product not found: " +:+ ir_product item))
      | Some (_, product) =>
          if negb (Product.isAvailable product) then
            reply 400 (Msg ("Product is not available: " +:+ Product.name product))
          else if bool_decide (Product.stock product < ir_quantity item) then
            reply 400 (InsufficientStock (Product.name product) (Product.stock product))
          else
            let subtotal := Product.price product * ir_quantity item in
            collectItems rest
              (orderItems ++ [{| product := Product._id product;
                                 quantity := ir_quantity item;
                                 price := Product.price product;
                                 subtotal := subtotal |}])
              (productTotal + subtotal)
      end
  end.

(** The last loop of POST api/orders. *)
Fixpoint reduceStocks (orderItems : list OrderItem) : Handler unit :=
  match orderItems with
  | [] => mret ()
  | item :: rest =>
      found ← Product_findById (product item);
      match found with
      | None => throw "TypeError: Cannot read properties of null"
      | Some (slot, p) =>
          match Product.reduceStock (quantity item) p with
          | None => throw "Insufficient stock"
          | Some p' => _ ← Product_save (slot, p'); reduceStocks rest
          end
      end
  end.

Definition platformFee : Z := 1200.
Definition deliveryFee : Z := 1000.
Definition adminFee : Z := 200.

(** The validation chain of POST api/orders. *)
Definition orderChecks (req : OrderRequest) : list (string * bool) :=
  [("items", negb (bool_decide (or_items req = [])));
   ("items.*.product", forallb (λ i, notEmpty (ir_product i)) (or_items req));
   ("items.*.quantity",
    forallb (λ i, bool_decide (1 ≤ ir_quantity i)) (or_items req));
   ("shippingAddress", notEmpty (or_shippingAddress req));
   ("paymentMethod", notEmpty (or_paymentMethod req))].

Definition postOrder (env : Env) (user : ReqUser) (req : OrderRequest)
    : Handler Response :=
  checkRole ["buyer"] user (
  validated (orderChecks req) (
  '(orderItems, productTotal) ← collectItems (or_items req) [] 0;
  let totalAmount := productTotal + platformFee in
  _ ← (if bool_decide (or_paymentMethod req = "wallet") then
         buyerWallet ← Wallet_findOne (id user) "buyer";
         match buyerWallet with
         | None => reply 404 (Msg "Buyer wallet not found")
         | Some buyerWallet =>
             if negb (Wallet.hasSufficientBalance totalAmount buyerWallet.2) then
               reply 400 (InsufficientBalance totalAmount
                            (Wallet.balance buyerWallet.2))
             else mret ()
         end
       else mret ());
  order ← Order_insert
    {| Order._id := newId env;
       Order.buyer := id user;
       Order.items := orderItems;
       Order.totalAmount := totalAmount;
       Order.platformFee := platformFee;
       Order.deliveryFee := deliveryFee;
       Order.adminFee := adminFee;
       Order.currency := "XOF";
       Order.status := OrderStatus.pending;
       Order.paymentStatus := PaymentStatus.pending;
       Order.paymentMethod := or_paymentMethod req;
       Order.paymentDetails := None;
       Order.shippingAddress := or_shippingAddress req;
       Order.deliveryAgent := None;
       Order.deliveryStatus := DeliveryStatus.pending;
       Order.deliveryProof := noProof;
       Order.estimatedDeliveryDate := Some (now env + 2 * 24 * 60 * 60 * 1000);
       Order.actualDeliveryDate := None |};
  order ← (if bool_decide (or_paymentMethod req = "wallet") then
             buyerWallet ← Wallet_findOne (id user) "buyer";
             match buyerWallet with
             | None => throw "TypeError: Cannot read properties of null"
             | Some buyerWallet =>
                 let reference := randomHex env 0 in
                 let transaction :=
                   internalTransaction env payment totalAmount
                     ("Payment for order #" +:+ Order._id order.2)
                     reference order.2 "wallet" in
                 _ ← Wallet_addTransaction buyerWallet transaction;
                 let paid :=
                   Order.set_paymentDetails
                     (Some {| op_transactionId := reference;
                              op_paymentDate := now env;
                              op_provider := "wallet" |})
                     (Order.set_status OrderStatus.processing
                        (Order.set_paymentStatus PaymentStatus.paid order.2)) in
                 order ← Order_save (order.1, paid);
                 _ ← reduceStocks orderItems;
                 mret order
             end
           else mret order);
  json (OrderJson order.2))).

(** *** Settlement *)

(** [sellerItems[sellerId].push(item)], creating the entry on first use;
    the object's keys keep their insertion order. *)
Fixpoint pushSellerItem (sellerId : string) (item : OrderItem)
    (sellerItems : list (string * list OrderItem)) : list (string * list OrderItem) :=
  match sellerItems with
  | [] => [(sellerId, [item])]
  | (k, its) :: rest =>
      if bool_decide (k = sellerId) then (k, its ++ [item]) :: rest
      else (k, its) :: pushSellerItem sellerId item rest
  end.

(** "Group items by seller" *)
Definition groupBySeller (products : list Product.t) (items : list OrderItem)
    : list (string * list OrderItem) :=
  foldl (λ sellerItems item,
           match list_find (λ p, Product._id p = product item) products with
           | Some (_, p) => pushSellerItem (Product.seller p) item sellerItems
           | None => sellerItems
           end) [] items.

(** "Distribute product price to sellers"; [n] counts the references
    drawn so far. *)
Fixpoint paySellers (env : Env) (order : Order.t)
    (sellerItems : list (string * list OrderItem)) (n : nat) : Handler nat :=
  match sellerItems with
  | [] => mret n
  | (sellerId, its) :: rest =>
      let sellerTotal := foldl (λ total item, total + subtotal item) 0 its in
      sellerWallet ← Wallet_findOne sellerId "seller";
      n ← match sellerWallet with
          | Some sellerWallet =>
              let reference := randomHex env n in
              _ ← Wallet_addTransaction sellerWallet
                    (internalTransaction env deposit sellerTotal
                       ("Payment for order #" +:+ Order._id order)
                       reference order "internal");
              mret (S n)
          | None => mret n
          end;
      paySellers env order rest n
  end.

(** "Distribute delivery fee to delivery agent" *)
Definition payDeliveryAgent (env : Env) (order : Order.t) (n : nat) : Handler nat :=
  match Order.deliveryAgent order with
  | Some agent =>
      deliveryWallet ← Wallet_findOne agent "delivery";
      match deliveryWallet with
      | Some deliveryWallet =>
          let reference := randomHex env n in
          _ ← Wallet_addTransaction deliveryWallet
                (internalTransaction env commission (Order.deliveryFee order)
                   ("Delivery fee for order #" +:+ Order._id order)
                   reference order "internal");
          mret (S n)
      | None => mret n
      end
  | None => mret n
  end.

(** "Distribute admin fee to admin wallet" *)
Definition payAdmin (env : Env) (order : Order.t) (n : nat) : Handler nat :=
  adminUser ← User_findOneByRole "admin";
  match adminUser with
  | Some adminUser =>
      adminWallet ← Wallet_findOne (User._id adminUser.2) "admin";
      match adminWallet with
      | Some adminWallet =>
          let reference := randomHex env n in
          _ ← Wallet_addTransaction adminWallet
                (internalTransaction env fee (Order.adminFee order)
                   ("Admin fee for order #" +:+ Order._id order)
                   reference order "internal");
          mret (S n)
      | None => mret n
      end
  | None => mret n
  end.

Definition distributePayment (env : Env) (order : Doc Order.t)
    : Handler (Doc Order.t) :=
  let productIds := product <$> Order.items order.2 in
  products ← Product_findIn productIds;
  let sellerItems := groupBySeller products (Order.items order.2) in
  n ← paySellers env order.2 sellerItems 0;
  n ← payDeliveryAgent env order.2 n;
  _ ← payAdmin env order.2 n;
  Order_save (order.1, Order.set_paymentStatus PaymentStatus.released order.2).

Definition processRefund (env : Env) (order : Doc Order.t)
    : Handler (Doc Order.t) :=
  buyerWallet ← Wallet_findOne (Order.buyer order.2) "buyer";
  match buyerWallet with
  | Some buyerWallet =>
      let reference := randomHex env 0 in
      _ ← Wallet_addTransaction buyerWallet
            (internalTransaction env refund (Order.totalAmount order.2)
               ("Refund for cancelled order #" +:+ Order._id order.2)
               reference order.2 "internal");
      Order_save (order.1, Order.set_paymentStatus PaymentStatus.refunded order.2)
  | None => mret order
  end.

(** *** PUT api/orders/:id/status (admin) *)
Definition putOrderStatus (env : Env) (user : ReqUser) (orderId : ObjectId)
    (status : OrderStatus.t) : Handler Response :=
  checkRole ["admin"] user (
  order ← Order_findById orderId;
  match order with
  | None => reply 404 (Msg "Order not found")
  | Some order =>
      order ← Order_save (order.1, Order.updateStatus (now env) status order.2);
      order ← (if bool_decide (status = OrderStatus.delivered)
                  && bool_decide (Order.paymentStatus order.2 = PaymentStatus.paid)
               then distributePayment env order else mret order);
      order ← (if bool_decide (status = OrderStatus.cancelled)
                  && bool_decide (Order.paymentStatus order.2 = PaymentStatus.paid)
               then processRefund env order else mret order);
      json (OrderJson order.2)
  end).

(** *** PUT api/orders/:id/assign-delivery (admin) *)
Definition putAssignDelivery (user : ReqUser) (orderId deliveryAgentId : ObjectId)
    : Handler Response :=
  checkRole ["admin"] user (
  validated [("deliveryAgentId", notEmpty deliveryAgentId)] (
  deliveryAgent ← User_findById deliveryAgentId;
  if match deliveryAgent with
     | Some agent => negb (User.hasRole "delivery" agent.2)
     | None => true
     end
  then reply 404 (Msg "Valid delivery agent not found")
  else
    order ← Order_findById orderId;
    match order with
    | None => reply 404 (Msg "Order not found")
    | Some order =>
        order ← Order_save (order.1, Order.assignDeliveryAgent deliveryAgentId order.2);
        json (OrderJson order.2)
    end)).

(** *** PUT api/orders/:id/delivery-status (delivery agent) *)
Definition putDeliveryStatus (env : Env) (user : ReqUser) (orderId : ObjectId)
    (status : DeliveryStatus.t) (proof : DeliveryProof) : Handler Response :=
  checkRole ["delivery"] user (
  validated [("status",
              bool_decide (status ∈ [DeliveryStatus.picked_up;
                                     DeliveryStatus.in_transit;
                                     DeliveryStatus.delivered;
                                     DeliveryStatus.failed]))] (
  order ← Order_findById orderId;
  match order with
  | None => reply 404 (Msg "Order not found")
  | Some order =>
      if negb (bool_decide (Order.deliveryAgent order.2 = Some (id user))) then
        reply 403 (Msg "Not authorized to update this order")
      else
        order ← Order_save
                  (order.1, Order.updateDeliveryStatus (now env) status proof order.2);
        order ← (if bool_decide (status = DeliveryStatus.delivered)
                    && bool_decide (Order.paymentStatus order.2 = PaymentStatus.paid)
                 then distributePayment env order else mret order);
        json (OrderJson order.2)
  end)).

(** *** PUT api/delivery/accept/:id (delivery agent, self-assignment) *)
Definition putAcceptDelivery (user : ReqUser) (orderId : ObjectId)
    : Handler Response :=
  checkRole ["delivery"] user (
  order ← Order_findById orderId;
  match order with
  | None => reply 404 (Msg "Order not found")
  | Some order =>
      if negb (bool_decide (Order.status order.2 = OrderStatus.processing))
         || negb (bool_decide (Order.deliveryStatus order.2 = DeliveryStatus.pending))
         || bool_decide (is_Some (Order.deliveryAgent order.2)) then
        reply 400 (Msg "Order is not available for delivery")
      else
        agent ← User_findById (id user);
        match agent with
        | None => throw "TypeError: Cannot read properties of null"
        | Some agent =>
            if match User.deliveryInfo agent.2 with
               | Some info => negb (deliveryIsAvailable info)
               | None => true
               end
            then reply 400 (Msg "Delivery agent is not available")
            else
              order ← Order_save (order.1, Order.assignDeliveryAgent (id user) order.2);
              json (OrderJson order.2)
        end
  end).

(** ** Subscription routes (routes/subscription.routes.js) *)

Definition planName (plan : Plan) : string :=
  match plan with
  | free_trial => "free_trial"
  | weekly => "weekly"
  | monthly => "monthly"
  | yearly => "yearly"
  end.

Record SubscriptionRequest := {
  sr_plan : Plan;
  sr_paymentMethod : string;
  sr_autoRenew : bool
}.

(** The wallet entry that pays for a subscription. *)
Definition subscriptionPayment (env : Env) (amount : Z)
    (description reference : string) : Transaction.t :=
  {| Transaction.type := payment;
     Transaction.amount := amount;
     Transaction.description := description;
     Transaction.status := TransactionStatus.completed;
     Transaction.reference := reference;
     Transaction.relatedOrder := None;
     Transaction.relatedUser := None;
     Transaction.paymentMethod := "wallet";
     Transaction.paymentDetails := internalDetails reference;
     Transaction.createdAt := now env |}.

(** "Update user's seller info" *)
Definition mirrorSubscription (status type : string)
    (subscription : Subscription.t Z) (user : Doc User.t) : Handler unit :=
  User_save (user.1,
    User.set_sellerInfo
      (Some {| subscriptionStatus := status;
               subscriptionType := type;
               subscriptionStartDate := Some (Subscription.startDate subscription);
               subscriptionEndDate := Subscription.endDate subscription |})
      user.2).

(** [subscription.save()] from a route: the hook on a heap of its own,
    then the write to the collection. *)
Definition Subscription_save (env : Env) (fresh : bool)
    (subscription : Doc (Subscription.t Z)) : Handler (Doc (Subscription.t Z)) :=
  let saved :=
    Subscription.onStored (Subscription.save (tza env) (now env) fresh)
      subscription.2 in
  _ ← Subscription_put (subscription.1, saved);
  mret (subscription.1, saved).

(** The guarded debit shared by the three routes: find the seller
    wallet, check the balance, append the payment. *)
Definition paySubscription (env : Env) (user : ReqUser) (amount : Z)
    (description : string) : Handler string :=
  sellerWallet ← Wallet_findOne (id user) "seller";
  match sellerWallet with
  | None => reply 404 (Msg "Seller wallet not found")
  | Some sellerWallet =>
      if negb (Wallet.hasSufficientBalance amount sellerWallet.2) then
        reply 400 (InsufficientBalance amount (Wallet.balance sellerWallet.2))
      else
        let reference := randomHex env 0 in
        _ ← Wallet_addTransaction sellerWallet
              (subscriptionPayment env amount description reference);
        mret reference
  end.

(** *** POST api/subscription *)
Definition postSubscription (env : Env) (user : ReqUser)
    (req : SubscriptionRequest) : Handler Response :=
  checkRole ["seller"] user (
  validated [("paymentMethod", notEmpty (sr_paymentMethod req))] (
  let plan := sr_plan req in
  account ← User_findById (id user);
  match account with
  | None => throw "TypeError: Cannot read properties of null"
  | Some account =>
      if negb (User.hasRole "seller" account.2) then
        reply 403 (Msg "User is not a seller")
      else
        found ← Subscription_findOne (id user);
        '(subscription, isNew, planModified) ←
          match found with
          | None =>
              λ db,
                (Val ((length (subscriptions db),
                       {| Subscription.seller := id user;
                          Subscription.plan := plan;
                          Subscription.status := SubscriptionStatus.active;
                          Subscription.startDate := now env;
                          Subscription.endDate := None;
                          Subscription.autoRenew := sr_autoRenew req;
                          Subscription.price := 0;
                          Subscription.paymentMethod := sr_paymentMethod req;
                          Subscription.paymentDetails := None;
                          Subscription.renewalHistory := [] |}),
                      true, false), db)
          | Some existing =>
              mret ((existing.1,
                     Subscription.set_paymentMethod (sr_paymentMethod req)
                       (Subscription.set_autoRenew (sr_autoRenew req)
                          (Subscription.set_plan plan existing.2))),
                    false,
                    bool_decide (plan ≠ Subscription.plan existing.2))
          end;
        subscription ←
          (if negb (bool_decide (plan = free_trial)) then
             subscription ← Subscription_save env (isNew || planModified) subscription;
             subscription ←
               (if bool_decide (sr_paymentMethod req = "wallet") then
                  reference ← paySubscription env user
                                (Subscription.price subscription.2)
                                ("Payment for " +:+ planName plan +:+ " subscription");
                  let subscription :=
                    (subscription.1,
                     Subscription.set_paymentDetails
                       (Some {| sp_transactionId := Some reference;
                                sp_paymentDate := Some (now env);
                                sp_provider := Some "wallet" |})
                       subscription.2) in
                  _ ← mirrorSubscription "active" (planName plan) subscription.2 account;
                  mret subscription
                else
                  mret (subscription.1,
                        Subscription.set_status SubscriptionStatus.pending
                          subscription.2));
             Subscription_save env false subscription
           else
             _ ← mirrorSubscription "trial" "free_trial" subscription.2 account;
             Subscription_save env (isNew || planModified) subscription);
        json (SubscriptionCreated subscription.2 isNew)
  end)).

(** *** PUT api/subscription/renew *)
Definition putRenew (env : Env) (user : ReqUser) (paymentMethod : string)
    : Handler Response :=
  checkRole ["seller"] user (
  validated [("paymentMethod", notEmpty paymentMethod)] (
  found ← Subscription_findOne (id user);
  match found with
  | None => reply 404 (Msg "Subscription not found")
  | Some subscription =>
      subscription ←
        (if bool_decide (paymentMethod = "wallet") then
           reference ← paySubscription env user
                         (Subscription.price subscription.2)
                         ("Renewal payment for "
                            +:+ planName (Subscription.plan subscription.2)
                            +:+ " subscription");
           let renewed :=
             Subscription.onStored
               (Subscription.renew (tza env) (now env)
                  (Some {| rp_paymentMethod := Some paymentMethod;
                           rp_transactionId := Some reference;
                           rp_provider := Some "wallet" |}))
               subscription.2 in
           _ ← Subscription_put (subscription.1, renewed);
           account ← User_findById (id user);
           match account with
           | None => throw "TypeError: Cannot read properties of null"
           | Some account =>
               _ ← mirrorSubscription "active"
                     (planName (Subscription.plan renewed)) renewed account;
               mret (subscription.1, renewed)
           end
         else
           Subscription_save env false
             (subscription.1,
              Subscription.set_status SubscriptionStatus.pending subscription.2));
      json (SubscriptionJson subscription.2)
  end)).

(** *** PUT api/subscription/change-plan *)
Definition planPrice (plan : Plan) : Z :=
  match plan with
  | weekly => 2000
  | monthly => 7500
  | yearly => 75000
  | free_trial => 0
  end.

Definition putChangePlan (env : Env) (user : ReqUser) (plan : Plan)
    (paymentMethod : string) : Handler Response :=
  checkRole ["seller"] user (
  validated [("plan", bool_decide (plan ∈ [weekly; monthly; yearly]));
             ("paymentMethod", notEmpty paymentMethod)] (
  found ← Subscription_findOne (id user);
  match found with
  | None => reply 404 (Msg "Subscription not found")
  | Some subscription =>
      subscription ←
        (if bool_decide (paymentMethod = "wallet") then
           let price := planPrice plan in
           reference ← paySubscription env user price
                         ("Payment for changing to " +:+ planName plan
                            +:+ " subscription");
           let changed :=
             Subscription.onStored
               (Subscription.changePlan (tza env) (now env) plan
                  (Some {| rp_paymentMethod := Some paymentMethod;
                           rp_transactionId := Some reference;
                           rp_provider := Some "wallet" |}))
               subscription.2 in
           _ ← Subscription_put (subscription.1, changed);
           account ← User_findById (id user);
           match account with
           | None => throw "TypeError: Cannot read properties of null"
           | Some account =>
               _ ← mirrorSubscription "active" (planName plan) changed account;
               mret (subscription.1, changed)
           end
         else
           Subscription_save env false
             (subscription.1,
              Subscription.set_status SubscriptionStatus.pending subscription.2));
      json (SubscriptionJson subscription.2)
  end)).

(** ** Requests as data *)

Inductive Request :=
  | PostDeposit (req : WalletRequest)
  | PostWithdraw (req : WalletRequest)
  | PostTransfer (req : TransferRequest)
  | PostOrder (req : OrderRequest)
  | PutOrderStatus (orderId : ObjectId) (status : OrderStatus.t)
  | PutAssignDelivery (orderId deliveryAgentId : ObjectId)
  | PutDeliveryStatus (orderId : ObjectId) (status : DeliveryStatus.t)
      (proof : DeliveryProof)
  | PutAcceptDelivery (orderId : ObjectId)
  | PostSubscription (req : SubscriptionRequest)
  | PutRenew (paymentMethod : string)
  | PutChangePlan (plan : Plan) (paymentMethod : string).

Definition handler (env : Env) (user : ReqUser) (r : Request) : Handler Response :=
  match r with
  | PostDeposit req => postDeposit env user req
  | PostWithdraw req => postWithdraw env user req
  | PostTransfer req => postTransfer env user req
  | PostOrder req => postOrder env user req
  | PutOrderStatus orderId status => putOrderStatus env user orderId status
  | PutAssignDelivery orderId agent => putAssignDelivery user orderId agent
  | PutDeliveryStatus orderId status proof =>
      putDeliveryStatus env user orderId status proof
  | PutAcceptDelivery orderId => putAcceptDelivery user orderId
  | PostSubscription req => postSubscription env user req
  | PutRenew paymentMethod => putRenew env user paymentMethod
  | PutChangePlan plan paymentMethod => putChangePlan env user plan paymentMethod
  end.

Definition handle (env : Env) (user : ReqUser) (r : Request) (db : Db)
    : Response * Db :=
  serve (handler env user r) db.

(** The database after a sequence of requests, served one at a time. *)
Definition serveAll (reqs : list (Env * ReqUser * Request)) (db : Db) : Db :=
  foldl (λ db '(env, user, r), (handle env user r db).2) db reqs.

(** Every wallet of the database holds a non-negative balance. *)
Definition nonNegative (db : Db) : Prop :=
  Forall (λ w, 0 ≤ Wallet.balance w) (wallets db).

(** The payment status [after] is [before] or one of the two final
    statuses. *)
Definition settledFrom (before after : PaymentStatus.t) : Prop :=
  after = before ∨ after = PaymentStatus.released ∨ after = PaymentStatus.refunded.

(** The strict transition rule: paid to released or paid to refunded,
    nothing else. *)
Definition paidOnly (before after : PaymentStatus.t) : Prop :=
  after = before ∨
  (before = PaymentStatus.paid ∧
   (after = PaymentStatus.released ∨ after = PaymentStatus.refunded)).

(** The four operations on the payment status of the order stored at a
    slot: the two status routes, and settlement and refund run on the
    order as stored. *)
Inductive PaymentOp :=
  | StatusUpdate (user : ReqUser) (status : OrderStatus.t)
  | DeliveryStatusUpdate (user : ReqUser) (status : DeliveryStatus.t)
      (proof : DeliveryProof)
  | Settlement
  | Refund.

Definition onOrder (f : Doc Order.t → Handler (Doc Order.t)) (slot : nat)
    : Handler Response :=
  λ db,
    match orders db !! slot with
    | Some o => (order ← f (slot, o); json (OrderJson order.2)) db
    | None => reply 404 (Msg "Order not found") db
    end.

Definition paymentOp (env : Env) (slot : nat) (op : PaymentOp) (db : Db) : Db :=
  match orders db !! slot with
  | Some o =>
      (serve
         match op with
         | StatusUpdate user status => putOrderStatus env user (Order._id o) status
         | DeliveryStatusUpdate user status proof =>
             putDeliveryStatus env user (Order._id o) status proof
         | Settlement => onOrder (distributePayment env) slot
         | Refund => onOrder (processRefund env) slot
         end db).2
  | None => db
  end.

(** ** A marketplace with one order in flight

    Two sellers, one buyer, two delivery agents, one admin, each with the
    wallet of their role; an order of the buyer, paid from the wallet,
    with a line of 5000 XOF from seller A and a line of 3000 XOF from
    seller B, carried by the agent. *)

Definition mkUser (i : ObjectId) (role : string) : User.t :=
  {| User._id := i; User.roles := [role]; User.sellerInfo := None;
     User.deliveryInfo := Some {| deliveryIsAvailable := true |} |}.

Definition itemA : OrderItem :=
  {| product := "productA"; quantity := 2; price := 2500; subtotal := 5000 |}.
Definition itemB : OrderItem :=
  {| product := "productB"; quantity := 1; price := 3000; subtotal := 3000 |}.

Definition order1 : Order.t :=
  {| Order._id := "order1"; Order.buyer := "buyer1";
     Order.items := [itemA; itemB];
     Order.totalAmount := 9200; Order.platformFee := 1200;
     Order.deliveryFee := 1000; Order.adminFee := 200;
     Order.currency := "XOF";
     Order.status := OrderStatus.shipped;
     Order.paymentStatus := PaymentStatus.paid;
     Order.paymentMethod := "wallet";
     Order.paymentDetails :=
       Some {| op_transactionId := "ref0"; op_paymentDate := 1704000000000;
               op_provider := "wallet" |};
     Order.shippingAddress := "12 rue du Port, Lome";
     Order.deliveryAgent := Some "agent1";
     Order.deliveryStatus := DeliveryStatus.in_transit;
     Order.deliveryProof := noProof;
     Order.estimatedDeliveryDate := Some 1704172800000;
     Order.actualDeliveryDate := None |}.

Definition market : Db :=
  {| users := [mkUser "buyer1" "buyer"; mkUser "sellerA" "seller";
               mkUser "sellerB" "seller"; mkUser "agent1" "delivery";
               mkUser "admin1" "admin"; mkUser "agent2" "delivery"];
     products :=
       [{| Product._id := "productA"; Product.name := "Pagne";
           Product.price := 2500; Product.seller := "sellerA";
           Product.stock := 8; Product.isAvailable := true |};
        {| Product._id := "productB"; Product.name := "Panier";
           Product.price := 3000; Product.seller := "sellerB";
           Product.stock := 4; Product.isAvailable := true |}];
     wallets := [Wallet.new "buyer1" "buyer"; Wallet.new "sellerA" "seller";
                 Wallet.new "sellerB" "seller"; Wallet.new "agent1" "delivery";
                 Wallet.new "admin1" "admin"; Wallet.new "agent2" "delivery"];
     orders := [order1];
     subscriptions := [] |}.

Definition env1 : Env :=
  {| now := 1704067200000; tza := 0; newId := "order2";
     randomHex := λ n, "ref" +:+ pretty n |}.

Definition admin1 : ReqUser := {| id := "admin1"; user_roles := ["admin"] |}.
Definition agent1 : ReqUser := {| id := "agent1"; user_roles := ["delivery"] |}.
Definition agent2 : ReqUser := {| id := "agent2"; user_roles := ["delivery"] |}.
Definition buyer1 : ReqUser := {| id := "buyer1"; user_roles := ["buyer"] |}.

Definition balances (db : Db) : list Z := Wallet.balance <$> wallets db.
Definition paymentStatuses (db : Db) : list PaymentStatus.t :=
  Order.paymentStatus <$> orders db.

(** The signed amount by which [addTransaction] moves the balance. *)
Definition signedAmount (tx : Transaction.t) : Z :=
  if isCredit tx then Transaction.amount tx
  else if isDebit tx then - Transaction.amount tx
  else 0.


(** The same marketplace with the order's payment status replaced. *)
Definition marketWith (ps : PaymentStatus.t) : Db :=
  set_orders [Order.set_paymentStatus ps order1] market.

Definition deliveryAgents (db : Db) : list (option ObjectId) :=
  Order.deliveryAgent <$> orders db.

(** The outcomes of settling [order1]: through the admin's status
    update, through the agent's delivery-status update, and by
    [distributePayment] run on the stored order. *)
Definition deliveredByAdmin : Response * Db :=
  handle env1 admin1 (PutOrderStatus "order1" OrderStatus.delivered) market.
Definition deliveredByAgent : Response * Db :=
  handle env1 agent1
    (PutDeliveryStatus "order1" DeliveryStatus.delivered noProof) market.
Definition settledDirectly : Response * Db :=
  serve (onOrder (distributePayment env1) 0) market.

(** The outcomes of cancelling [order1]: through the admin's status
    update, and by [processRefund] run on the stored order. *)
Definition cancelledByAdmin : Response * Db :=
  handle env1 admin1 (PutOrderStatus "order1" OrderStatus.cancelled) market.
Definition refundedDirectly : Response * Db :=
  serve (onOrder (processRefund env1) 0) market.


(** Slot by slot, [after] holds the orders of [before] with their payment
    status unchanged or moved to released or refunded. *)
Definition settles (before after : list Order.t) : Prop :=
  ∀ i o, before !! i = Some o →
    ∃ o', after !! i = Some o'
          ∧ settledFrom (Order.paymentStatus o) (Order.paymentStatus o').


(** A sequence of operations on stored orders, each at its own slot. *)
Definition paymentOps (ops : list (Env * nat * PaymentOp)) (db : Db) : Db :=
  foldl (λ db '(env, slot, op), paymentOp env slot op db) db ops.





(** ** A monthly subscription renewed on 2024-01-01

    The cycle that ends runs from 2023-12-01 to 2024-01-01 (UTC); the
    renewal is executed at 2024-01-01T00:00:00Z on a server in UTC. *)

Definition utc (y m d : Z) : Z := JsDate.MakeDate (JsDate.daysFromCivil y m d) 0.

Definition subscriptionDec : Subscription.t Z :=
  {| Subscription.seller := "sellerA";
     Subscription.plan := monthly;
     Subscription.status := SubscriptionStatus.active;
     Subscription.startDate := utc 2023 12 1;
     Subscription.endDate := Some (utc 2024 1 1);
     Subscription.autoRenew := false;
     Subscription.price := 7500;
     Subscription.paymentMethod := "wallet";
     Subscription.paymentDetails := None;
     Subscription.renewalHistory := [] |}.

Definition renewalPayment : RenewalPayment :=
  {| rp_paymentMethod := Some "wallet"; rp_transactionId := Some "ref0";
     rp_provider := Some "wallet" |}.

Definition renewedJan : Subscription.t Z :=
  Subscription.onStored
    (Subscription.renew 0 (utc 2024 1 1) (Some renewalPayment)) subscriptionDec.

(** The end of the cycle that [renew] and the pre-save hook compute for a
    plan from the time [now]. *)
Definition cycleEnd (tza : Z) (plan : Plan) (now : Z) : Z :=
  let t := JsDate.LocalTime tza now in
  match plan with
  | free_trial => JsDate.withMonth tza (JsDate.MonthFromTime t + 2) now
  | weekly => JsDate.withDate tza (JsDate.DateFromTime t + 7) now
  | monthly => JsDate.withMonth tza (JsDate.MonthFromTime t + 1) now
  | yearly => JsDate.withFullYear tza (JsDate.YearFromTime t + 1) now
  end.


(** ** Sample inputs *)

Definition ledgerEntry (type : TransactionType) (amount : Z) (reference : string)
    : Transaction.t :=
  {| Transaction.type := type; Transaction.amount := amount;
     Transaction.description := "entry";
     Transaction.status := TransactionStatus.completed;
     Transaction.reference := reference;
     Transaction.relatedOrder := None; Transaction.relatedUser := None;
     Transaction.paymentMethod := "internal";
     Transaction.paymentDetails := internalDetails reference;
     Transaction.createdAt := 1704067200000 |}.

(** Seller A, who also buys: 8000 XOF earned on the seller wallet and an
    empty buyer wallet. *)
Definition sellerA : ReqUser := {| id := "sellerA"; user_roles := ["seller"; "buyer"] |}.

Definition sellerAWallet : Wallet.t :=
  Wallet.addTransaction (ledgerEntry deposit 8000 "b1") (Wallet.new "sellerA" "seller").

Definition bank : Db :=
  set_wallets [sellerAWallet; Wallet.new "sellerA" "buyer"] market.

(** Buyer 1 orders two units of product A. *)
Definition orderTwoOfA (paymentMethod : string) : OrderRequest :=
  {| or_items := [{| ir_product := "productA"; ir_quantity := 2 |}];
     or_shippingAddress := "12 rue du Port, Lome";
     or_paymentMethod := paymentMethod |}.

Definition createdOrder : Order.t :=
  match body (handle env1 buyer1 (PostOrder (orderTwoOfA "mobile_money")) market).1 with
  | OrderJson o => o
  | _ => order1
  end.

Definition busyDay : list (Env * ReqUser * Request) :=
  [(env1, buyer1,
    PostDeposit {| wr_amount := 7000; wr_walletType := "buyer";
                   wr_paymentMethod := "mobile_money";
                   wr_paymentDetails := None |});
   (env1, buyer1, PostOrder (orderTwoOfA "wallet"));
   (env1, buyer1,
    PostWithdraw {| wr_amount := 5000; wr_walletType := "buyer";
                    wr_paymentMethod := "mobile_money";
                    wr_paymentDetails := None |});
   (env1, admin1, PutOrderStatus "order1" OrderStatus.delivered);
   (env1, admin1, PutOrderStatus "order2" OrderStatus.cancelled)].

Definition lateOps : list (Env * nat * PaymentOp) :=
  [(env1, 0%nat, StatusUpdate admin1 OrderStatus.delivered);
   (env1, 0%nat, Refund);
   (env1, 0%nat, DeliveryStatusUpdate agent1 DeliveryStatus.failed noProof)].

(** ** Further code

    The rest of the subscription model, the transaction schema's list of
    payment methods and four more routes.  The handlers of these routes
    answer with a document; their value is the document sent by
    [res.json]. *)

(** *** Wallet model: the transaction schema *)

(** The payment methods that the transaction schema admits
    ([enum] of [transactionSchema.paymentMethod]). *)
Definition transactionMethods : list string :=
  ["mobile_money"; "credit_card"; "bank_transfer"; "internal"].

(** *** Subscription model: queries *)

(** [subscriptionSchema.methods.isActive] at the time [now]; a missing
    end date compares false. *)
Definition isActive (now : Z) (this : Subscription.t Z) : bool :=
  bool_decide (Subscription.status this = SubscriptionStatus.active)
  && match Subscription.endDate this with
     | Some endDate => bool_decide (now ≤ endDate)
     | None => false
     end.

(** A query condition ([$lt], [$lte], [$gt]) on a date field: a document
    without the field does not match. *)
Definition dateMatches (cond : Z → Prop) (date : option Z) : Prop :=
  match date with
  | Some d => cond d
  | None => False
  end.

#[global] Instance dateMatches_dec (cond : Z → Prop) `{∀ d, Decision (cond d)}
    (date : option Z) : Decision (dateMatches cond date).
Proof. destruct date; simpl; apply _. Defined.

(** [subscriptionSchema.statics.findExpiring]: [created] is the time at
    which [thresholdDate] is made, [now] the time of the [new Date()] in
    the query. *)
Definition findExpiring (tza created now daysThreshold : Z)
    (subs : list (Subscription.t Z)) : list (Subscription.t Z) :=
  let thresholdDate :=
    JsDate.withDate tza
      (JsDate.DateFromTime (JsDate.LocalTime tza created) + daysThreshold)
      created in
  filter (λ s, Subscription.status s = SubscriptionStatus.active
               ∧ dateMatches (λ endDate, endDate ≤ thresholdDate ∧ now < endDate)
                   (Subscription.endDate s)) subs.

(** [subscriptionSchema.statics.findExpired] *)
Definition findExpired (now : Z) (subs : list (Subscription.t Z))
    : list (Subscription.t Z) :=
  filter (λ s, Subscription.status s = SubscriptionStatus.active
               ∧ dateMatches (λ endDate, endDate < now)
                   (Subscription.endDate s)) subs.

(** *** PUT api/subscription/cancel (routes/subscription.routes.js) *)

(** [user.sellerInfo = user.sellerInfo || {};
     user.sellerInfo.subscriptionStatus = 'cancelled'];
    a seller record that was never filled has the schema's default
    subscription type. *)
Definition cancelledInfo (info : option SellerInfo) : SellerInfo :=
  match info with
  | Some info =>
      {| subscriptionStatus := "cancelled";
         subscriptionType := subscriptionType info;
         subscriptionStartDate := subscriptionStartDate info;
         subscriptionEndDate := subscriptionEndDate info |}
  | None =>
      {| subscriptionStatus := "cancelled";
         subscriptionType := "none";
         subscriptionStartDate := None;
         subscriptionEndDate := None |}
  end.

Definition putCancel (env : Env) (user : ReqUser)
    : Handler (Subscription.t Z) :=
  checkRole ["seller"] user (
  found ← Subscription_findOne (id user);
  match found with
  | None => reply 404 (Msg "Subscription not found")
  | Some subscription =>
      subscription ←
        Subscription_save env false
          (subscription.1,
           Subscription.set_autoRenew false
             (Subscription.set_status SubscriptionStatus.cancelled
                subscription.2));
      account ← User_findById (id user);
      match account with
      | None => throw "TypeError: Cannot read properties of null"
      | Some account =>
          _ ← User_save
                (account.1,
                 User.set_sellerInfo
                   (Some (cancelledInfo (User.sellerInfo account.2)))
                   account.2);
          mret subscription.2
      end
  end).

(** *** POST api/products (routes/product.routes.js) *)

Record ProductRequest := {
  pr_name : string;
  pr_description : string;
  pr_price : Z;
  pr_category : string;
  pr_stock : Z
}.

(** "Allow if in free trial period" *)
Definition inFreeTrial (now : Z) (account : User.t) : bool :=
  match User.sellerInfo account with
  | Some info =>
      bool_decide (subscriptionStatus info = "trial")
      && match subscriptionEndDate info with
         | Some endDate => bool_decide (now ≤ endDate)
         | None => false
         end
  | None => false
  end.

(** [product.save()] on a [new Product(..)] *)
Definition Product_insert (p : Product.t) : Handler Product.t :=
  λ db, (Val p, set_products (products db ++ [p]) db).

Definition postProduct (env : Env) (user : ReqUser) (req : ProductRequest)
    : Handler Product.t :=
  checkRole ["seller"] user (
  validated [("name", notEmpty (pr_name req));
             ("description", notEmpty (pr_description req));
             ("price", bool_decide (0 ≤ pr_price req));
             ("category", notEmpty (pr_category req));
             ("stock", bool_decide (0 ≤ pr_stock req))] (
  account ← User_findById (id user);
  subscription ← Subscription_findOne (id user);
  let create : Handler Product.t :=
    Product_insert
      {| Product._id := newId env;
         Product.name := pr_name req;
         Product.price := pr_price req;
         Product.seller := id user;
         Product.stock := pr_stock req;
         Product.isAvailable := true |} in
  if match subscription with
     | Some subscription => negb (isActive (now env) subscription.2)
     | None => true
     end
  then
    match account with
    | None => throw "TypeError: Cannot read properties of null"
    | Some account =>
        if negb (inFreeTrial (now env) account.2) then
          reply 403 (Msg ("Active subscription required to create products. "
                            +:+ "Please subscribe to a plan."))
        else create
    end
  else create)).

(** *** PUT api/products/:id *)




(** *** PUT api/users/remove-role/:id (routes/user.routes.js) *)

Definition knownRoles : list string :=
  ["buyer"; "seller"; "delivery"; "admin"; "customer_service"].

Definition User_set_roles (v : list string) (this : User.t) : User.t :=
  {| User._id := User._id this; User.roles := v;
     User.sellerInfo := User.sellerInfo this;
     User.deliveryInfo := User.deliveryInfo this |}.

Definition putRemoveRole (user : ReqUser) (userId : ObjectId) (role : string)
    : Handler User.t :=
  checkRole ["admin"] user (
  validated [("role", notEmpty role)] (
  target ← User_findById userId;
  match target with
  | None => reply 404 (Msg "User not found")
  | Some target =>
      if negb (bool_decide (role ∈ knownRoles)) then
        reply 400 (Msg "Invalid role")
      else if negb (User.hasRole role target.2) then
        reply 400 (Msg ("User does not have " +:+ role +:+ " role"))
      else if bool_decide (length (User.roles target.2) = 1%nat) then
        reply 400 (Msg "Cannot remove the last role")
      else
        let updated :=
          User_set_roles (filter (λ r, r ≠ role) (User.roles target.2)) target.2 in
        _ ← User_save (target.1, updated);
        mret updated
  end)).

(** *** PUT api/delivery/availability (routes/delivery.routes.js) *)

Definition User_set_deliveryInfo (v : option DeliveryInfo) (this : User.t)
    : User.t :=
  {| User._id := User._id this; User.roles := User.roles this;
     User.sellerInfo := User.sellerInfo this; User.deliveryInfo := v |}.

(** The body carries a boolean (the [isBoolean] check has passed); the
    value sent back is [user.deliveryInfo.isAvailable]. *)
Definition putAvailability (user : ReqUser) (isAvailable : bool)
    : Handler bool :=
  checkRole ["delivery"] user (
  account ← User_findById (id user);
  match account with
  | None => reply 404 (Msg "User not found")
  | Some account =>
      let updated :=
        User_set_deliveryInfo
          (Some {| deliveryIsAvailable := isAvailable |}) account.2 in
      _ ← User_save (account.1, updated);
      mret isAvailable
  end).

(** ** Further vocabulary for the properties *)

(** A response that refuses the request: 400, 403 or 404. *)
Definition isRejection (r : Response) : bool :=
  bool_decide (code r ∈ [400; 403; 404]).

(** The role that [checkRole] demands in front of a route; the wallet
    routes ask for a token only. *)
Definition requiredRole (r : Request) : option string :=
  match r with
  | PostDeposit _ | PostWithdraw _ | PostTransfer _ => None
  | PostOrder _ => Some "buyer"
  | PutOrderStatus _ _ | PutAssignDelivery _ _ => Some "admin"
  | PutDeliveryStatus _ _ _ | PutAcceptDelivery _ => Some "delivery"
  | PostSubscription _ | PutRenew _ | PutChangePlan _ _ => Some "seller"
  end.

Definition accessDenied : Response :=
  {| code := 403; body := Msg "Access denied. Insufficient permissions" |}.

(** The seller of the product of a line item, when that product is
    among [products]. *)
Definition sellerOf (products : list Product.t) (item : OrderItem)
    : option ObjectId :=
  match list_find (λ p, Product._id p = product item) products with
  | Some (_, p) => Some (Product.seller p)
  | None => None
  end.

(** The seller's subscription is stored as cancelled and the seller
    record of the account says cancelled. *)
Definition shopClosed (user : ReqUser) (db : Db) : Prop :=
  (∃ i s, list_find (λ x, Subscription.seller x = id user) (subscriptions db)
          = Some (i, s)
          ∧ Subscription.status s = SubscriptionStatus.cancelled)
  ∧ (∃ u account info,
       list_find (λ x, User._id x = id user) (users db) = Some (u, account)
       ∧ User.sellerInfo account = Some info
       ∧ subscriptionStatus info = "cancelled").


(** *** Subscriptions read back from the heap *)

(** A document with every date replaced through [f]: with
    [f r = h !!! r] it is what [store] reads from the heap [h]. *)
Definition mapPayment {D E} (f : D → E) (p : SubscriptionPayment D)
    : SubscriptionPayment E :=
  {| sp_transactionId := sp_transactionId p;
     sp_paymentDate := f <$> sp_paymentDate p;
     sp_provider := sp_provider p |}.

Definition mapRenewal {D E} (f : D → E) (r : Renewal D) : Renewal E :=
  {| r_plan := r_plan r; r_startDate := f (r_startDate r);
     r_endDate := f <$> r_endDate r; r_price := r_price r;
     r_paymentMethod := r_paymentMethod r;
     r_transactionId := r_transactionId r; r_status := r_status r |}.

Definition mapDates {D E} (f : D → E) (this : Subscription.t D)
    : Subscription.t E :=
  {| Subscription.seller := Subscription.seller this;
     Subscription.plan := Subscription.plan this;
     Subscription.status := Subscription.status this;
     Subscription.startDate := f (Subscription.startDate this);
     Subscription.endDate := f <$> Subscription.endDate this;
     Subscription.autoRenew := Subscription.autoRenew this;
     Subscription.price := Subscription.price this;
     Subscription.paymentMethod := Subscription.paymentMethod this;
     Subscription.paymentDetails :=
       mapPayment f <$> Subscription.paymentDetails this;
     Subscription.renewalHistory :=
       mapRenewal f <$> Subscription.renewalHistory this |}.

(** What an allocation [ld] leaves on the heap is read back by [rd] for
    good: the heap only grows, and the value is found again under every
    further growth. *)
Definition allocates {A B} (ld : A → JsDate.Js B)
    (rd : JsDate.Heap → B → A) : Prop :=
  ∀ a h, ∃ tail, (ld a h).2 = h ++ tail
                 ∧ ∀ ext, rd (h ++ tail ++ ext) (ld a h).1 = a.

(** The entry that [renew] pushes on [renewalHistory], in terms of the
    stored document: the cycle as it was. *)
Definition archived (s : Subscription.t Z) : Renewal Z :=
  {| r_plan := Subscription.plan s;
     r_startDate := Subscription.startDate s;
     r_endDate := Subscription.endDate s;
     r_price := Subscription.price s;
     r_paymentMethod := Subscription.paymentMethod s;
     r_transactionId := p ← Subscription.paymentDetails s; sp_transactionId p;
     r_status := Subscription.status s |}.

(** The least and the greatest number of days in a cycle of a plan. *)
Definition cycleDays (plan : Plan) : Z * Z :=
  match plan with
  | free_trial => (59, 62)
  | weekly => (7, 7)
  | monthly => (28, 31)
  | yearly => (365, 366)
  end.

(** ** Further sample inputs *)

(** The marketplace with [order1] paid and waiting for an agent. *)
Definition openOrder : Order.t :=
  Order.set_deliveryStatus DeliveryStatus.pending
    (Order.set_deliveryAgent None
       (Order.set_status OrderStatus.processing order1)).

Definition dispatch : Db := set_orders [openOrder] market.

(** The last two units of a product. *)
Definition lastTwo : Product.t :=
  {| Product._id := "productC"; Product.name := "Calebasse";
     Product.price := 1500; Product.seller := "sellerA";
     Product.stock := 2; Product.isAvailable := true |}.

(** Seller A with 8000 XOF on the seller wallet and the monthly
    subscription of December on file. *)
Definition subscribed : Db := set_subscriptions [subscriptionDec] bank.

(** A valid product request. *)
Definition newBasket : ProductRequest :=
  {| pr_name := "Corbeille"; pr_description := "Corbeille tressee";
     pr_price := 1800; pr_category := "artisanat"; pr_stock := 5 |}.



(** A user holding two roles. *)
Definition sellerAndBuyer : User.t :=
  {| User._id := "sellerA"; User.roles := ["seller"; "buyer"];
     User.sellerInfo := None; User.deliveryInfo := None |}.

Definition twoRoles : Db := set_users [sellerAndBuyer; mkUser "admin1" "admin"] market.

(** Seller A after cancelling the subscription. *)
Definition cancelledShop : Db := (putCancel env1 sellerA subscribed).2.

(** ** JavaScript numbers

    An amount read by [parseFloat] and a balance moved by [+=] and [-=]
    are IEEE 754 doubles.  Every finite double is a whole number of
    units of 2^-1074 and is held here as that number of units, so that
    sums are exact integers before they are rounded; [+0] and [-0] are
    one value. *)

Module Number.
Inductive t := Finite (units : Z) | Infinity (negative : bool) | NaN.

#[global] Instance t_eq_dec : EqDecision t.
Proof. solve_decision. Defined.

(** The units in 1. *)
Definition scale : Z := 2 ^ 1074.
(** The first magnitude, in units, past the largest double (2^1024). *)
Definition overflow : Z := 2 ^ 2098.
(** [Number.MAX_SAFE_INTEGER] *)
Definition MAX_SAFE_INTEGER : Z := 2 ^ 53 - 1.

Definition zero : t := Finite 0.
(** The whole number [n]. *)
Definition ofZ (n : Z) : t := Finite (n * scale).
(** [m * 2^e], for [-1074 <= e]. *)
Definition dyadic (m e : Z) : t := Finite (m * 2 ^ (e + 1074)).

Definition isNaN (x : t) : bool :=
  match x with NaN => true | _ => false end.

(** A whole number no larger in magnitude than [MAX_SAFE_INTEGER]. *)
Definition isSafeInteger (x : t) : bool :=
  match x with
  | Finite u =>
      bool_decide (u `mod` scale = 0)
      && bool_decide (Z.abs (u `div` scale) ≤ MAX_SAFE_INTEGER)
  | _ => false
  end.

(** The whole number held by a double, for [isSafeInteger] values. *)
Definition toZ (x : t) : Z :=
  match x with Finite u => u `div` scale | _ => 0 end.

(** A magnitude rounded to 53 significant bits, to nearest, ties to
    even. *)
Definition roundUnits (s : Z) : Z :=
  let shift := Z.log2 s - 52 in
  if bool_decide (shift ≤ 0) then s
  else
    let q := s `div` 2 ^ shift in
    let r := s `mod` 2 ^ shift in
    let half := 2 ^ (shift - 1) in
    (if bool_decide (half < r) || (bool_decide (r = half) && Z.odd q)
     then q + 1 else q) * 2 ^ shift.

(** The double nearest to [s] units. *)
Definition round (s : Z) : t :=
  let a := roundUnits (Z.abs s) in
  if bool_decide (overflow ≤ a) then Infinity (bool_decide (s < 0))
  else Finite (Z.sgn s * a).

(** [-x] *)
Definition opp (x : t) : t :=
  match x with
  | Finite u => Finite (- u)
  | Infinity s => Infinity (negb s)
  | NaN => NaN
  end.

(** [x + y] *)
Definition add (x y : t) : t :=
  match x, y with
  | Finite u, Finite v => round (u + v)
  | Finite _, Infinity s | Infinity s, Finite _ => Infinity s
  | Infinity s, Infinity s' => if bool_decide (s = s') then Infinity s else NaN
  | _, _ => NaN
  end.

(** [x - y] *)
Definition sub (x y : t) : t := add x (opp y).

(** [x >= y] *)
Definition geb (x y : t) : bool :=
  match x, y with
  | Finite u, Finite v => bool_decide (v ≤ u)
  | Infinity false, (Finite _ | Infinity _) => true
  | Finite _, Infinity true => true
  | Infinity true, Infinity true => true
  | _, _ => false
  end.

(** The value of a primitive double. *)
Definition ofFloat (x : PrimFloat.float) : t :=
  match FloatOps.Prim2SF x with
  | SpecFloat.S754_zero _ => Finite 0
  | SpecFloat.S754_finite s m e =>
      Finite ((if s then -1 else 1) * Z.pos m * 2 ^ (e + 1074))
  | SpecFloat.S754_infinity s => Infinity s
  | SpecFloat.S754_nan => NaN
  end.
End Number.

(** Pairs of doubles on which [Number] is run against the primitive
    doubles of the kernel: decimal fractions, the edge of the safe
    integers, ties, subnormals, overflow, infinities and NaN. *)
Module NumberSamples.
Import PrimFloat.
Definition pairs : list (float * float) :=
  [(0x1.999999999999ap-4, 0x1.999999999999ap-3);
   (0x1.3333333333334p-2, 0x1.3333333333333p-2);
   (0x1p-1, 0x1.999999999999ap-4);
   (0x1.e848033333333p19, 0x1.3333333333333p-2);
   (0x1p53, 0x1p0); (0x1p53, 0x1p1); (0x1p53, 0x1.8p1);
   (0x1.0000000000001p53, 0x1p0); (0x1.fffffffffffffp52, 0x1p0);
   (0x1p0, 0x1p-53); (0x1p0, 0x1.8p-53); (0x1.0000000000001p0, 0x1p-53);
   (-0x1p0, 0x1p-54); (0x1.234567p10, -0x1.234566fff1p10);
   (0x1p-1074, 0x1p-1074); (0x1.5p-1070, 0x1.fffffffffffffp-1022);
   (0x1p-1022, -0x1p-1074);
   (0x1.fffffffffffffp1023, 0x1p970); (0x1.fffffffffffffp1023, 0x1p969);
   (0x1.fffffffffffffp1023, 0x1.fffffffffffffp1023);
   (-0x1.fffffffffffffp1023, -0x1p1000);
   (0x0p0, 0x0p0); (0x0p0, -0x1p0);
   (infinity, neg_infinity); (infinity, infinity); (infinity, 0x1p0);
   (neg_infinity, 0x1p0); (0x1p0, infinity); (nan, 0x1p0); (0x1p0, nan)]%float.

(** [x + y], [x - y] and [x >= y] of the primitive doubles. *)
Definition primitive (p : float * float) : Number.t * Number.t * bool :=
  (Number.ofFloat (p.1 + p.2), Number.ofFloat (p.1 - p.2), (p.2 <=? p.1))%float.
End NumberSamples.

(** The same three of [Number]. *)
Definition modelled (p : PrimFloat.float * PrimFloat.float)
    : Number.t * Number.t * bool :=
  let x := Number.ofFloat p.1 in
  let y := Number.ofFloat p.2 in
  (Number.add x y, Number.sub x y, Number.geb x y).

(** ** The wallet collection as MongoDB keeps it

    The wallet routes and the subscription debit once more, with what
    the integer model above leaves out: an amount is the double that
    [parseFloat] gives, [save()] validates the pushed transaction
    against [transactionSchema] before it writes, and the collection
    carries the unique index of [transactionSchema.reference]. *)

Module Stored.

Module Transaction.
Record t := mk {
  type : TransactionType;
  amount : Number.t;
  description : string;
  status : TransactionStatus.t;
  reference : string;
  relatedOrder : option ObjectId;
  relatedUser : option ObjectId;
  paymentMethod : string;
  paymentDetails : PaymentDetails;
  createdAt : Z
}.
End Transaction.

Module Wallet.
Record t := mk {
  owner : ObjectId;
  walletType : string;
  balance : Number.t;
  currency : string;
  isActive : bool;
  transactions : list Transaction.t
}.

(** [walletSchema.methods.addTransaction], the in-memory part. *)
Definition addTransaction (transactionData : Transaction.t) (this : t) : t :=
  let pushed := transactions this ++ [transactionData] in
  let ty := Transaction.type transactionData in
  let balance' :=
    if bool_decide (ty ∈ [deposit; refund; commission]) then
      Number.add (balance this) (Transaction.amount transactionData)
    else if bool_decide (ty ∈ [withdrawal; payment; fee]) then
      Number.sub (balance this) (Transaction.amount transactionData)
    else balance this in
  {| owner := owner this; walletType := walletType this;
     balance := balance'; currency := currency this;
     isActive := isActive this; transactions := pushed |}.

(** [walletSchema.methods.hasSufficientBalance] *)
Definition hasSufficientBalance (amount : Number.t) (this : t) : bool :=
  Number.geb (balance this) amount.

(** The keys that a document has in the index of
    [transactions.reference]. *)
Definition references (this : t) : list string :=
  Transaction.reference <$> transactions this.
End Wallet.

(** What a handler sends back, and how a step of it ends. *)
Inductive Body :=
  | Msg (msg : string)
  | Errors (fields : list string)
  | InsufficientBalance (required available : Number.t).

Inductive Outcome (A : Type) :=
  | Val (a : A)
  | Reply (code : Z) (body : Body)
  | Throw (err : string).
Arguments Val {A}.
Arguments Reply {A}.
Arguments Throw {A}.

Definition Action (A : Type) : Type := list Wallet.t → Outcome A * list Wallet.t.

#[global] Instance Action_ret : MRet Action := λ A a ws, (Val a, ws).
#[global] Instance Action_bind : MBind Action :=
  λ A B f m ws,
    match m ws with
    | (Val a, ws') => f a ws'
    | (Reply c b, ws') => (Reply c b, ws')
    | (Throw e, ws') => (Throw e, ws')
    end.

Definition reply {A} (code : Z) (body : Body) : Action A :=
  λ ws, (Reply code body, ws).
Definition throw {A} (err : string) : Action A := λ ws, (Throw err, ws).

(** The status code that the client sees: [res.json] answers 200, the
    [catch] around every handler body answers 500. *)
Definition status {A} (o : Outcome A) : Z :=
  match o with
  | Val _ => 200
  | Reply c _ => c
  | Throw _ => 500
  end.

Definition validated {A} (checks : list (string * bool)) (next : Action A)
    : Action A :=
  match failing checks with
  | [] => next
  | errors => reply 400 (Errors errors)
  end.

Definition findOne (owner walletType : string) : Action (option (Doc Wallet.t)) :=
  λ ws, (Val (list_find
                (λ w, Wallet.owner w = owner ∧ Wallet.walletType w = walletType)
                ws), ws).

(** The validators of [transactionSchema] on a pushed transaction: a
    number for [amount], the required strings, the [enum] of
    [paymentMethod]. *)
Definition validTransaction (tx : Transaction.t) : bool :=
  negb (Number.isNaN (Transaction.amount tx))
  && notEmpty (Transaction.description tx)
  && notEmpty (Transaction.reference tx)
  && bool_decide (Transaction.paymentMethod tx ∈ transactionMethods).

(** The unique index: the reference is a key of another document. *)
Definition heldElsewhere (slot : nat) (reference : string) (ws : list Wallet.t)
    : bool :=
  existsb (λ other, bool_decide (reference ∈ Wallet.references other))
    (delete slot ws).

(** [this.save()] after a push: validation, then the write, which the
    unique index may refuse; a refused save stores nothing. *)
Definition save (wallet : Doc Wallet.t) (pushed : Transaction.t) : Action unit :=
  λ ws,
    if negb (validTransaction pushed)
       || Number.isNaN (Wallet.balance wallet.2) then
      (Throw "ValidationError", ws)
    else if heldElsewhere wallet.1 (Transaction.reference pushed) ws then
      (Throw "E11000 duplicate key error", ws)
    else (Val (), <[wallet.1 := wallet.2]> ws).

(** [wallet.addTransaction(tx)]: the method with its [save()]. *)
Definition addTransaction (wallet : Doc Wallet.t) (tx : Transaction.t)
    : Action (Doc Wallet.t) :=
  let wallet := (wallet.1, Wallet.addTransaction tx wallet.2) in
  _ ← save wallet tx;
  mret wallet.

Record WalletRequest := {
  wr_amount : Number.t;
  wr_walletType : string;
  wr_paymentMethod : string;
  wr_paymentDetails : option PaymentDetails
}.

(** 0.01 as a double: 0x1.47ae147ae147bp-7. *)
Definition minAmount : Number.t := Number.dyadic 5764607523034235 (-59).

(** [isFloat({ min: 0.01 })] on the number that [parseFloat] reads. *)
Definition isFloat (min amount : Number.t) : bool := Number.geb amount min.

(** POST api/wallet/deposit; a value is the wallet sent by [res.json]. *)
Definition postDeposit (env : Env) (user : ReqUser) (req : WalletRequest)
    : Action Wallet.t :=
  validated [("amount", isFloat minAmount (wr_amount req));
             ("walletType", notEmpty (wr_walletType req));
             ("paymentMethod", notEmpty (wr_paymentMethod req))] (
  if negb (bool_decide (wr_walletType req ∈ walletTypes)) then
    reply 400 (Msg "Invalid wallet type")
  else
    wallet ← findOne (id user) (wr_walletType req);
    match wallet with
    | None => reply 404 (Msg "Wallet not found")
    | Some wallet =>
        let reference := randomHex env 0 in
        let transaction :=
          {| Transaction.type := deposit;
             Transaction.amount := wr_amount req;
             Transaction.description :=
               "Deposit to " +:+ wr_walletType req +:+ " wallet";
             Transaction.status := TransactionStatus.completed;
             Transaction.reference := reference;
             Transaction.relatedOrder := None;
             Transaction.relatedUser := Some (id user);
             Transaction.paymentMethod := wr_paymentMethod req;
             Transaction.paymentDetails :=
               externalDetails (wr_paymentDetails req) reference
                 (wr_paymentMethod req);
             Transaction.createdAt := now env |} in
        wallet ← addTransaction wallet transaction;
        mret wallet.2
    end).

(** POST api/wallet/withdraw *)
Definition postWithdraw (env : Env) (user : ReqUser) (req : WalletRequest)
    : Action Wallet.t :=
  validated [("amount", isFloat minAmount (wr_amount req));
             ("walletType", notEmpty (wr_walletType req));
             ("paymentMethod", notEmpty (wr_paymentMethod req))] (
  if negb (bool_decide (wr_walletType req ∈ walletTypes)) then
    reply 400 (Msg "Invalid wallet type")
  else
    wallet ← findOne (id user) (wr_walletType req);
    match wallet with
    | None => reply 404 (Msg "Wallet not found")
    | Some wallet =>
        if negb (Wallet.hasSufficientBalance (wr_amount req) wallet.2) then
          reply 400 (Msg "Insufficient balance")
        else
          let reference := randomHex env 0 in
          let transaction :=
            {| Transaction.type := withdrawal;
               Transaction.amount := wr_amount req;
               Transaction.description :=
                 "Withdrawal from " +:+ wr_walletType req +:+ " wallet";
               Transaction.status := TransactionStatus.completed;
               Transaction.reference := reference;
               Transaction.relatedOrder := None;
               Transaction.relatedUser := Some (id user);
               Transaction.paymentMethod := wr_paymentMethod req;
               Transaction.paymentDetails :=
                 externalDetails (wr_paymentDetails req) reference
                   (wr_paymentMethod req);
               Transaction.createdAt := now env |} in
          wallet ← addTransaction wallet transaction;
          mret wallet.2
    end).

Record TransferRequest := {
  tr_amount : Number.t;
  tr_fromWalletType : string;
  tr_toWalletType : string
}.

Definition withdrawalTransaction (env : Env) (user : ReqUser)
    (req : TransferRequest) (reference : string) : Transaction.t :=
  {| Transaction.type := withdrawal;
     Transaction.amount := tr_amount req;
     Transaction.description := "Transfer to " +:+ tr_toWalletType req +:+ " wallet";
     Transaction.status := TransactionStatus.completed;
     Transaction.reference := reference;
     Transaction.relatedOrder := None;
     Transaction.relatedUser := Some (id user);
     Transaction.paymentMethod := "internal";
     Transaction.paymentDetails := internalDetails reference;
     Transaction.createdAt := now env |}.

Definition depositTransaction (env : Env) (user : ReqUser)
    (req : TransferRequest) (reference : string) : Transaction.t :=
  {| Transaction.type := deposit;
     Transaction.amount := tr_amount req;
     Transaction.description :=
       "Transfer from " +:+ tr_fromWalletType req +:+ " wallet";
     Transaction.status := TransactionStatus.completed;
     Transaction.reference := reference;
     Transaction.relatedOrder := None;
     Transaction.relatedUser := Some (id user);
     Transaction.paymentMethod := "internal";
     Transaction.paymentDetails := internalDetails reference;
     Transaction.createdAt := now env |}.

(** POST api/wallet/transfer; a value is the pair sent by
    [res.json({ fromWallet, toWallet })]. *)
Definition postTransfer (env : Env) (user : ReqUser) (req : TransferRequest)
    : Action (Wallet.t * Wallet.t) :=
  validated [("amount", isFloat minAmount (tr_amount req));
             ("fromWalletType", notEmpty (tr_fromWalletType req));
             ("toWalletType", notEmpty (tr_toWalletType req))] (
  if negb (bool_decide (tr_fromWalletType req ∈ walletTypes))
     || negb (bool_decide (tr_toWalletType req ∈ walletTypes)) then
    reply 400 (Msg "Invalid wallet type")
  else if bool_decide (tr_fromWalletType req = tr_toWalletType req) then
    reply 400 (Msg "Cannot transfer to the same wallet")
  else
    fromWallet ← findOne (id user) (tr_fromWalletType req);
    match fromWallet with
    | None => reply 404 (Msg "Source wallet not found")
    | Some fromWallet =>
        toWallet ← findOne (id user) (tr_toWalletType req);
        match toWallet with
        | None => reply 404 (Msg "Destination wallet not found")
        | Some toWallet =>
            if negb (Wallet.hasSufficientBalance (tr_amount req) fromWallet.2) then
              reply 400 (Msg "Insufficient balance")
            else
              let reference := randomHex env 0 in
              fromWallet ← addTransaction fromWallet
                             (withdrawalTransaction env user req reference);
              toWallet ← addTransaction toWallet
                           (depositTransaction env user req reference);
              mret (fromWallet.2, toWallet.2)
        end
    end).

(** The wallet entry that pays for a subscription. *)
Definition subscriptionPayment (env : Env) (amount : Z)
    (description reference : string) : Transaction.t :=
  {| Transaction.type := payment;
     Transaction.amount := Number.ofZ amount;
     Transaction.description := description;
     Transaction.status := TransactionStatus.completed;
     Transaction.reference := reference;
     Transaction.relatedOrder := None;
     Transaction.relatedUser := None;
     Transaction.paymentMethod := "wallet";
     Transaction.paymentDetails := internalDetails reference;
     Transaction.createdAt := now env |}.

(** The debit that POST api/subscription, PUT renew and PUT change-plan
    share; a value is the reference of the payment. *)
Definition paySubscription (env : Env) (user : ReqUser) (amount : Z)
    (description : string) : Action string :=
  sellerWallet ← findOne (id user) "seller";
  match sellerWallet with
  | None => reply 404 (Msg "Seller wallet not found")
  | Some sellerWallet =>
      if negb (Wallet.hasSufficientBalance (Number.ofZ amount) sellerWallet.2) then
        reply 400 (InsufficientBalance (Number.ofZ amount)
                     (Wallet.balance sellerWallet.2))
      else
        let reference := randomHex env 0 in
        _ ← addTransaction sellerWallet
              (subscriptionPayment env amount description reference);
        mret reference
  end.

(** A sequence of [addTransaction] calls on one wallet document. *)
Definition addTransactions (txs : list Transaction.t) (w : Wallet.t) : Wallet.t :=
  foldl (λ acc tx, Wallet.addTransaction tx acc) w txs.

Definition isCredit (tx : Transaction.t) : bool :=
  bool_decide (Transaction.type tx ∈ [deposit; refund; commission]).
Definition isDebit (tx : Transaction.t) : bool :=
  bool_decide (Transaction.type tx ∈ [withdrawal; payment; fee]).
Definition isCompleted (tx : Transaction.t) : bool :=
  bool_decide (Transaction.status tx = TransactionStatus.completed).

(** The units of a finite amount. *)
Definition units (x : Number.t) : Z :=
  match x with Number.Finite u => u | _ => 0 end.

(** The sum of the amounts of a log, exactly, in units of 2^-1074. *)
Definition sumAmounts (txs : list Transaction.t) : Z :=
  foldr (λ tx acc, units (Transaction.amount tx) + acc) 0 txs.

Definition creditTotal (txs : list Transaction.t) : Z :=
  sumAmounts (filter (λ tx, isCompleted tx && isCredit tx = true) txs).
Definition debitTotal (txs : list Transaction.t) : Z :=
  sumAmounts (filter (λ tx, isCompleted tx && isDebit tx = true) txs).

(** The same sums as a JavaScript [reduce] with [+] would give them. *)
Definition addAmounts (txs : list Transaction.t) : Number.t :=
  foldl (λ total tx, Number.add total (Transaction.amount tx)) Number.zero txs.
Definition creditSum (txs : list Transaction.t) : Number.t :=
  addAmounts (filter (λ tx, isCompleted tx && isCredit tx = true) txs).
Definition debitSum (txs : list Transaction.t) : Number.t :=
  addAmounts (filter (λ tx, isCompleted tx && isDebit tx = true) txs).

(** The amounts of a log are whole numbers of XOF, none negative, and
    together they stay within the safe integers. *)
Definition wholeAmounts (txs : list Transaction.t) : Prop :=
  Forall (λ tx, Number.isSafeInteger (Transaction.amount tx) = true
                ∧ 0 ≤ Number.toZ (Transaction.amount tx)) txs
  ∧ foldr (λ tx acc, Number.toZ (Transaction.amount tx) + acc) 0 txs
    ≤ Number.MAX_SAFE_INTEGER.

(** A completed entry of the given type and amount. *)
Definition entry (type : TransactionType) (amount : Number.t)
    (reference : string) : Transaction.t :=
  {| Transaction.type := type;
     Transaction.amount := amount;
     Transaction.description := "entry";
     Transaction.status := TransactionStatus.completed;
     Transaction.reference := reference;
     Transaction.relatedOrder := None;
     Transaction.relatedUser := None;
     Transaction.paymentMethod := "internal";
     Transaction.paymentDetails := internalDetails reference;
     Transaction.createdAt := 0 |}.

(** [new Wallet({ owner, walletType, balance: 0, currency: 'XOF' })] *)
Definition new (owner : ObjectId) (walletType : string) : Wallet.t :=
  {| Wallet.owner := owner; Wallet.walletType := walletType;
     Wallet.balance := Number.zero; Wallet.currency := "XOF";
     Wallet.isActive := true; Wallet.transactions := [] |}.

(** A wallet request for a whole, safe amount by a method that the
    transaction schema admits. *)
Definition validWalletRequest (req : WalletRequest) : Prop :=
  Number.isSafeInteger (wr_amount req) = true
  ∧ 0 < Number.toZ (wr_amount req)
  ∧ wr_walletType req ∈ walletTypes
  ∧ wr_paymentMethod req ∈ transactionMethods.

(** The wallet of the caller that a wallet request addresses. *)
Definition callerWallet (user : ReqUser) (req : WalletRequest)
    (ws : list Wallet.t) : option (Doc Wallet.t) :=
  list_find (λ w, Wallet.owner w = id user
                  ∧ Wallet.walletType w = wr_walletType req) ws.

(** A reference, not empty, that no wallet holds. *)
Definition fresh (reference : string) (ws : list Wallet.t) : Prop :=
  reference ≠ "" ∧ Forall (λ w, reference ∉ Wallet.references w) ws.

End Stored.

(** ** Sample ledgers *)

(** 0.1, 0.2 and 1.1 as doubles. *)
Definition tenth : Number.t := Number.dyadic 3602879701896397 (-55).
Definition fifth : Number.t := Number.dyadic 3602879701896397 (-54).
Definition elevenTenths : Number.t := Number.dyadic 2476979795053773 (-51).

(** A deposit of 0.2, a withdrawal of 0.1 and a deposit of 1.1. *)
Definition fractionalLedger : list Stored.Transaction.t :=
  [Stored.entry deposit fifth "ref-f1";
   Stored.entry withdrawal tenth "ref-f2";
   Stored.entry deposit elevenTenths "ref-f3"].

(** The six kinds of entry, in whole XOF. *)
Definition wholeLedger : list Stored.Transaction.t :=
  [Stored.entry deposit (Number.ofZ 10000) "ref-w1";
   Stored.entry payment (Number.ofZ 6200) "ref-w2";
   Stored.entry refund (Number.ofZ 6200) "ref-w3";
   Stored.entry withdrawal (Number.ofZ 2500) "ref-w4";
   Stored.entry commission (Number.ofZ 200) "ref-w5";
   Stored.entry fee (Number.ofZ 1200) "ref-w6"].

(** ** Seller A's wallets as stored

    8000 XOF earned on the seller wallet, 1000 XOF deposited on the
    buyer wallet. *)

Definition sellerAStored : Stored.Wallet.t :=
  Stored.Wallet.addTransaction (Stored.entry deposit (Number.ofZ 8000) "b1")
    (Stored.new "sellerA" "seller").

Definition buyerAStored : Stored.Wallet.t :=
  Stored.Wallet.addTransaction (Stored.entry deposit (Number.ofZ 1000) "b2")
    (Stored.new "sellerA" "buyer").

Definition vault : list Stored.Wallet.t := [sellerAStored; buyerAStored].

(** Seller A moves 3000 XOF from the seller wallet to the buyer wallet. *)
Definition transferOf3000 : Stored.TransferRequest :=
  {| Stored.tr_amount := Number.ofZ 3000;
     Stored.tr_fromWalletType := "seller";
     Stored.tr_toWalletType := "buyer" |}.

(** Seller A moves 3000 XOF of the seller wallet by mobile money. *)
Definition moveOf3000 : Stored.WalletRequest :=
  {| Stored.wr_amount := Number.ofZ 3000;
     Stored.wr_walletType := "seller";
     Stored.wr_paymentMethod := "mobile_money";
     Stored.wr_paymentDetails := None |}.

(** The request after [env1]: the same clock, other random bytes. *)
Definition env2 : Env :=
  {| now := 1704067260000; tza := 0; newId := "order3";
     randomHex := λ n, "hex" +:+ pretty n |}.

(** ** Orders whose items change *)




(** * Properties *)

(** ** The wallet ledger *)

Lemma addTransaction_balance tx w :
  Wallet.balance (Wallet.addTransaction tx w) = Wallet.balance w + signedAmount tx.
Proof.
  unfold Wallet.addTransaction, signedAmount, isCredit, isDebit; simpl.
  repeat case_bool_decide; lia.
Qed.

(** ** JavaScript numbers *)

(** [Number] computes what the primitive doubles compute. *)
Example number_agrees_with_primitive_doubles :
  modelled <$> NumberSamples.pairs = NumberSamples.primitive <$> NumberSamples.pairs.
Proof. vm_compute. reflexivity. Qed.

Lemma roundUnits_whole (n : Z) :
  0 ≤ n ≤ Number.MAX_SAFE_INTEGER →
  Number.roundUnits (n * Number.scale) = n * Number.scale.
Proof.
  unfold Number.MAX_SAFE_INTEGER, Number.roundUnits, Number.scale. intros Hn.
  destruct (decide (n = 0)) as [->|Hpos]; [done|].
  rewrite Z.log2_mul_pow2 by lia.
  assert (Z.log2 n < 53) by (apply Z.log2_lt_pow2; lia).
  pose proof (Z.log2_nonneg n).
  set (shift := 1074 + Z.log2 n - 52).
  rewrite bool_decide_eq_false_2 by lia.
  assert (Hs : n * 2 ^ 1074 = n * 2 ^ (1074 - shift) * 2 ^ shift).
  { rewrite <- Z.mul_assoc, <- Z.pow_add_r by lia. do 2 f_equal. lia. }
  assert (0 < 2 ^ shift) by (apply Z.pow_pos_nonneg; lia).
  assert (0 < 2 ^ (shift - 1)) by (apply Z.pow_pos_nonneg; lia).
  rewrite Hs, Z.mod_mul, Z.div_mul by lia.
  rewrite bool_decide_eq_false_2 by lia.
  rewrite (bool_decide_eq_false_2 (0 = _)) by lia. cbn. lia.
Qed.

Lemma round_whole (k : Z) :
  Z.abs k ≤ Number.MAX_SAFE_INTEGER → Number.round (k * Number.scale) = Number.ofZ k.
Proof.
  intros Hk. unfold Number.round, Number.ofZ.
  assert (Hsc : 0 < Number.scale) by done.
  rewrite Z.abs_mul, (Z.abs_eq Number.scale) by lia.
  rewrite roundUnits_whole by lia.
  rewrite bool_decide_eq_false_2.
  - f_equal. rewrite Z.sgn_mul, (Z.sgn_pos Number.scale) by lia.
    destruct k; cbn -[Number.scale Z.mul]; lia.
  - assert (Z.abs k * Number.scale < 2 ^ 53 * Number.scale).
    { apply Z.mul_lt_mono_pos_r; [done|]. unfold Number.MAX_SAFE_INTEGER in Hk. lia. }
    assert (2 ^ 53 * Number.scale ≤ Number.overflow) by (vm_compute; discriminate).
    lia.
Qed.

Lemma add_whole (a b : Z) :
  Z.abs (a + b) ≤ Number.MAX_SAFE_INTEGER →
  Number.add (Number.ofZ a) (Number.ofZ b) = Number.ofZ (a + b).
Proof.
  intros. unfold Number.add, Number.ofZ at 1 2.
  rewrite <- Z.mul_add_distr_r. by apply round_whole.
Qed.

Lemma sub_whole (a b : Z) :
  Z.abs (a - b) ≤ Number.MAX_SAFE_INTEGER →
  Number.sub (Number.ofZ a) (Number.ofZ b) = Number.ofZ (a - b).
Proof.
  intros. unfold Number.sub, Number.opp, Number.add, Number.ofZ at 1 2.
  replace (a * Number.scale + - (b * Number.scale)) with ((a - b) * Number.scale) by lia.
  by apply round_whole.
Qed.

Lemma geb_whole (a b : Z) :
  Number.geb (Number.ofZ a) (Number.ofZ b) = bool_decide (b ≤ a).
Proof.
  unfold Number.geb, Number.ofZ. assert (0 < Number.scale) by done.
  apply bool_decide_ext. split; [|nia]. intros. apply Z.mul_le_mono_pos_r with Number.scale; lia.
Qed.

Lemma safeInteger_whole (x : Number.t) :
  Number.isSafeInteger x = true →
  x = Number.ofZ (Number.toZ x) ∧ Z.abs (Number.toZ x) ≤ Number.MAX_SAFE_INTEGER.
Proof.
  destruct x as [u| |]; try done. unfold Number.isSafeInteger, Number.toZ, Number.ofZ.
  rewrite andb_true_iff, !bool_decide_eq_true. intros [Hm Hb]. split; [|done].
  f_equal. assert (0 < Number.scale) by done.
  pose proof (Z.div_mod u Number.scale). lia.
Qed.

Lemma ofZ_safeInteger (n : Z) :
  Z.abs n ≤ Number.MAX_SAFE_INTEGER →
  Number.isSafeInteger (Number.ofZ n) = true ∧ Number.toZ (Number.ofZ n) = n.
Proof.
  intros. unfold Number.isSafeInteger, Number.toZ, Number.ofZ.
  assert (0 < Number.scale) by done.
  rewrite Z.mod_mul, Z.div_mul by lia.
  rewrite andb_true_iff, !bool_decide_eq_true. done.
Qed.

(** ** The wallet ledger in doubles *)

(** Evaluate the decisions on closed propositions. *)
Ltac decide_closed :=
  repeat match goal with
    | |- context [bool_decide ?P] =>
        let v := eval vm_compute in (bool_decide P) in
        change (bool_decide P) with v
    end.

Lemma stored_addTransactions_log txs : ∀ w,
  Stored.Wallet.transactions (Stored.addTransactions txs w)
  = Stored.Wallet.transactions w ++ txs.
Proof.
  induction txs as [|tx txs IH]; intros w; simpl.
  - by rewrite app_nil_r.
  - unfold Stored.addTransactions in *; simpl. rewrite IH. simpl.
    by rewrite <- app_assoc.
Qed.

Lemma stored_credit_or_debit tx : Stored.isCredit tx = negb (Stored.isDebit tx).
Proof.
  unfold Stored.isCredit, Stored.isDebit.
  destruct (Stored.Transaction.type tx); reflexivity.
Qed.

(** One [addTransaction] of a whole amount on a whole balance. *)
Lemma stored_addTransaction_whole tx w (b : Z) :
  Stored.Wallet.balance w = Number.ofZ b →
  Number.isSafeInteger (Stored.Transaction.amount tx) = true →
  Z.abs (if Stored.isCredit tx
         then b + Number.toZ (Stored.Transaction.amount tx)
         else b - Number.toZ (Stored.Transaction.amount tx))
    ≤ Number.MAX_SAFE_INTEGER →
  Stored.Wallet.balance (Stored.Wallet.addTransaction tx w)
  = Number.ofZ (if Stored.isCredit tx
                then b + Number.toZ (Stored.Transaction.amount tx)
                else b - Number.toZ (Stored.Transaction.amount tx)).
Proof.
  intros Hb Hsafe. apply safeInteger_whole in Hsafe as [Ha _].
  unfold Stored.Wallet.addTransaction, Stored.isCredit. simpl.
  set (n := Number.toZ (Stored.Transaction.amount tx)) in *. rewrite Hb, Ha.
  destruct (Stored.Transaction.type tx); decide_closed; cbv iota; intros Hbound;
    lazymatch goal with
    | |- Number.add _ _ = _ => by apply add_whole
    | |- Number.sub _ _ = _ => by apply sub_whole
    end.
Qed.

Lemma stored_balance_whole txs : ∀ w (b : Z),
  Stored.Wallet.balance w = Number.ofZ b →
  Forall (λ tx, Stored.Transaction.status tx = TransactionStatus.completed) txs →
  Forall (λ tx, Number.isSafeInteger (Stored.Transaction.amount tx) = true
                ∧ 0 ≤ Number.toZ (Stored.Transaction.amount tx)) txs →
  Z.abs b + foldr (λ tx acc, Number.toZ (Stored.Transaction.amount tx) + acc) 0 txs
    ≤ Number.MAX_SAFE_INTEGER →
  Stored.Wallet.balance (Stored.addTransactions txs w)
  = Number.Finite (b * Number.scale + Stored.creditTotal txs - Stored.debitTotal txs).
Proof.
  unfold Stored.creditTotal, Stored.debitTotal.
  induction txs as [|tx txs IH]; intros w b Hb Hc Hw Hbound.
  - cbn. rewrite Hb. unfold Number.ofZ. f_equal. lia.
  - apply Forall_cons in Hc as [Hc Hcs]. apply Forall_cons in Hw as [[Hsafe Hpos] Hws].
    cbn [foldr] in Hbound.
    assert (Hsum : 0 ≤ foldr (λ tx acc, Number.toZ (Stored.Transaction.amount tx) + acc)
                        0 txs).
    { clear -Hws. induction Hws as [|? ? [_ ?] _ ?]; cbn; lia. }
    change (Stored.addTransactions (tx :: txs) w)
      with (Stored.addTransactions txs (Stored.Wallet.addTransaction tx w)).
    assert (Hstep : Stored.Wallet.balance (Stored.Wallet.addTransaction tx w)
                    = Number.ofZ (if Stored.isCredit tx
                                  then b + Number.toZ (Stored.Transaction.amount tx)
                                  else b - Number.toZ (Stored.Transaction.amount tx))).
    { apply stored_addTransaction_whole; [done..|].
      destruct (Stored.isCredit tx); lia. }
    apply safeInteger_whole in Hsafe as [Ha _].
    assert (Hu : Stored.units (Stored.Transaction.amount tx)
                 = Number.toZ (Stored.Transaction.amount tx) * Number.scale).
    { set (n := Number.toZ (Stored.Transaction.amount tx)) in *. by rewrite Ha. }
    assert (Hd : Stored.isCompleted tx = true)
      by (unfold Stored.isCompleted; by apply bool_decide_eq_true).
    rewrite (IH _ _ Hstep Hcs Hws).
    + rewrite !filter_cons, Hd, (stored_credit_or_debit tx). f_equal.
      destruct (Stored.isDebit tx); simpl; repeat case_decide; try done;
        cbn [Stored.sumAmounts foldr]; rewrite Hu; lia.
    + destruct (Stored.isCredit tx); lia.
Qed.

(** A JavaScript [reduce] with [+] over whole amounts is exact. *)
Lemma stored_addAmounts_whole txs : ∀ (b : Z),
  Forall (λ tx, Number.isSafeInteger (Stored.Transaction.amount tx) = true
                ∧ 0 ≤ Number.toZ (Stored.Transaction.amount tx)) txs →
  0 ≤ b →
  b + foldr (λ tx acc, Number.toZ (Stored.Transaction.amount tx) + acc) 0 txs
    ≤ Number.MAX_SAFE_INTEGER →
  foldl (λ total tx, Number.add total (Stored.Transaction.amount tx)) (Number.ofZ b) txs
  = Number.Finite (b * Number.scale + Stored.sumAmounts txs).
Proof.
  induction txs as [|tx txs IH]; intros b Hw Hb Hbound.
  - cbn. unfold Number.ofZ. f_equal. lia.
  - apply Forall_cons in Hw as [[Hsafe Hpos] Hws]. cbn [foldr foldl] in *.
    assert (Hsum : 0 ≤ foldr (λ tx acc, Number.toZ (Stored.Transaction.amount tx) + acc)
                        0 txs).
    { clear -Hws. induction Hws as [|? ? [_ ?] _ ?]; cbn; lia. }
    apply safeInteger_whole in Hsafe as [Ha _].
    unfold Stored.sumAmounts; cbn [foldr].
    set (n := Number.toZ (Stored.Transaction.amount tx)) in *. rewrite Ha.
    rewrite add_whole by lia. rewrite IH by (done || lia).
    f_equal. unfold Stored.sumAmounts, Stored.units, Number.ofZ. lia.
Qed.

Lemma filter_whole (P : Stored.Transaction.t → Prop) `{∀ x, Decision (P x)} txs :
  Forall (λ tx, Number.isSafeInteger (Stored.Transaction.amount tx) = true
                ∧ 0 ≤ Number.toZ (Stored.Transaction.amount tx)) txs →
  Forall (λ tx, Number.isSafeInteger (Stored.Transaction.amount tx) = true
                ∧ 0 ≤ Number.toZ (Stored.Transaction.amount tx)) (filter P txs)
  ∧ 0 ≤ foldr (λ tx acc, Number.toZ (Stored.Transaction.amount tx) + acc) 0 (filter P txs)
      ≤ foldr (λ tx acc, Number.toZ (Stored.Transaction.amount tx) + acc) 0 txs
  ∧ Stored.sumAmounts (filter P txs)
    = foldr (λ tx acc, Number.toZ (Stored.Transaction.amount tx) + acc) 0 (filter P txs)
      * Number.scale.
Proof.
  induction 1 as [|tx txs [Hsafe Hpos] _ (IH1 & IH2 & IH3)]; [by repeat constructor|].
  rewrite filter_cons. destruct (decide (P tx)).
  - split; [by constructor|]. cbn [foldr]. split; [lia|].
    unfold Stored.sumAmounts in *. cbn [foldr]. rewrite IH3.
    apply safeInteger_whole in Hsafe as [Ha _].
    set (n := Number.toZ (Stored.Transaction.amount tx)) in *. rewrite Ha.
    unfold Stored.units, Number.ofZ. lia.
  - split; [done|]. cbn [foldr]. split; [lia|done].
Qed.

(** C3, as the code has it.  A wallet that starts empty with balance 0
    and receives any sequence of [addTransaction] calls whose
    transactions all have status completed and carry whole amounts,
    none negative, that together stay within the safe integers (2^53 - 1)
    ends with a balance equal to the sum of its deposit, refund and
    commission amounts minus the sum of its withdrawal, payment and fee
    amounts; it is the same number whether the two sums are taken
    exactly or with JavaScript's [+]. *)
Theorem whole_amounts_balance_is_credits_minus_debits
    (w0 : Stored.Wallet.t) (txs : list Stored.Transaction.t) :
  Stored.Wallet.balance w0 = Number.zero →
  Stored.Wallet.transactions w0 = [] →
  Forall (λ tx, Stored.Transaction.status tx = TransactionStatus.completed) txs →
  Stored.wholeAmounts txs →
  Stored.Wallet.balance (Stored.addTransactions txs w0)
  = Number.Finite
      (Stored.creditTotal (Stored.Wallet.transactions (Stored.addTransactions txs w0))
       - Stored.debitTotal (Stored.Wallet.transactions (Stored.addTransactions txs w0)))
  ∧ Stored.Wallet.balance (Stored.addTransactions txs w0)
    = Number.sub
        (Stored.creditSum (Stored.Wallet.transactions (Stored.addTransactions txs w0)))
        (Stored.debitSum (Stored.Wallet.transactions (Stored.addTransactions txs w0))).
Proof.
  intros Hb Hl Hc [Hw Hbound].
  rewrite stored_addTransactions_log, Hl. cbn [app].
  rewrite (stored_balance_whole txs w0 0 Hb Hc Hw) by (cbn; lia).
  split; [f_equal; lia|].
  unfold Stored.creditSum, Stored.debitSum, Stored.creditTotal, Stored.debitTotal,
    Stored.addAmounts.
  destruct (filter_whole (λ tx, Stored.isCompleted tx && Stored.isCredit tx = true)
              txs Hw) as (Hcw & Hcb & Hcs).
  destruct (filter_whole (λ tx, Stored.isCompleted tx && Stored.isDebit tx = true)
              txs Hw) as (Hdw & Hdb & Hds).
  change Number.zero with (Number.ofZ 0).
  rewrite !stored_addAmounts_whole by (done || lia).
  rewrite Hcs, Hds.
  set (c := foldr _ 0 (filter (λ tx, Stored.isCompleted tx && Stored.isCredit tx = true)
                         txs)) in *.
  set (d := foldr _ 0 (filter (λ tx, Stored.isCompleted tx && Stored.isDebit tx = true)
                         txs)) in *.
  replace (Number.Finite (0 * Number.scale + c * Number.scale)) with (Number.ofZ c)
    by (unfold Number.ofZ; f_equal; lia).
  replace (Number.Finite (0 * Number.scale + d * Number.scale)) with (Number.ofZ d)
    by (unfold Number.ofZ; f_equal; lia).
  rewrite sub_whole by lia. unfold Number.ofZ. f_equal. lia.
Qed.

(** C3 fails as stated: a deposit of 0.2, a withdrawal of 0.1 and a
    deposit of 1.1, all completed, on an empty wallet leave the balance
    1.2000000000000002, which is neither the exact value of the credits
    minus the debits nor the 1.2 that JavaScript's [+] and [-] give for
    them. *)
Lemma fractional_amounts_round_the_balance :
  Stored.Wallet.balance (Stored.new "buyer1" "buyer") = Number.zero
  ∧ Stored.Wallet.transactions (Stored.new "buyer1" "buyer") = []
  ∧ Forall (λ tx, Stored.Transaction.status tx = TransactionStatus.completed)
      fractionalLedger
  ∧ Stored.Wallet.balance
      (Stored.addTransactions fractionalLedger (Stored.new "buyer1" "buyer"))
    = Number.dyadic 1351079888211149 (-50)
  ∧ Number.Finite
      (Stored.creditTotal
         (Stored.Wallet.transactions
            (Stored.addTransactions fractionalLedger (Stored.new "buyer1" "buyer")))
       - Stored.debitTotal
           (Stored.Wallet.transactions
              (Stored.addTransactions fractionalLedger (Stored.new "buyer1" "buyer"))))
    = Number.dyadic 43234556422756765 (-55)
  ∧ Number.sub
      (Stored.creditSum
         (Stored.Wallet.transactions
            (Stored.addTransactions fractionalLedger (Stored.new "buyer1" "buyer"))))
      (Stored.debitSum
         (Stored.Wallet.transactions
            (Stored.addTransactions fractionalLedger (Stored.new "buyer1" "buyer"))))
    = Number.dyadic 5404319552844595 (-52)
  ∧ Number.dyadic 1351079888211149 (-50) ≠ Number.dyadic 43234556422756765 (-55)
  ∧ Number.dyadic 1351079888211149 (-50) ≠ Number.dyadic 5404319552844595 (-52).
Proof.
  split; [reflexivity|]. split; [reflexivity|].
  split; [repeat constructor|].
  split; [by vm_compute|]. split; [by vm_compute|]. split; [by vm_compute|].
  split; by vm_compute.
Qed.

Lemma whole_amounts_balance_is_credits_minus_debits_sample :
  Stored.Wallet.balance (Stored.addTransactions wholeLedger (Stored.new "buyer1" "buyer"))
  = Number.Finite
      (Stored.creditTotal
         (Stored.Wallet.transactions
            (Stored.addTransactions wholeLedger (Stored.new "buyer1" "buyer")))
       - Stored.debitTotal
           (Stored.Wallet.transactions
              (Stored.addTransactions wholeLedger (Stored.new "buyer1" "buyer"))))
  ∧ Stored.Wallet.balance
      (Stored.addTransactions wholeLedger (Stored.new "buyer1" "buyer"))
    = Number.sub
        (Stored.creditSum
           (Stored.Wallet.transactions
              (Stored.addTransactions wholeLedger (Stored.new "buyer1" "buyer"))))
        (Stored.debitSum
           (Stored.Wallet.transactions
              (Stored.addTransactions wholeLedger (Stored.new "buyer1" "buyer")))).
Proof.
  apply (whole_amounts_balance_is_credits_minus_debits
           (Stored.new "buyer1" "buyer") wholeLedger).
  - reflexivity.
  - reflexivity.
  - repeat constructor.
  - split; [|vm_compute; discriminate].
    repeat constructor; vm_compute; discriminate.
Defined.

(** ** Running a handler symbolically *)

Lemma validated_eq {A} checks (next : Handler A) :
  validated checks next
  = if forallb (λ c, c.2) checks then next else reply 400 (Errors (failing checks)).
Proof.
  unfold validated, failing.
  induction checks as [|[f b] cs IH]; [done|].
  destruct b.
  - rewrite filter_cons_False by (simpl; done). apply IH.
  - by rewrite filter_cons_True by done.
Qed.

Ltac open_handler :=
  unfold handle, handler, serve, checkRole, onOrder,
    mbind, Handler_bind, mret, Handler_ret, reply, json, throw,
    Wallet_findOne, Wallet_save, Wallet_addTransaction,
    Product_findById, Product_save, Product_findIn,
    User_findById, User_findOneByRole, User_save,
    Order_findById, Order_save, Order_insert,
    Subscription_findOne, Subscription_put, Subscription_save,
    mirrorSubscription.

Ltac exec_step :=
  match goal with
  | |- context [match list_find ?P ?l with _ => _ end] =>
      destruct (list_find P l) as [[? ?]|] eqn:?
  | |- context [if ?b then _ else _] => destruct b eqn:?
  | |- context [match ?x with Some _ => _ | None => _ end] =>
      destruct x eqn:?
  end; cbn.


Ltac exec := repeat (first [progress open_handler | progress cbn | exec_step]).

Ltac bool_facts :=
  unfold isPositiveAmount, notEmpty, Wallet.hasSufficientBalance in *;
  repeat match goal with
    | H : negb _ = false |- _ => apply negb_false_iff in H
    | H : negb _ = true |- _ => apply negb_true_iff in H
    | H : _ && _ = true |- _ => apply andb_prop in H as [? ?]
    | H : _ || _ = false |- _ => apply orb_false_elim in H as [? ?]
    | H : bool_decide _ = true |- _ => apply bool_decide_eq_true in H
    | H : bool_decide _ = false |- _ => apply bool_decide_eq_false in H
    end.

Lemma found_lookup {A} (P : A → Prop) `{∀ x, Decision (P x)} (l : list A) i x :
  list_find P l = Some (i, x) → l !! i = Some x ∧ P x.
Proof. intros Hf. apply list_find_Some in Hf as (? & ? & _). done. Qed.

Lemma Forall_insert_addTransaction (l : list Wallet.t) i w tx :
  Forall (λ w, 0 ≤ Wallet.balance w) l →
  0 ≤ Wallet.balance w + signedAmount tx →
  Forall (λ w, 0 ≤ Wallet.balance w) (<[i := Wallet.addTransaction tx w]> l).
Proof.
  intros Hl Hw. destruct (decide (i < length l)%nat).
  - apply Forall_insert; [exact Hl|]. by rewrite addTransaction_balance.
  - rewrite list_insert_ge by lia. exact Hl.
Qed.

Lemma found_nonNegative P `{∀ x, Decision (P x)} (l : list Wallet.t) i w :
  Forall (λ w, 0 ≤ Wallet.balance w) l →
  list_find P l = Some (i, w) → 0 ≤ Wallet.balance w.
Proof.
  intros Hl Hf. apply found_lookup in Hf as [Hf _].
  by eapply (Forall_lookup_1 _ _ _ _ Hl Hf).
Qed.

Lemma signedAmount_type tx :
  signedAmount tx
  = match Transaction.type tx with
    | deposit | refund | commission => Transaction.amount tx
    | withdrawal | payment | fee => - Transaction.amount tx
    end.
Proof. unfold signedAmount, isCredit, isDebit. by destruct (Transaction.type tx). Qed.

Ltac nonneg :=
  unfold nonNegative in *; cbn; simplify_eq;
  repeat match goal with
    | H : list_find _ (wallets _) = Some (_, ?w) |- _ =>
        lazymatch goal with
        | _ : 0 ≤ Wallet.balance w |- _ => fail
        | Hdb : Forall _ (wallets _) |- _ =>
            pose proof (found_nonNegative _ _ _ _ Hdb H)
        end
    end;
  repeat (apply Forall_insert_addTransaction;
          [|rewrite signedAmount_type; cbn; bool_facts; lia]);
  try assumption.

(** ** Debits never overdraw *)

Lemma withdraw_nonneg env user req db :
  nonNegative db → nonNegative (handle env user (PostWithdraw req) db).2.
Proof.
  intros Hdb. unfold handle, handler, postWithdraw.
  rewrite validated_eq. exec; nonneg. 
Qed.

Lemma transfer_nonneg env user req db :
  nonNegative db → nonNegative (handle env user (PostTransfer req) db).2.
Proof.
  intros Hdb. unfold handle, handler, postTransfer.
  rewrite validated_eq. exec; nonneg.
Qed.

Lemma deposit_nonneg env user req db :
  nonNegative db → nonNegative (handle env user (PostDeposit req) db).2.
Proof.
  intros Hdb. unfold handle, handler, postDeposit.
  rewrite validated_eq. exec; nonneg.
Qed.

Lemma collectItems_db items : ∀ acc total db,
  (collectItems items acc total db).2 = db.
Proof.
  induction items as [|item items IH]; intros acc total db; [done|].
  cbn. exec; eauto.
Qed.

Lemma reduceStocks_frame its : ∀ db,
  wallets (reduceStocks its db).2 = wallets db
  ∧ orders (reduceStocks its db).2 = orders db
  ∧ users (reduceStocks its db).2 = users db
  ∧ subscriptions (reduceStocks its db).2 = subscriptions db.
Proof.
  induction its as [|item its IH]; intros db; [done|].
  cbn. exec; try done.
  destruct (Product.reduceStock _ _); cbn; [|done].
  exec; try done.
  match goal with |- context [reduceStocks its ?d] => apply (IH d) end.
Qed.

Lemma order_nonneg env user req db :
  nonNegative db → nonNegative (handle env user (PostOrder req) db).2.
Proof.
  intros Hdb. unfold handle, handler, postOrder.
  rewrite validated_eq.
  open_handler.
  destruct (existsb _ _); [|done].
  destruct (forallb _ _); [|done].
  pose proof (collectItems_db (or_items req) [] 0 db) as Hc.
  destruct (collectItems _ _ _ _) as [[[orderItems productTotal]| |] db1];
    simpl in Hc; subst db1; try done.
  destruct (bool_decide (or_paymentMethod req = "wallet")); exec; try done.
  match goal with
  | |- context [reduceStocks ?its ?d] =>
      pose proof (reduceStocks_frame its d) as (Hw & _);
      destruct (reduceStocks its d) as [[?| ?|?] ?]; cbn in *
  end; unfold nonNegative; rewrite Hw; nonneg.
Qed.


Lemma paySubscription_nonneg env user amount description db :
  nonNegative db → nonNegative (paySubscription env user amount description db).2.
Proof. intros Hdb. unfold paySubscription. exec; nonneg. Qed.

Ltac pay_step :=
  match goal with
  | |- context [paySubscription ?e ?u ?a ?d ?db] =>
      let H := fresh "Hdb" in
      assert (nonNegative db) as H by (unfold nonNegative in *; cbn; assumption);
      apply (paySubscription_nonneg e u a d) in H;
      destruct (paySubscription e u a d db) as [[?| ?|?] ?]; cbn in H
  end.

Ltac exec_pay :=
  repeat (first [progress open_handler | progress cbn | pay_step | exec_step]);
  unfold nonNegative in *; cbn; try assumption.

Lemma renew_nonneg env user pm db :
  nonNegative db → nonNegative (handle env user (PutRenew pm) db).2.
Proof.
  intros Hdb. unfold handle, handler, putRenew.
  rewrite validated_eq. exec_pay.
Qed.

Lemma changePlan_nonneg env user plan pm db :
  nonNegative db → nonNegative (handle env user (PutChangePlan plan pm) db).2.
Proof.
  intros Hdb. unfold handle, handler, putChangePlan.
  rewrite validated_eq. exec_pay.
Qed.

Lemma subscribe_nonneg env user req db :
  nonNegative db → nonNegative (handle env user (PostSubscription req) db).2.
Proof.
  intros Hdb. unfold handle, handler, postSubscription.
  rewrite validated_eq. exec_pay.
Qed.

(** ** The status routes never reach the wallets

    [updateStatus] and [updateDeliveryStatus] have already overwritten
    [paymentStatus] when the route compares it with [paid], so neither
    [distributePayment] nor [processRefund] is ever entered. *)

Lemma putOrderStatus_wallets env user orderId status db :
  wallets (handle env user (PutOrderStatus orderId status) db).2 = wallets db.
Proof.
  unfold handle, handler, putOrderStatus. open_handler.
  destruct (existsb _ _); [|done].
  cbn. destruct (list_find _ _) as [[slot o]|]; [|done].
  destruct status; cbn; done.
Qed.

Lemma putDeliveryStatus_wallets env user orderId status proof db :
  wallets (handle env user (PutDeliveryStatus orderId status proof) db).2
  = wallets db.
Proof.
  unfold handle, handler, putDeliveryStatus. rewrite validated_eq. open_handler.
  destruct (existsb _ _); [|done].
  destruct (forallb _ _); [|done].
  cbn. destruct (list_find _ _) as [[slot o]|]; [|done].
  cbn. destruct (negb _); [done|].
  destruct status; cbn; done.
Qed.

Lemma putAssignDelivery_wallets env user orderId agentId db :
  wallets (handle env user (PutAssignDelivery orderId agentId) db).2 = wallets db.
Proof.
  unfold handle, handler, putAssignDelivery. rewrite validated_eq.
  exec; done.
Qed.

Lemma putAcceptDelivery_wallets env user orderId db :
  wallets (handle env user (PutAcceptDelivery orderId) db).2 = wallets db.
Proof. unfold handle, handler, putAcceptDelivery. exec; done. Qed.

Lemma handle_nonNegative env user r db :
  nonNegative db → nonNegative (handle env user r db).2.
Proof.
  intros Hdb. destruct r.
  - by apply deposit_nonneg.
  - by apply withdraw_nonneg.
  - by apply transfer_nonneg.
  - by apply order_nonneg.
  - unfold nonNegative. by rewrite putOrderStatus_wallets.
  - unfold nonNegative. by rewrite putAssignDelivery_wallets.
  - unfold nonNegative. by rewrite putDeliveryStatus_wallets.
  - unfold nonNegative. by rewrite putAcceptDelivery_wallets.
  - by apply subscribe_nonneg.
  - by apply renew_nonneg.
  - by apply changePlan_nonneg.
Qed.

(** C4. Starting from non-negative balances, no sequence of requests
    leaves a wallet with a negative balance: withdraw, transfer,
    wallet-paid order creation and the wallet-paid subscription routes
    append their debit only after [hasSufficientBalance], and no other
    route reaches a debit. *)
Theorem balances_stay_non_negative (reqs : list (Env * ReqUser * Request)) (db : Db) :
  nonNegative db → nonNegative (serveAll reqs db).
Proof.
  revert db. induction reqs as [|[[env user] r] reqs IH]; intros db Hdb; [done|].
  unfold serveAll in *; simpl. apply IH. by apply handle_nonNegative.
Qed.

(** ** Settlement and refund *)

(** C1. On the paid order with lines of 5000 and 3000 XOF from two
    sellers and an assigned agent, the status update to delivered and the
    delivery-status update to delivered both answer 200 and mark the
    order released, yet credit no wallet; [distributePayment] itself,
    run on the stored order, credits 5000, 3000 and 1000 but books the
    admin's 200 as a fee, that is as a debit. *)
Theorem delivered_order_credits_no_wallet :
  balances market = [0; 0; 0; 0; 0; 0]
  ∧ paymentStatuses market = [PaymentStatus.paid]
  ∧ code deliveredByAdmin.1 = 200
  ∧ balances deliveredByAdmin.2 = [0; 0; 0; 0; 0; 0]
  ∧ paymentStatuses deliveredByAdmin.2 = [PaymentStatus.released]
  ∧ code deliveredByAgent.1 = 200
  ∧ balances deliveredByAgent.2 = [0; 0; 0; 0; 0; 0]
  ∧ paymentStatuses deliveredByAgent.2 = [PaymentStatus.released]
  ∧ balances settledDirectly.2 = [0; 5000; 3000; 1000; -200; 0]
  ∧ paymentStatuses settledDirectly.2 = [PaymentStatus.released].
Proof. vm_compute. repeat split; reflexivity. Qed.

(** C2. Cancelling the paid order through the status update answers 200
    and marks it refunded, yet credits nothing to the buyer;
    [processRefund] itself, run on the stored order, refunds the total of
    9200 to the buyer wallet and touches no other wallet. *)
Theorem cancelled_order_refunds_nothing :
  balances market = [0; 0; 0; 0; 0; 0]
  ∧ Order.totalAmount order1 = 9200
  ∧ code cancelledByAdmin.1 = 200
  ∧ balances cancelledByAdmin.2 = [0; 0; 0; 0; 0; 0]
  ∧ wallets cancelledByAdmin.2 = wallets market
  ∧ paymentStatuses cancelledByAdmin.2 = [PaymentStatus.refunded]
  ∧ balances refundedDirectly.2 = [9200; 0; 0; 0; 0; 0]
  ∧ paymentStatuses refundedDirectly.2 = [PaymentStatus.refunded].
Proof. vm_compute. repeat split; reflexivity. Qed.

(** ** The payment status of an order *)

Lemma settledFrom_refl ps : settledFrom ps ps.
Proof. by left. Qed.

Lemma settledFrom_trans a b c : settledFrom a b → settledFrom b c → settledFrom a c.
Proof. unfold settledFrom. intros [-> | [-> | ->]] [-> | [-> | ->]]; auto. Qed.

Lemma settles_refl l : settles l l.
Proof. intros i o Hi. exists o. split; [done|apply settledFrom_refl]. Qed.

Lemma settles_trans l1 l2 l3 : settles l1 l2 → settles l2 l3 → settles l1 l3.
Proof.
  intros H12 H23 i o Hi.
  destruct (H12 i o Hi) as (o2 & Hi2 & Hs2).
  destruct (H23 i o2 Hi2) as (o3 & Hi3 & Hs3).
  exists o3. split; [done|]. by eapply settledFrom_trans.
Qed.

Lemma settles_insert l slot o o' :
  l !! slot = Some o →
  settledFrom (Order.paymentStatus o) (Order.paymentStatus o') →
  settles l (<[slot := o']> l).
Proof.
  intros Hs Hps i x Hi. destruct (decide (i = slot)) as [->|Hne].
  - exists o'. rewrite list_lookup_insert_eq by (by eapply lookup_lt_Some).
    by simplify_eq.
  - exists x. rewrite list_lookup_insert_ne by done.
    split; [done|apply settledFrom_refl].
Qed.

Lemma paySellers_orders env o sellerItems : ∀ n db,
  orders (paySellers env o sellerItems n db).2 = orders db.
Proof.
  induction sellerItems as [|[sellerId its] rest IH]; intros n db; [done|].
  cbn. exec;
    match goal with |- context [paySellers env o rest ?k ?d] => apply (IH k d) end.
Qed.

Lemma paySellers_returns env o sellerItems : ∀ n db,
  ∃ n', (paySellers env o sellerItems n db).1 = Val n'.
Proof.
  induction sellerItems as [|[sellerId its] rest IH]; intros n db; [by exists n|].
  cbn. exec;
    match goal with |- context [paySellers env o rest ?k ?d] => apply (IH k d) end.
Qed.

Lemma distributePayment_orders env slot o db :
  orders (distributePayment env (slot, o) db).2
  = <[slot := Order.set_paymentStatus PaymentStatus.released o]> (orders db).
Proof.
  unfold distributePayment. open_handler. cbn.
  match goal with
  | |- context [paySellers ?e ?x ?si ?k ?d] =>
      pose proof (paySellers_orders e x si k d) as Ho;
      destruct (paySellers_returns e x si k d) as [n' Hn];
      destruct (paySellers e x si k d) as [r db1]; cbn in Ho, Hn; subst r
  end.
  unfold payDeliveryAgent, payAdmin. exec; by rewrite Ho.
Qed.

Lemma processRefund_orders env slot o db :
  orders db !! slot = Some o →
  settles (orders db) (orders (processRefund env (slot, o) db).2).
Proof.
  intros Hs. unfold processRefund. exec.
  - apply (settles_insert _ _ o); [done|]. cbn. right. by right.
  - apply settles_refl.
Qed.

Lemma putOrderStatus_settles env user orderId status db :
  settles (orders db) (orders (serve (putOrderStatus env user orderId status) db).2).
Proof.
  unfold putOrderStatus. open_handler.
  destruct (existsb _ _); [|apply settles_refl].
  cbn. destruct (list_find _ _) as [[slot o]|] eqn:Hf; [|apply settles_refl].
  apply found_lookup in Hf as [Hf _].
  destruct status; cbn; apply (settles_insert _ _ o); try done; cbn;
    unfold settledFrom; auto.
Qed.

Lemma putDeliveryStatus_settles env user orderId status proof db :
  settles (orders db)
    (orders (serve (putDeliveryStatus env user orderId status proof) db).2).
Proof.
  unfold putDeliveryStatus. rewrite validated_eq. open_handler.
  destruct (existsb _ _); [|apply settles_refl].
  destruct (forallb _ _); [|apply settles_refl].
  cbn. destruct (list_find _ _) as [[slot o]|] eqn:Hf; [|apply settles_refl].
  apply found_lookup in Hf as [Hf _].
  cbn. destruct (negb _); [apply settles_refl|].
  destruct status; cbn; apply (settles_insert _ _ o); try done; cbn;
    unfold settledFrom; auto.
Qed.

Lemma paymentOp_settles env slot op db :
  settles (orders db) (orders (paymentOp env slot op db)).
Proof.
  unfold paymentOp. destruct (orders db !! slot) as [o|] eqn:Hs;
    [|apply settles_refl].
  destruct op as [user status|user status proof| |].
  - apply putOrderStatus_settles.
  - apply putDeliveryStatus_settles.
  - unfold onOrder, serve. rewrite Hs. open_handler.
    pose proof (distributePayment_orders env slot o db) as Ho.
    destruct (distributePayment env (slot, o) db) as [[d| |] db']; cbn in *;
      rewrite Ho; apply (settles_insert _ _ o); try done; cbn;
      unfold settledFrom; auto.
  - unfold onOrder, serve. rewrite Hs. open_handler.
    pose proof (processRefund_orders env slot o db Hs) as Ho.
    by destruct (processRefund env (slot, o) db) as [[d| |] db'].
Qed.

(** C5, as the code has it.  Under any sequence of status updates,
    delivery-status updates, settlements and refunds, the payment status
    of every stored order is either what it was or one of released and
    refunded: the operations never write pending, paid or failed.  They
    do not look at the status they overwrite: whatever it was,
    [updateStatus] writes released on delivered and refunded on
    cancelled, and [updateDeliveryStatus] writes released on delivered. *)
Theorem payment_status_only_moves_to_final
    (ops : list (Env * nat * PaymentOp)) (db : Db) (i : nat) (o : Order.t) :
  orders db !! i = Some o →
  (∃ o', orders (paymentOps ops db) !! i = Some o'
         ∧ settledFrom (Order.paymentStatus o) (Order.paymentStatus o'))
  ∧ (∀ now proof x,
       Order.paymentStatus (Order.updateStatus now OrderStatus.delivered x)
       = PaymentStatus.released
       ∧ Order.paymentStatus (Order.updateStatus now OrderStatus.cancelled x)
         = PaymentStatus.refunded
       ∧ Order.paymentStatus
           (Order.updateDeliveryStatus now DeliveryStatus.delivered proof x)
         = PaymentStatus.released).
Proof.
  intros Hi. split; [|done].
  revert i o Hi. change (settles (orders db) (orders (paymentOps ops db))).
  revert db. induction ops as [|[[env slot] op] ops IH]; intros db.
  - apply settles_refl.
  - unfold paymentOps in *; simpl.
    eapply settles_trans; [apply paymentOp_settles|apply IH].
Qed.

(** C5 fails as stated: an order whose payment is still pending is
    marked released by the status update to delivered, and an order
    already refunded is marked released the same way; neither step
    starts from paid. *)
Lemma unpaid_order_becomes_released :
  paymentStatuses (marketWith PaymentStatus.pending) = [PaymentStatus.pending]
  ∧ paymentStatuses
      (paymentOp env1 0 (StatusUpdate admin1 OrderStatus.delivered)
         (marketWith PaymentStatus.pending))
    = [PaymentStatus.released]
  ∧ ¬ paidOnly PaymentStatus.pending PaymentStatus.released
  ∧ paymentStatuses
      (paymentOp env1 0 (DeliveryStatusUpdate agent1 DeliveryStatus.delivered noProof)
         (marketWith PaymentStatus.refunded))
    = [PaymentStatus.released]
  ∧ ¬ paidOnly PaymentStatus.refunded PaymentStatus.released.
Proof.
  split; [by vm_compute|]. split; [by vm_compute|].
  split; [by intros [?|[? _]]|].
  split; [by vm_compute|]. by intros [?|[? _]].
Qed.

(** ** Delivery-agent assignment *)

(** C9, as the code has it.  The accept of a delivery agent stores an
    agent only on an order that has none, is processing and is pending
    delivery, and the agent it stores is the caller: every other order,
    and so every order that already has an agent, is left exactly as it
    was, whoever calls.  The admin's assign-delivery, given an existing
    user with the delivery role and an existing order, stores that user
    as the order's agent, whether or not the order had an agent. *)
Theorem accept_keeps_agent_and_admin_assign_overwrites
    (env : Env) (caller admin : ReqUser) (orderId agentId : ObjectId) (db : Db)
    (i : nat) (o : Order.t) (u : nat) (agent : User.t) :
  orders db !! i = Some o →
  (is_Some (Order.deliveryAgent o) →
   orders (handle env caller (PutAcceptDelivery orderId) db).2 !! i = Some o)
  ∧ (orders (handle env caller (PutAcceptDelivery orderId) db).2 !! i ≠ Some o →
     Order.deliveryAgent o = None
     ∧ Order.status o = OrderStatus.processing
     ∧ Order.deliveryStatus o = DeliveryStatus.pending
     ∧ orders (handle env caller (PutAcceptDelivery orderId) db).2 !! i
       = Some (Order.assignDeliveryAgent (id caller) o))
  ∧ ("admin" ∈ user_roles admin →
     agentId ≠ "" →
     list_find (λ x, User._id x = agentId) (users db) = Some (u, agent) →
     "delivery" ∈ User.roles agent →
     list_find (λ x, Order._id x = orderId) (orders db) = Some (i, o) →
     Order.deliveryAgent
       <$> orders (handle env admin (PutAssignDelivery orderId agentId) db).2 !! i
     = Some (Some agentId)).
Proof.
  intros Hi.
  assert (orders (handle env caller (PutAcceptDelivery orderId) db).2 !! i = Some o
          ∨ (Order.deliveryAgent o = None
             ∧ Order.status o = OrderStatus.processing
             ∧ Order.deliveryStatus o = DeliveryStatus.pending
             ∧ orders (handle env caller (PutAcceptDelivery orderId) db).2 !! i
               = Some (Order.assignDeliveryAgent (id caller) o))) as Haccept.
  { unfold handle, handler, putAcceptDelivery. open_handler.
    destruct (existsb _ _); [|by left].
    cbn. destruct (list_find _ _) as [[slot x]|] eqn:Hf; [|by left].
    apply found_lookup in Hf as [Hf _]. cbn.
    destruct (negb (bool_decide (Order.status x = OrderStatus.processing))
              || negb (bool_decide (Order.deliveryStatus x = DeliveryStatus.pending))
              || bool_decide (is_Some (Order.deliveryAgent x))) eqn:Hguard;
      [by left|].
    apply orb_false_elim in Hguard as [Hguard Hnone].
    apply orb_false_elim in Hguard as [Hst Hds].
    apply negb_false_iff, bool_decide_eq_true in Hst, Hds.
    apply bool_decide_eq_false in Hnone.
    cbn. destruct (list_find _ (users db)) as [[k account]|]; [|by left].
    cbn. destruct (match User.deliveryInfo account with
                   | Some info => negb (deliveryIsAvailable info)
                   | None => true
                   end); [by left|].
    cbn. destruct (decide (slot = i)) as [->|Hne].
    - simplify_eq. right.
      split; [by destruct (Order.deliveryAgent o); [destruct Hnone|]|].
      split; [done|]. split; [done|].
      apply list_lookup_insert_eq. by eapply lookup_lt_Some.
    - left. by rewrite list_lookup_insert_ne. }
  split; [|split].
  - intros Hagent. destruct Haccept as [Hsame|(Hnone & _)]; [done|].
    rewrite Hnone in Hagent. by destruct Hagent.
  - intros Hchanged. by destruct Haccept as [Hsame|Hassigned].
  - intros Hadmin Hid Hu Hrole Ho.
    unfold handle, handler, putAssignDelivery. rewrite validated_eq.
    open_handler. cbn.
    rewrite (bool_decide_eq_true_2 ("admin" ∈ user_roles admin)) by done. cbn.
    unfold notEmpty. rewrite (bool_decide_eq_false_2 (agentId = "")) by done.
    cbn. rewrite Hu. cbn. unfold User.hasRole.
    rewrite (bool_decide_eq_true_2 ("delivery" ∈ User.roles agent)) by done.
    cbn. rewrite Ho. cbn.
    rewrite list_lookup_insert_eq by (by eapply lookup_lt_Some).
    reflexivity.
Qed.

(** C9 fails as stated: the admin's assign-delivery replaces the agent of
    an order that already has one. *)
Lemma admin_reassigns_delivery_agent :
  deliveryAgents market = [Some "agent1"]
  ∧ deliveryAgents
      (handle env1 admin1 (PutAssignDelivery "order1" "agent2") market).2
    = [Some "agent2"].
Proof. by vm_compute. Qed.

(** ** The stored wallets: validation and the unique index *)

Ltac decide_known :=
  repeat match goal with
    | |- context [bool_decide ?P] =>
        first [ rewrite (bool_decide_eq_true_2 P) by (first [done | lia])
              | rewrite (bool_decide_eq_false_2 P) by (first [done | lia]) ]
    end.

Lemma walletType_notEmpty s : s ∈ walletTypes → s ≠ "".
Proof. unfold walletTypes. intros Hs ->. by repeat (apply elem_of_cons in Hs as [?|Hs]; [done|]); apply elem_of_nil in Hs. Qed.

Ltac open_action :=
  unfold Stored.findOne, Stored.addTransaction, Stored.reply, Stored.throw,
    mbind, Stored.Action_bind, mret, Stored.Action_ret.

Lemma stored_validated_eq {A} checks (next : Stored.Action A) :
  Stored.validated checks next
  = if forallb (λ c, c.2) checks then next
    else Stored.reply 400 (Stored.Errors (failing checks)).
Proof.
  unfold Stored.validated, failing.
  induction checks as [|[f b] cs IH]; [done|].
  destruct b.
  - rewrite filter_cons_False by (simpl; done). apply IH.
  - by rewrite filter_cons_True by done.
Qed.

(** A reference that no other document holds is not a duplicate key. *)
Lemma not_held (reference : string) (ws : list Stored.Wallet.t) (slot : nat) :
  (∀ k other, k ≠ slot → ws !! k = Some other →
              reference ∉ Stored.Wallet.references other) →
  Stored.heldElsewhere slot reference ws = false.
Proof.
  unfold Stored.heldElsewhere. intros Hothers.
  apply not_true_is_false. intros Hheld.
  apply existsb_exists in Hheld as (other & Hin & Hkey).
  apply bool_decide_eq_true in Hkey.
  apply list_elem_of_In, list_elem_of_lookup in Hin as [j Hj].
  destruct (decide (j < slot)%nat).
  - rewrite list_lookup_delete_lt in Hj by done.
    by apply (Hothers j other ltac:(lia)).
  - rewrite list_lookup_delete_ge in Hj by lia.
    by apply (Hothers (S j) other ltac:(lia)).
Qed.

Lemma fresh_not_held (reference : string) (ws : list Stored.Wallet.t) (slot : nat) :
  Stored.fresh reference ws →
  Stored.heldElsewhere slot reference ws = false.
Proof.
  intros [_ Hfresh]. apply not_held. intros k other _ Hother.
  by eapply (Forall_lookup_1 _ _ _ _ Hfresh Hother).
Qed.

Lemma fresh_not_held_insert (reference : string) (ws : list Stored.Wallet.t)
    (slot : nat) (w : Stored.Wallet.t) :
  Stored.fresh reference ws →
  Stored.heldElsewhere slot reference (<[slot := w]> ws) = false.
Proof.
  intros [_ Hfresh]. apply not_held. intros k other Hk Hother.
  rewrite list_lookup_insert_ne in Hother by done.
  by eapply (Forall_lookup_1 _ _ _ _ Hfresh Hother).
Qed.

(** A reference held by the document at another slot is a duplicate
    key. *)
Lemma held_elsewhere (reference : string) (ws : list Stored.Wallet.t)
    (slot other : nat) (w : Stored.Wallet.t) :
  ws !! other = Some w → other ≠ slot →
  reference ∈ Stored.Wallet.references w →
  Stored.heldElsewhere slot reference ws = true.
Proof.
  intros Hw Hne Hin. unfold Stored.heldElsewhere.
  apply existsb_exists. exists w. split; [|by apply bool_decide_eq_true].
  apply list_elem_of_In, list_elem_of_lookup.
  destruct (decide (other < slot)%nat).
  - exists other. by rewrite list_lookup_delete_lt.
  - exists (pred other). rewrite list_lookup_delete_ge by lia.
    by replace (S (pred other)) with other by lia.
Qed.

Lemma save_stores (wallet : Doc Stored.Wallet.t) (pushed : Stored.Transaction.t)
    (ws : list Stored.Wallet.t) :
  Stored.validTransaction pushed = true →
  Number.isNaN (Stored.Wallet.balance wallet.2) = false →
  Stored.heldElsewhere wallet.1 (Stored.Transaction.reference pushed) ws = false →
  Stored.save wallet pushed ws = (Stored.Val (), <[wallet.1 := wallet.2]> ws).
Proof. unfold Stored.save. by intros -> -> ->. Qed.

(** A save that does not store leaves the collection as it was and
    throws. *)
Lemma save_cases (wallet : Doc Stored.Wallet.t) (pushed : Stored.Transaction.t)
    (ws : list Stored.Wallet.t) :
  Stored.save wallet pushed ws = (Stored.Val (), <[wallet.1 := wallet.2]> ws)
  ∨ ∃ err, Stored.save wallet pushed ws = (Stored.Throw err, ws).
Proof.
  unfold Stored.save. destruct (_ || _); [right; by eexists|].
  destruct (Stored.heldElsewhere _ _ _); [right; by eexists|by left].
Qed.

Lemma whole_amount_passes (a : Number.t) :
  Number.isSafeInteger a = true → 0 < Number.toZ a →
  Stored.isFloat Stored.minAmount a = true ∧ Number.isNaN a = false.
Proof.
  intros Hsafe Hpos. pose proof (safeInteger_whole a Hsafe) as [Ha _].
  set (n := Number.toZ a) in *. rewrite Ha. split; [|done].
  unfold Stored.isFloat, Stored.minAmount, Number.dyadic, Number.ofZ, Number.geb.
  apply bool_decide_eq_true.
  assert (5764607523034235 * 2 ^ (-59 + 1074) ≤ Number.scale)
    by (vm_compute; discriminate).
  assert (0 < Number.scale) by done. nia.
Qed.

Lemma stored_wallet_checks req :
  Stored.validWalletRequest req →
  forallb (λ c : string * bool, c.2)
    [("amount", Stored.isFloat Stored.minAmount (Stored.wr_amount req));
     ("walletType", notEmpty (Stored.wr_walletType req));
     ("paymentMethod", notEmpty (Stored.wr_paymentMethod req))] = true
  ∧ negb (bool_decide (Stored.wr_walletType req ∈ walletTypes)) = false
  ∧ Stored.wr_paymentMethod req ≠ "".
Proof.
  intros (Hsafe & Ha & Ht & Hp). pose proof (walletType_notEmpty _ Ht).
  destruct (whole_amount_passes _ Hsafe Ha) as [Hfloat _].
  assert (Stored.wr_paymentMethod req ≠ "") as Hmethod.
  { intros Heq. rewrite Heq in Hp. unfold transactionMethods in Hp.
    repeat (apply elem_of_cons in Hp as [Hp|Hp]; [done|]).
    by apply elem_of_nil in Hp. }
  unfold notEmpty. cbn -[Stored.isFloat Stored.minAmount]. rewrite Hfloat.
  by decide_known.
Qed.

Lemma description_notEmpty (prefix s : string) :
  prefix ≠ "" → notEmpty (prefix +:+ s) = true.
Proof.
  intros Hp. unfold notEmpty. apply negb_true_iff, bool_decide_eq_false.
  by destruct prefix.
Qed.

(** ** Transfers between wallets *)

(** No transfer is answered with the two wallets: once the source is
    stored with the withdrawal, the reference of the deposit is a key of
    the source document, and the save of the destination fails on the
    unique index. *)
Lemma transfer_never_completes
    (env : Env) (user : ReqUser) (req : Stored.TransferRequest)
    (ws : list Stored.Wallet.t) :
  Stored.status (Stored.postTransfer env user req ws).1 ≠ 200.
Proof.
  unfold Stored.postTransfer. rewrite stored_validated_eq.
  destruct (forallb _ _); [|done].
  destruct (_ || _); [done|].
  destruct (bool_decide (Stored.tr_fromWalletType req = Stored.tr_toWalletType req))
    eqn:Hsame; [done|]. apply bool_decide_eq_false in Hsame.
  open_action. cbn -[Stored.save].
  destruct (list_find _ ws) as [[i from]|] eqn:Hfrom; [|done].
  cbn -[Stored.save].
  destruct (list_find (λ w, Stored.Wallet.owner w = id user
                            ∧ Stored.Wallet.walletType w = Stored.tr_toWalletType req)
              ws) as [[j to]|] eqn:Hto; [|done].
  cbn -[Stored.save].
  destruct (negb _); [done|].
  apply found_lookup in Hfrom as [Hi [_ Hft]].
  apply found_lookup in Hto as [Hj [_ Htt]].
  assert (i ≠ j) as Hne by (intros ->; simplify_eq; congruence).
  match goal with
  | |- context [Stored.save ?doc ?tx ws] =>
      destruct (save_cases doc tx ws) as [Hsave|[err Hsave]]; rewrite Hsave
  end; [|done].
  cbn -[Stored.save]. unfold Stored.save.
  destruct (_ || _); [done|].
  erewrite held_elsewhere; [done| |exact Hne|].
  - cbn [fst]. apply list_lookup_insert_eq. by eapply lookup_lt_Some.
  - cbn. rewrite fmap_app. apply elem_of_app. right. apply list_elem_of_here.
Qed.

(** C10. Seller A, with 8000 XOF on the seller wallet and 1000 XOF on
    the buyer wallet, transfers 3000 XOF from the first to the second
    with a reference that no wallet holds: the route answers 500, the
    seller wallet is stored with the withdrawal and 5000 XOF, the buyer
    wallet is as it was, and the two balances add up to 6000 XOF where
    they added up to 9000.  No transfer request at all is answered with
    the two wallets. *)
Theorem transfer_debits_the_source_and_fails :
  Stored.Wallet.balance <$> vault = [Number.ofZ 8000; Number.ofZ 1000]
  ∧ Stored.Wallet.hasSufficientBalance (Stored.tr_amount transferOf3000)
      sellerAStored = true
  ∧ Stored.fresh (randomHex env1 0) vault
  ∧ Stored.postTransfer env1 sellerA transferOf3000 vault
    = (Stored.Throw "E11000 duplicate key error",
       [Stored.Wallet.addTransaction
          (Stored.withdrawalTransaction env1 sellerA transferOf3000 (randomHex env1 0))
          sellerAStored;
        buyerAStored])
  ∧ Stored.status (Stored.postTransfer env1 sellerA transferOf3000 vault).1 = 500
  ∧ Stored.Wallet.balance
      <$> (Stored.postTransfer env1 sellerA transferOf3000 vault).2
    = [Number.ofZ 5000; Number.ofZ 1000]
  ∧ length ∘ Stored.Wallet.transactions
      <$> (Stored.postTransfer env1 sellerA transferOf3000 vault).2
    = [2%nat; 1%nat]
  ∧ ∀ (env : Env) (user : ReqUser) (req : Stored.TransferRequest)
      (ws : list Stored.Wallet.t),
      Stored.status (Stored.postTransfer env user req ws).1 ≠ 200.
Proof.
  split; [by vm_compute|]. split; [by vm_compute|].
  split; [split; [done|apply (bool_decide_unpack _); by vm_compute]|].
  split; [by vm_compute|]. split; [by vm_compute|].
  split; [by vm_compute|]. split; [by vm_compute|].
  apply transfer_never_completes.
Qed.

(** ** Order creation *)




Lemma collectItems_reply items : ∀ acc total db r,
  (collectItems items acc total db).1 = Reply r → code r ≠ 200.
Proof.
  induction items as [|item items IH]; intros acc total db r; [done|].
  cbn. exec; try (by intros [= <-]).
  match goal with |- context [collectItems items ?a ?t ?d] => apply (IH a t d) end.
Qed.

Lemma reduceStocks_no_reply its : ∀ db r, (reduceStocks its db).1 ≠ Reply r.
Proof.
  induction its as [|item its IH]; intros db r; [done|].
  cbn. exec; try done.
  all: try (destruct (Product.reduceStock _ _); cbn; [|done]); exec.
  all: try match goal with |- context [reduceStocks ?l ?d] => apply (IH d) end.
Qed.





(** ** Subscription renewal *)

Example setMonth_rolls_over_short_months :
  JsDate.withMonth 0 1 (utc 2023 1 31) = utc 2023 3 3.
Proof. reflexivity. Qed.

Example setMonth_carries_into_next_year :
  JsDate.withMonth 0 12 (utc 2023 12 15) = utc 2024 1 15.
Proof. reflexivity. Qed.

Example setDate_carries_into_next_month :
  JsDate.withDate 0 (28 + 7) (utc 2024 2 28) = utc 2024 3 6.
Proof. reflexivity. Qed.

Example local_zone_is_respected :
  JsDate.MonthFromTime (JsDate.LocalTime 3600000 (utc 2024 1 31 + 23 * 3600000)) = 1
  ∧ JsDate.withMonth 3600000 2 (utc 2024 1 31 + 23 * 3600000)
    = utc 2024 3 1 - 3600000.
Proof. split; reflexivity. Qed.

Lemma traverseOpt_getTime (o : option JsDate.ref) (h : JsDate.Heap) :
  Subscription.traverseOpt (λ d h, (h !!! d, h)) o h = ((λ r, h !!! r) <$> o, h).
Proof. by destruct o. Qed.

Lemma store_dates (this : Subscription.t JsDate.ref) (h : JsDate.Heap) :
  Subscription.startDate (Subscription.store this h).1 = h !!! Subscription.startDate this
  ∧ Subscription.endDate (Subscription.store this h).1
    = (λ r, h !!! r) <$> Subscription.endDate this
  ∧ Subscription.plan (Subscription.store this h).1 = Subscription.plan this.
Proof.
  unfold Subscription.store, Subscription.traverse.
  unfold mbind, JsDate.Js_bind, mret, JsDate.Js_ret, JsDate.getTime. cbn.
  rewrite !traverseOpt_getTime.
  repeat match goal with
         | |- context [let (_, _) := ?x in _] => destruct x; cbn
         end.
  done.
Qed.

Lemma heap_read_last (h : JsDate.Heap) (tv : Z) : (h ++ [tv]) !!! length h = tv.
Proof. apply list_lookup_total_middle. done. Qed.

(** Whatever the subscription and the heap, a renewal of a weekly,
    monthly or yearly plan stores one and the same time, the end of the
    new cycle, as end date and as start date. *)
Lemma renew_start_is_end (tza now : Z) (pd : option RenewalPayment)
    (this : Subscription.t JsDate.ref) (h : JsDate.Heap) :
  Subscription.plan this ≠ free_trial →
  let renewed := (Subscription.renew tza now pd this h).1 in
  Subscription.endDate renewed = Some (cycleEnd tza (Subscription.plan this) now)
  ∧ Subscription.startDate renewed = cycleEnd tza (Subscription.plan this) now.
Proof.
  intros Hplan. cbn zeta.
  unfold Subscription.renew, Subscription.save, Subscription.preSave.
  unfold mbind, JsDate.Js_bind, mret, JsDate.Js_ret, JsDate.newDate. cbn.
  set (this1 := Subscription.applyPayment pd (length h) _).
  assert (Subscription.plan this1 = Subscription.plan this) as Hp1
    by (subst this1; by destruct pd).
  assert (Subscription.startDate this1 = length h) as Hs1
    by (subst this1; by destruct pd).
  rewrite Hp1. clearbody this1.
  assert (∀ tv, (<[length h := tv]> (h ++ [now]) ++ [tv]) !!! length h = tv) as Hstart.
  { intros tv. rewrite lookup_total_app_l
      by (rewrite length_insert, length_app; simpl; lia).
    apply list_lookup_total_insert_eq. rewrite length_app; simpl; lia. }
  destruct (Subscription.plan this) eqn:Hp; [done|..];
    unfold JsDate.getDate, JsDate.getMonth, JsDate.getFullYear, JsDate.getTime,
      mbind, JsDate.Js_bind, mret, JsDate.Js_ret;
    cbn; rewrite !heap_read_last;
    match goal with
    | |- context [Subscription.store ?x ?hh] =>
        destruct (store_dates x hh) as (Hs & He & _); rewrite Hs, He
    end; cbn; rewrite Hs1, Hstart, heap_read_last; done.
Qed.

(** C8. Renewing the monthly subscription at 2024-01-01T00:00:00Z archives
    the ended cycle and sets the end date to 2024-02-01; but
    the stored start date is 2024-02-01 as well, not the time of the
    call: [startDate] holds the very [Date] object that [setMonth] then
    advances. *)
Theorem renew_monthly_on_2024_01_01 :
  utc 2024 1 1 = 1704067200000
  ∧ utc 2024 2 1 = 1706745600000
  ∧ Subscription.endDate renewedJan = Some (utc 2024 2 1)
  ∧ Subscription.startDate renewedJan = utc 2024 2 1
  ∧ Subscription.startDate renewedJan ≠ utc 2024 1 1
  ∧ Subscription.status renewedJan = SubscriptionStatus.active
  ∧ Subscription.renewalHistory renewedJan
    = [{| r_plan := monthly; r_startDate := utc 2023 12 1;
          r_endDate := Some (utc 2024 1 1); r_price := 7500;
          r_paymentMethod := "wallet"; r_transactionId := None;
          r_status := SubscriptionStatus.active |}].
Proof. vm_compute. repeat split; try reflexivity. discriminate. Qed.

(** ** The statements at work on the sample inputs *)

Lemma balances_stay_non_negative_sample :
  nonNegative market ∧ nonNegative (serveAll busyDay market).
Proof.
  assert (nonNegative market) as Hm
    by (unfold nonNegative; cbn; repeat (constructor; [done|]); constructor).
  split; [exact Hm|].
  apply (balances_stay_non_negative busyDay market). exact Hm.
Defined.

Lemma payment_status_only_moves_to_final_sample :
  orders (marketWith PaymentStatus.pending) !! 0%nat
  = Some (Order.set_paymentStatus PaymentStatus.pending order1)
  ∧ ∃ o', orders (paymentOps lateOps (marketWith PaymentStatus.pending)) !! 0%nat
          = Some o'
          ∧ settledFrom PaymentStatus.pending (Order.paymentStatus o').
Proof.
  split; [reflexivity|].
  apply (payment_status_only_moves_to_final lateOps
           (marketWith PaymentStatus.pending) 0
           (Order.set_paymentStatus PaymentStatus.pending order1)).
  reflexivity.
Defined.



Lemma accept_keeps_agent_and_admin_assign_overwrites_sample :
  (handle env1 agent2 (PutAcceptDelivery "order1") market).1
  = {| code := 400; body := Msg "Order is not available for delivery" |}
  ∧ orders (handle env1 agent2 (PutAcceptDelivery "order1") market).2 !! 0%nat
    = Some order1
  ∧ (Order.deliveryAgent openOrder = None
     ∧ Order.status openOrder = OrderStatus.processing
     ∧ Order.deliveryStatus openOrder = DeliveryStatus.pending
     ∧ orders (handle env1 agent2 (PutAcceptDelivery "order1") dispatch).2 !! 0%nat
       = Some (Order.assignDeliveryAgent "agent2" openOrder))
  ∧ Order.deliveryAgent
      <$> orders (handle env1 admin1 (PutAssignDelivery "order1" "agent2") market).2
          !! 0%nat
    = Some (Some "agent2")
  ∧ Order.deliveryAgent
      <$> orders (handle env1 admin1 (PutAssignDelivery "order1" "agent2") dispatch).2
          !! 0%nat
    = Some (Some "agent2").
Proof.
  destruct (accept_keeps_agent_and_admin_assign_overwrites env1 agent2 admin1
              "order1" "agent2" market 0 order1 5
              (mkUser "agent2" "delivery") eq_refl) as (Hkeep & _ & Hassign).
  destruct (accept_keeps_agent_and_admin_assign_overwrites env1 agent2 admin1
              "order1" "agent2" dispatch 0 openOrder 5
              (mkUser "agent2" "delivery") eq_refl) as (_ & Honly & Hfresh).
  split; [by vm_compute|].
  split; [apply Hkeep; by eexists|].
  split; [apply Honly; by vm_compute|].
  split.
  - apply Hassign.
    + apply list_elem_of_here.
    + discriminate.
    + vm_compute; reflexivity.
    + apply list_elem_of_here.
    + vm_compute; reflexivity.
  - apply Hfresh.
    + apply list_elem_of_here.
    + discriminate.
    + vm_compute; reflexivity.
    + apply list_elem_of_here.
    + vm_compute; reflexivity.
Defined.

(** ** Refused requests *)

Ltac rejected :=
  cbn; intros Hrej;
  first [ reflexivity | by vm_compute in Hrej ].

Lemma rejected_deposit env user req db :
  isRejection (handle env user (PostDeposit req) db).1 = true →
  (handle env user (PostDeposit req) db).2 = db.
Proof.
  unfold handle, handler, postDeposit. rewrite validated_eq. exec; rejected.
Qed.

Lemma rejected_withdraw env user req db :
  isRejection (handle env user (PostWithdraw req) db).1 = true →
  (handle env user (PostWithdraw req) db).2 = db.
Proof.
  unfold handle, handler, postWithdraw. rewrite validated_eq. exec; rejected.
Qed.

Lemma rejected_transfer env user req db :
  isRejection (handle env user (PostTransfer req) db).1 = true →
  (handle env user (PostTransfer req) db).2 = db.
Proof.
  unfold handle, handler, postTransfer. rewrite validated_eq. exec; rejected.
Qed.

Lemma rejected_order env user req db :
  isRejection (handle env user (PostOrder req) db).1 = true →
  (handle env user (PostOrder req) db).2 = db.
Proof.
  unfold handle, handler, postOrder. rewrite validated_eq. open_handler.
  destruct (existsb _ _); [|done].
  destruct (forallb _ _); [|done].
  pose proof (collectItems_db (or_items req) [] 0 db) as Hc.
  destruct (collectItems _ _ _ _) as [[[orderItems productTotal]|r|] db1];
    simpl in Hc; subst db1; try done.
  destruct (bool_decide (or_paymentMethod req = "wallet")); exec; try rejected.
  match goal with
  | |- context [reduceStocks ?its ?d] =>
      pose proof (reduceStocks_no_reply its d) as Hstock;
      destruct (reduceStocks its d) as [[?| r|?] ?]; cbn
  end; try rejected. by destruct (Hstock r).
Qed.

Lemma rejected_status env user orderId status db :
  isRejection (handle env user (PutOrderStatus orderId status) db).1 = true →
  (handle env user (PutOrderStatus orderId status) db).2 = db.
Proof.
  unfold handle, handler, putOrderStatus. open_handler.
  destruct (existsb _ _); [|done].
  cbn. destruct (list_find _ _) as [[slot o]|]; [|done].
  destruct status; cbn; rejected.
Qed.

Lemma rejected_deliveryStatus env user orderId status proof db :
  isRejection (handle env user (PutDeliveryStatus orderId status proof) db).1 = true →
  (handle env user (PutDeliveryStatus orderId status proof) db).2 = db.
Proof.
  unfold handle, handler, putDeliveryStatus. rewrite validated_eq. open_handler.
  destruct (existsb _ _); [|done].
  destruct (forallb _ _); [|done].
  cbn. destruct (list_find _ _) as [[slot o]|]; [|done].
  cbn. destruct (negb _); [done|].
  destruct status; cbn; rejected.
Qed.

Lemma rejected_assign env user orderId agentId db :
  isRejection (handle env user (PutAssignDelivery orderId agentId) db).1 = true →
  (handle env user (PutAssignDelivery orderId agentId) db).2 = db.
Proof.
  unfold handle, handler, putAssignDelivery. rewrite validated_eq. exec; rejected.
Qed.

Lemma rejected_accept env user orderId db :
  isRejection (handle env user (PutAcceptDelivery orderId) db).1 = true →
  (handle env user (PutAcceptDelivery orderId) db).2 = db.
Proof. unfold handle, handler, putAcceptDelivery. exec; rejected. Qed.

Lemma rejected_renew env user pm db :
  isRejection (handle env user (PutRenew pm) db).1 = true →
  (handle env user (PutRenew pm) db).2 = db.
Proof.
  unfold handle, handler, putRenew, paySubscription. rewrite validated_eq.
  exec; rejected.
Qed.

Lemma rejected_changePlan env user plan pm db :
  isRejection (handle env user (PutChangePlan plan pm) db).1 = true →
  (handle env user (PutChangePlan plan pm) db).2 = db.
Proof.
  unfold handle, handler, putChangePlan, paySubscription. rewrite validated_eq.
  exec; rejected.
Qed.

(** X1. A request answered 400, 403 or 404 has changed nothing in the
    database, on every route except POST api/subscription. *)
Theorem refused_requests_change_nothing
    (env : Env) (user : ReqUser) (r : Request) (db : Db) :
  (∀ req, r ≠ PostSubscription req) →
  isRejection (handle env user r db).1 = true →
  (handle env user r db).2 = db.
Proof.
  intros Hr. destruct r.
  - apply rejected_deposit.
  - apply rejected_withdraw.
  - apply rejected_transfer.
  - apply rejected_order.
  - apply rejected_status.
  - apply rejected_assign.
  - apply rejected_deliveryStatus.
  - apply rejected_accept.
  - by destruct (Hr req).
  - apply rejected_renew.
  - apply rejected_changePlan.
Qed.

Lemma refused_requests_change_nothing_sample :
  isRejection (handle env1 buyer1 (PostOrder (orderTwoOfA "wallet")) market).1 = true
  ∧ (handle env1 buyer1 (PostOrder (orderTwoOfA "wallet")) market).2 = market.
Proof.
  assert (isRejection
            (handle env1 buyer1 (PostOrder (orderTwoOfA "wallet")) market).1 = true)
    as Hrej by (vm_compute; reflexivity).
  split; [exact Hrej|].
  apply (refused_requests_change_nothing env1 buyer1
           (PostOrder (orderTwoOfA "wallet")) market); [discriminate|exact Hrej].
Defined.

(** ** The role gate *)

Lemma checkRole_denies {A} role user (next : Handler A) db :
  role ∉ user_roles user →
  checkRole [role] user next db = (Reply accessDenied, db).
Proof.
  intros Hrole. unfold checkRole. cbn.
  by rewrite (bool_decide_eq_false_2 _ Hrole).
Qed.

(** X2. Every role-gated route answers 403 and touches nothing when the
    caller's token does not carry the role the route demands. *)
Theorem callers_without_the_role_are_denied
    (env : Env) (user : ReqUser) (r : Request) (db : Db) (role : string) :
  requiredRole r = Some role →
  role ∉ user_roles user →
  handle env user r db = (accessDenied, db).
Proof.
  intros Hr Hrole. unfold handle, serve.
  destruct r; cbn in Hr; simplify_eq; cbn;
    unfold postOrder, putOrderStatus, putAssignDelivery, putDeliveryStatus,
      putAcceptDelivery, postSubscription, putRenew, putChangePlan;
    by rewrite checkRole_denies.
Qed.

Lemma callers_without_the_role_are_denied_sample :
  handle env1 buyer1 (PutOrderStatus "order1" OrderStatus.delivered) market
  = (accessDenied, market).
Proof.
  apply (callers_without_the_role_are_denied env1 buyer1
           (PutOrderStatus "order1" OrderStatus.delivered) market "admin").
  - reflexivity.
  - intros Hin. apply list_elem_of_singleton in Hin. discriminate.
Defined.

(** ** Deposits and withdrawals *)


Lemma list_find_insert_same {A} (P : A → Prop) `{∀ x, Decision (P x)}
    (l : list A) (i : nat) (x y : A) :
  list_find P l = Some (i, x) → P y →
  list_find P (<[i := y]> l) = Some (i, y).
Proof.
  intros Hf Hy. apply list_find_Some in Hf as (Hi & Hx & Hbefore).
  apply list_find_Some. split; [|split; [done|]].
  - apply list_lookup_insert_eq. by eapply lookup_lt_Some.
  - intros j z Hj Hlt. rewrite list_lookup_insert_ne in Hj by lia.
    by eapply Hbefore.
Qed.

(** What a stored deposit of a whole amount does. *)
Lemma stored_deposit_step
    (env : Env) (user : ReqUser) (req : Stored.WalletRequest)
    (ws : list Stored.Wallet.t) (i : nat) (w : Stored.Wallet.t) :
  Stored.validWalletRequest req →
  list_find (λ x, Stored.Wallet.owner x = id user
                  ∧ Stored.Wallet.walletType x = Stored.wr_walletType req) ws
  = Some (i, w) →
  Stored.heldElsewhere i (randomHex env 0) ws = false →
  randomHex env 0 ≠ "" →
  Number.isSafeInteger (Stored.Wallet.balance w) = true →
  Z.abs (Number.toZ (Stored.Wallet.balance w) + Number.toZ (Stored.wr_amount req))
    ≤ Number.MAX_SAFE_INTEGER →
  ∃ w' tx,
    Stored.postDeposit env user req ws = (Stored.Val w', <[i := w']> ws)
    ∧ Stored.Wallet.balance w'
      = Number.ofZ (Number.toZ (Stored.Wallet.balance w)
                    + Number.toZ (Stored.wr_amount req))
    ∧ w' = Stored.Wallet.addTransaction tx w
    ∧ Stored.Transaction.type tx = deposit
    ∧ Stored.Transaction.amount tx = Stored.wr_amount req
    ∧ Stored.Transaction.status tx = TransactionStatus.completed.
Proof.
  intros Hvalid Hw Hheld Hne Hsafe Hbound.
  destruct (stored_wallet_checks req Hvalid) as (Hc & Ht & Hm).
  destruct Hvalid as (Hamount & Hpos & _ & Hmethod).
  destruct (whole_amount_passes _ Hamount Hpos) as [_ Hnan].
  pose proof (safeInteger_whole _ Hsafe) as [Hb _].
  pose proof (safeInteger_whole _ Hamount) as [Ha _].
  set (tx := {| Stored.Transaction.type := deposit;
                Stored.Transaction.amount := Stored.wr_amount req;
                Stored.Transaction.description :=
                  "Deposit to " +:+ Stored.wr_walletType req +:+ " wallet";
                Stored.Transaction.status := TransactionStatus.completed;
                Stored.Transaction.reference := randomHex env 0;
                Stored.Transaction.relatedOrder := None;
                Stored.Transaction.relatedUser := Some (id user);
                Stored.Transaction.paymentMethod := Stored.wr_paymentMethod req;
                Stored.Transaction.paymentDetails :=
                  externalDetails (Stored.wr_paymentDetails req) (randomHex env 0)
                    (Stored.wr_paymentMethod req);
                Stored.Transaction.createdAt := now env |}).
  assert (Hbal : Stored.Wallet.balance (Stored.Wallet.addTransaction tx w)
                 = Number.ofZ (Number.toZ (Stored.Wallet.balance w)
                               + Number.toZ (Stored.wr_amount req))).
  { by rewrite (stored_addTransaction_whole tx w _ Hb Hamount). }
  exists (Stored.Wallet.addTransaction tx w), tx.
  split; [|by repeat split].
  unfold Stored.postDeposit. rewrite stored_validated_eq, Hc, Ht.
  open_action. cbn -[Stored.save]. rewrite Hw. cbn -[Stored.save]. fold tx.
  rewrite save_stores; [done|..].
  - unfold Stored.validTransaction. cbn. rewrite Hnan.
    rewrite (bool_decide_eq_true_2 _ Hmethod). unfold notEmpty.
    by rewrite (bool_decide_eq_false_2 _ Hne).
  - cbn [snd]. by rewrite Hbal.
  - done.
Qed.

(** X3. A deposit of a whole amount of XOF by a payment method of the
    transaction schema, to an existing wallet of the caller whose
    balance is a whole number that stays within the safe integers, with
    a reference that no wallet holds, is stored: the route answers with
    the wallet, its balance raised by exactly the amount and one
    completed deposit appended, and no other wallet has changed. *)
Theorem deposit_credits_exactly_the_amount
    (env : Env) (user : ReqUser) (req : Stored.WalletRequest)
    (ws : list Stored.Wallet.t) (i : nat) (w : Stored.Wallet.t) :
  Stored.validWalletRequest req →
  Stored.callerWallet user req ws = Some (i, w) →
  Stored.fresh (randomHex env 0) ws →
  Number.isSafeInteger (Stored.Wallet.balance w) = true →
  Z.abs (Number.toZ (Stored.Wallet.balance w) + Number.toZ (Stored.wr_amount req))
    ≤ Number.MAX_SAFE_INTEGER →
  ∃ w' tx,
    Stored.postDeposit env user req ws = (Stored.Val w', <[i := w']> ws)
    ∧ Stored.Wallet.balance w'
      = Number.ofZ (Number.toZ (Stored.Wallet.balance w)
                    + Number.toZ (Stored.wr_amount req))
    ∧ Stored.Wallet.transactions w' = Stored.Wallet.transactions w ++ [tx]
    ∧ Stored.Transaction.type tx = deposit
    ∧ Stored.Transaction.amount tx = Stored.wr_amount req
    ∧ Stored.Transaction.status tx = TransactionStatus.completed.
Proof.
  intros Hvalid Hw Hfresh Hsafe Hbound.
  destruct (stored_deposit_step env user req ws i w Hvalid Hw
              (fresh_not_held _ _ _ Hfresh) (proj1 Hfresh) Hsafe Hbound)
    as (w' & tx & Hrun & Hbal & -> & Hrest).
  by exists (Stored.Wallet.addTransaction tx w), tx.
Qed.

Lemma deposit_credits_exactly_the_amount_sample :
  ∃ w' tx,
    Stored.postDeposit env1 sellerA moveOf3000 vault
    = (Stored.Val w', <[0%nat := w']> vault)
    ∧ Stored.Wallet.balance w'
      = Number.ofZ (Number.toZ (Stored.Wallet.balance sellerAStored)
                    + Number.toZ (Number.ofZ 3000))
    ∧ Stored.Wallet.transactions w' = Stored.Wallet.transactions sellerAStored ++ [tx]
    ∧ Stored.Transaction.type tx = deposit
    ∧ Stored.Transaction.amount tx = Number.ofZ 3000
    ∧ Stored.Transaction.status tx = TransactionStatus.completed.
Proof.
  apply (deposit_credits_exactly_the_amount env1 sellerA moveOf3000 vault
           0%nat sellerAStored).
  - split; [by vm_compute|]. split; [by vm_compute|]. split; repeat constructor.
  - reflexivity.
  - split; [done|]. apply (bool_decide_unpack _). by vm_compute.
  - by vm_compute.
  - vm_compute. discriminate.
Defined.

(** What a stored withdrawal of a whole amount does when the balance
    covers it. *)
Lemma stored_withdraw_covered
    (env : Env) (user : ReqUser) (req : Stored.WalletRequest)
    (ws : list Stored.Wallet.t) (i : nat) (w : Stored.Wallet.t) :
  Stored.validWalletRequest req →
  list_find (λ x, Stored.Wallet.owner x = id user
                  ∧ Stored.Wallet.walletType x = Stored.wr_walletType req) ws
  = Some (i, w) →
  Stored.heldElsewhere i (randomHex env 0) ws = false →
  randomHex env 0 ≠ "" →
  Number.isSafeInteger (Stored.Wallet.balance w) = true →
  Number.toZ (Stored.wr_amount req) ≤ Number.toZ (Stored.Wallet.balance w) →
  ∃ w' tx,
    Stored.postWithdraw env user req ws = (Stored.Val w', <[i := w']> ws)
    ∧ Stored.Wallet.balance w'
      = Number.ofZ (Number.toZ (Stored.Wallet.balance w)
                    - Number.toZ (Stored.wr_amount req))
    ∧ w' = Stored.Wallet.addTransaction tx w
    ∧ Stored.Transaction.type tx = withdrawal
    ∧ Stored.Transaction.amount tx = Stored.wr_amount req
    ∧ Stored.Transaction.status tx = TransactionStatus.completed.
Proof.
  intros Hvalid Hw Hheld Hne Hsafe Hcovered.
  destruct (stored_wallet_checks req Hvalid) as (Hc & Ht & Hm).
  destruct Hvalid as (Hamount & Hpos & _ & Hmethod).
  destruct (whole_amount_passes _ Hamount Hpos) as [_ Hnan].
  pose proof (safeInteger_whole _ Hsafe) as [Hb Hbb].
  pose proof (safeInteger_whole _ Hamount) as [Ha _].
  set (tx := {| Stored.Transaction.type := withdrawal;
                Stored.Transaction.amount := Stored.wr_amount req;
                Stored.Transaction.description :=
                  "Withdrawal from " +:+ Stored.wr_walletType req +:+ " wallet";
                Stored.Transaction.status := TransactionStatus.completed;
                Stored.Transaction.reference := randomHex env 0;
                Stored.Transaction.relatedOrder := None;
                Stored.Transaction.relatedUser := Some (id user);
                Stored.Transaction.paymentMethod := Stored.wr_paymentMethod req;
                Stored.Transaction.paymentDetails :=
                  externalDetails (Stored.wr_paymentDetails req) (randomHex env 0)
                    (Stored.wr_paymentMethod req);
                Stored.Transaction.createdAt := now env |}).
  assert (Hbal : Stored.Wallet.balance (Stored.Wallet.addTransaction tx w)
                 = Number.ofZ (Number.toZ (Stored.Wallet.balance w)
                               - Number.toZ (Stored.wr_amount req))).
  { rewrite (stored_addTransaction_whole tx w _ Hb Hamount);
      change (Stored.isCredit tx) with false; cbv iota; [done|].
      change (Stored.Transaction.amount tx) with (Stored.wr_amount req). lia. }
  exists (Stored.Wallet.addTransaction tx w), tx.
  split; [|by repeat split].
  unfold Stored.postWithdraw. rewrite stored_validated_eq, Hc, Ht.
  open_action. cbn -[Stored.save]. rewrite Hw. cbn -[Stored.save].
  unfold Stored.Wallet.hasSufficientBalance.
  set (a := Number.toZ (Stored.wr_amount req)) in *.
  set (b := Number.toZ (Stored.Wallet.balance w)) in *.
  rewrite Hb, Ha, geb_whole, bool_decide_eq_true_2 by done.
  cbn -[Stored.save]. rewrite <- Ha. fold tx.
  rewrite save_stores; [done|..].
  - unfold Stored.validTransaction. cbn. rewrite Hnan.
    rewrite (bool_decide_eq_true_2 _ Hmethod). unfold notEmpty.
    by rewrite (bool_decide_eq_false_2 _ Hne).
  - cbn [snd]. by rewrite Hbal.
  - done.
Qed.

(** X4. A withdrawal of a whole amount of XOF from an existing wallet
    of the caller whose balance is a safe whole number succeeds exactly
    when the balance covers the amount: with a payment method of the
    transaction schema and a reference that no wallet holds it is
    stored, the balance lowered by exactly the amount and one completed
    withdrawal appended; when the balance is smaller the route answers
    400 and changes nothing. *)
Theorem withdrawal_succeeds_iff_covered
    (env : Env) (user : ReqUser) (req : Stored.WalletRequest)
    (ws : list Stored.Wallet.t) (i : nat) (w : Stored.Wallet.t) :
  Stored.validWalletRequest req →
  Stored.callerWallet user req ws = Some (i, w) →
  Number.isSafeInteger (Stored.Wallet.balance w) = true →
  (Number.toZ (Stored.wr_amount req) ≤ Number.toZ (Stored.Wallet.balance w) →
   Stored.fresh (randomHex env 0) ws →
   ∃ w' tx,
     Stored.postWithdraw env user req ws = (Stored.Val w', <[i := w']> ws)
     ∧ Stored.Wallet.balance w'
       = Number.ofZ (Number.toZ (Stored.Wallet.balance w)
                     - Number.toZ (Stored.wr_amount req))
     ∧ Stored.Wallet.transactions w' = Stored.Wallet.transactions w ++ [tx]
     ∧ Stored.Transaction.type tx = withdrawal
     ∧ Stored.Transaction.amount tx = Stored.wr_amount req
     ∧ Stored.Transaction.status tx = TransactionStatus.completed)
  ∧ (Number.toZ (Stored.Wallet.balance w) < Number.toZ (Stored.wr_amount req) →
     Stored.postWithdraw env user req ws
     = (Stored.Reply 400 (Stored.Msg "Insufficient balance"), ws)).
Proof.
  intros Hvalid Hw Hsafe. split.
  - intros Hcovered Hfresh.
    destruct (stored_withdraw_covered env user req ws i w Hvalid Hw
                (fresh_not_held _ _ _ Hfresh) (proj1 Hfresh) Hsafe Hcovered)
      as (w' & tx & Hrun & Hbal & -> & Hrest).
    by exists (Stored.Wallet.addTransaction tx w), tx.
  - intros Hshort.
    destruct (stored_wallet_checks req Hvalid) as (Hc & Ht & Hm).
    destruct Hvalid as (Hamount & _).
    pose proof (safeInteger_whole _ Hsafe) as [Hb _].
    pose proof (safeInteger_whole _ Hamount) as [Ha _].
    unfold Stored.callerWallet in Hw.
    unfold Stored.postWithdraw. rewrite stored_validated_eq, Hc, Ht.
    open_action. cbn -[Stored.save]. rewrite Hw. cbn -[Stored.save].
    unfold Stored.Wallet.hasSufficientBalance.
    set (a := Number.toZ (Stored.wr_amount req)) in *.
    set (b := Number.toZ (Stored.Wallet.balance w)) in *.
    by rewrite Hb, Ha, geb_whole, bool_decide_eq_false_2 by lia.
Qed.

Lemma withdrawal_succeeds_iff_covered_sample :
  ∃ w' tx,
    Stored.postWithdraw env1 sellerA moveOf3000 vault
    = (Stored.Val w', <[0%nat := w']> vault)
    ∧ Stored.Wallet.balance w'
      = Number.ofZ (Number.toZ (Stored.Wallet.balance sellerAStored)
                    - Number.toZ (Number.ofZ 3000))
    ∧ Stored.Wallet.transactions w' = Stored.Wallet.transactions sellerAStored ++ [tx]
    ∧ Stored.Transaction.type tx = withdrawal
    ∧ Stored.Transaction.amount tx = Number.ofZ 3000
    ∧ Stored.Transaction.status tx = TransactionStatus.completed.
Proof.
  apply (withdrawal_succeeds_iff_covered env1 sellerA moveOf3000 vault
           0%nat sellerAStored).
  - split; [by vm_compute|]. split; [by vm_compute|]. split; repeat constructor.
  - reflexivity.
  - by vm_compute.
  - vm_compute. discriminate.
  - split; [done|]. apply (bool_decide_unpack _). by vm_compute.
Defined.

(** X5. On a wallet whose balance is a whole number, not negative,
    that stays within the safe integers when the amount is added, a
    deposit of a whole amount followed by a withdrawal of the same
    amount, each with a reference that no wallet holds, is stored twice
    and brings the balance back to where it started, with two more
    entries in the log; every other wallet is as it was. *)
Theorem deposit_then_withdraw_restores_balance
    (env env' : Env) (user : ReqUser) (req : Stored.WalletRequest)
    (ws : list Stored.Wallet.t) (i : nat) (w : Stored.Wallet.t) :
  Stored.validWalletRequest req →
  Stored.callerWallet user req ws = Some (i, w) →
  Stored.fresh (randomHex env 0) ws →
  Stored.fresh (randomHex env' 0) ws →
  Number.isSafeInteger (Stored.Wallet.balance w) = true →
  0 ≤ Number.toZ (Stored.Wallet.balance w) →
  Number.toZ (Stored.Wallet.balance w) + Number.toZ (Stored.wr_amount req)
    ≤ Number.MAX_SAFE_INTEGER →
  ∃ w2,
    Stored.postWithdraw env' user req (Stored.postDeposit env user req ws).2
    = (Stored.Val w2, <[i := w2]> ws)
    ∧ Stored.Wallet.balance w2 = Stored.Wallet.balance w
    ∧ length (Stored.Wallet.transactions w2)
      = (length (Stored.Wallet.transactions w) + 2)%nat.
Proof.
  intros Hvalid Hw Hfresh Hfresh' Hsafe Hpos Hbound.
  pose proof Hvalid as (Hamount & Ha & _).
  pose proof (safeInteger_whole _ Hsafe) as [Hb _].
  destruct (stored_deposit_step env user req ws i w Hvalid Hw
              (fresh_not_held _ _ _ Hfresh) (proj1 Hfresh) Hsafe)
    as (w1 & tx1 & Hrun1 & Hbal1 & Hlog1 & _); [lia|].
  rewrite Hrun1. cbn [snd].
  pose proof (found_lookup _ _ _ _ Hw) as [Hi [Ho Hty]].
  assert (Hw1 : list_find (λ x, Stored.Wallet.owner x = id user
                                ∧ Stored.Wallet.walletType x = Stored.wr_walletType req)
                  (<[i := w1]> ws) = Some (i, w1)).
  { apply (list_find_insert_same _ _ _ w); [done|]. by rewrite Hlog1. }
  assert (Hsafe1 : Number.isSafeInteger (Stored.Wallet.balance w1) = true
                   ∧ Number.toZ (Stored.Wallet.balance w1)
                     = Number.toZ (Stored.Wallet.balance w)
                       + Number.toZ (Stored.wr_amount req)).
  { rewrite Hbal1. apply ofZ_safeInteger. lia. }
  destruct Hsafe1 as [Hsafe1 Hz1].
  destruct (stored_withdraw_covered env' user req (<[i := w1]> ws) i w1 Hvalid Hw1
              (fresh_not_held_insert _ _ _ _ Hfresh') (proj1 Hfresh') Hsafe1)
    as (w2 & tx2 & Hrun2 & Hbal2 & -> & _); [lia|].
  exists (Stored.Wallet.addTransaction tx2 w1).
  rewrite Hrun2, list_insert_insert_eq. split; [done|].
  split.
  - rewrite Hbal2, Hz1. set (b := Number.toZ (Stored.Wallet.balance w)) in *.
    rewrite Hb. f_equal. lia.
  - rewrite Hlog1. cbn. rewrite !length_app. cbn. lia.
Qed.

Lemma deposit_then_withdraw_restores_balance_sample :
  ∃ w2,
    Stored.postWithdraw env2 sellerA moveOf3000
      (Stored.postDeposit env1 sellerA moveOf3000 vault).2
    = (Stored.Val w2, <[0%nat := w2]> vault)
    ∧ Stored.Wallet.balance w2 = Stored.Wallet.balance sellerAStored
    ∧ length (Stored.Wallet.transactions w2)
      = (length (Stored.Wallet.transactions sellerAStored) + 2)%nat.
Proof.
  apply (deposit_then_withdraw_restores_balance env1 env2 sellerA moveOf3000 vault
           0%nat sellerAStored).
  - split; [by vm_compute|]. split; [by vm_compute|]. split; repeat constructor.
  - reflexivity.
  - split; [done|]. apply (bool_decide_unpack _). by vm_compute.
  - split; [done|]. apply (bool_decide_unpack _). by vm_compute.
  - by vm_compute.
  - vm_compute. discriminate.
  - vm_compute. discriminate.
Defined.

(** ** Who may move an order *)

(** X6. A delivery-status update by anyone other than the agent assigned
    to the order is refused (400, 403 or 404) and changes nothing,
    whatever status and proof are sent. *)
Theorem only_the_assigned_agent_updates_delivery
    (env : Env) (user : ReqUser) (orderId : ObjectId)
    (status : DeliveryStatus.t) (proof : DeliveryProof) (db : Db)
    (i : nat) (o : Order.t) :
  list_find (λ x, Order._id x = orderId) (orders db) = Some (i, o) →
  Order.deliveryAgent o ≠ Some (id user) →
  isRejection (handle env user (PutDeliveryStatus orderId status proof) db).1 = true
  ∧ (handle env user (PutDeliveryStatus orderId status proof) db).2 = db.
Proof.
  intros Ho Hagent.
  unfold handle, handler, putDeliveryStatus. rewrite validated_eq. open_handler.
  destruct (existsb _ _); [|done].
  destruct (forallb _ _); [|done].
  cbn. rewrite Ho. cbn.
  by rewrite (bool_decide_eq_false_2 _ Hagent).
Qed.

Lemma only_the_assigned_agent_updates_delivery_sample :
  isRejection
    (handle env1 agent2
       (PutDeliveryStatus "order1" DeliveryStatus.delivered noProof) market).1
  = true
  ∧ (handle env1 agent2
       (PutDeliveryStatus "order1" DeliveryStatus.delivered noProof) market).2
    = market.
Proof.
  apply (only_the_assigned_agent_updates_delivery env1 agent2 "order1"
           DeliveryStatus.delivered noProof market 0%nat order1).
  - reflexivity.
  - discriminate.
Defined.

(** X7. An available delivery agent who accepts an order that is
    processing, pending delivery and unassigned becomes its agent, the
    delivery status becomes assigned and nothing else in the database
    moves; from then on every further accept of that order, by anyone,
    is refused and changes nothing. *)
Theorem accept_is_first_come_first_served
    (env env' : Env) (user other : ReqUser) (orderId : ObjectId) (db : Db)
    (i : nat) (o : Order.t) (u : nat) (account : User.t) (info : DeliveryInfo) :
  "delivery" ∈ user_roles user →
  list_find (λ x, Order._id x = orderId) (orders db) = Some (i, o) →
  Order.status o = OrderStatus.processing →
  Order.deliveryStatus o = DeliveryStatus.pending →
  Order.deliveryAgent o = None →
  list_find (λ x, User._id x = id user) (users db) = Some (u, account) →
  User.deliveryInfo account = Some info →
  deliveryIsAvailable info = true →
  let o' := Order.set_deliveryStatus DeliveryStatus.assigned
              (Order.set_deliveryAgent (Some (id user)) o) in
  let db' := set_orders (<[i := o']> (orders db)) db in
  handle env user (PutAcceptDelivery orderId) db
  = ({| code := 200; body := OrderJson o' |}, db')
  ∧ isRejection (handle env' other (PutAcceptDelivery orderId) db').1 = true
  ∧ (handle env' other (PutAcceptDelivery orderId) db').2 = db'.
Proof.
  intros Hrole Ho Hst Hds Hag Hu Hinfo Havail o' db'.
  assert (handle env user (PutAcceptDelivery orderId) db
          = ({| code := 200; body := OrderJson o' |}, db')) as Hfirst.
  { unfold handle, handler, putAcceptDelivery. open_handler. cbn.
    rewrite (bool_decide_eq_true_2 _ Hrole). cbn. rewrite Ho. cbn.
    rewrite Hst, Hds, Hag.
    rewrite (bool_decide_eq_false_2 (is_Some None)) by apply is_Some_None.
    decide_known. cbn. rewrite Hu. cbn. rewrite Hinfo, Havail. reflexivity. }
  split; [exact Hfirst|].
  assert (list_find (λ x, Order._id x = orderId) (<[i := o']> (orders db))
          = Some (i, o')) as Ho'.
  { apply (list_find_insert_same _ _ _ o); [done|].
    apply found_lookup in Ho as [_ Hid]. exact Hid. }
  subst db'. unfold handle, handler, putAcceptDelivery. open_handler.
  destruct (existsb _ _); [|done].
  cbn. rewrite Ho'. cbn. by rewrite !orb_true_r.
Qed.

Lemma accept_is_first_come_first_served_sample :
  deliveryAgents (handle env1 agent2 (PutAcceptDelivery "order1") dispatch).2
  = [Some "agent2"]
  ∧ deliveryAgents
      (handle env1 agent1 (PutAcceptDelivery "order1")
         (handle env1 agent2 (PutAcceptDelivery "order1") dispatch).2).2
    = [Some "agent2"].
Proof.
  destruct (accept_is_first_come_first_served env1 env1 agent2 agent1 "order1"
              dispatch 0%nat openOrder 5%nat (mkUser "agent2" "delivery")
              {| deliveryIsAvailable := true |})
    as (Hfirst & _ & Hsecond);
    [apply list_elem_of_here|reflexivity..|].
  rewrite Hfirst. split; [reflexivity|].
  cbn [snd]. rewrite Hsecond. reflexivity.
Defined.

(** X8. No order-status update and no delivery-status update changes any
    wallet, whatever the order, the status sent and the caller: behind
    these two routes [distributePayment] and [processRefund] are never
    entered. *)
Theorem status_updates_never_move_money
    (env : Env) (user : ReqUser) (orderId : ObjectId) (db : Db) :
  (∀ status,
     wallets (handle env user (PutOrderStatus orderId status) db).2 = wallets db)
  ∧ (∀ status proof,
       wallets (handle env user (PutDeliveryStatus orderId status proof) db).2
       = wallets db).
Proof.
  split; intros.
  - apply putOrderStatus_wallets.
  - apply putDeliveryStatus_wallets.
Qed.

(** ** Stock *)

(** X9. [reduceStock] succeeds exactly when the product is available and
    holds the quantity; it then lowers the stock by the quantity, never
    below zero, and the product stays available exactly when some stock
    is left. *)
Theorem reduceStock_keeps_stock_sound (quantity : Z) (p : Product.t) :
  (Product.reduceStock quantity p = None
   ↔ Product.stock p < quantity ∨ Product.isAvailable p = false)
  ∧ (∀ p', Product.reduceStock quantity p = Some p' →
       Product.stock p' = Product.stock p - quantity
       ∧ 0 ≤ Product.stock p'
       ∧ (Product.isAvailable p' = true ↔ Product.stock p' ≠ 0)
       ∧ Product._id p' = Product._id p
       ∧ Product.price p' = Product.price p
       ∧ Product.seller p' = Product.seller p).
Proof.
  unfold Product.reduceStock, Product.isInStock.
  destruct (Product.isAvailable p) eqn:Hav;
    destruct (bool_decide (quantity ≤ Product.stock p)) eqn:Hq;
    bool_facts; cbn.
  - split; [split; [done|intros [?|?]; [lia|done]]|].
    intros p' [= <-]. case_bool_decide; cbn in *; rewrite ?Hav;
      repeat split; try done; try lia.
  - split; [split; [intros _; left; lia|done]|done].
  - split; [split; [by right|done]|done].
  - split; [split; [by right|done]|done].
Qed.

Lemma reduceStock_keeps_stock_sound_sample :
  Product.stock (Product.set_isAvailable false (Product.set_stock 0 lastTwo)) = 2 - 2
  ∧ (Product.reduceStock 3 lastTwo = None ↔ 2 < 3 ∨ true = false).
Proof.
  split.
  - apply (reduceStock_keeps_stock_sound 2 lastTwo). reflexivity.
  - apply (reduceStock_keeps_stock_sound 3 lastTwo).
Defined.

(** X10. A product sold out by [reduceStock] refuses every further
    [reduceStock], even of quantity zero. *)
Theorem sold_out_product_refuses_all (quantity again : Z) (p p' : Product.t) :
  Product.reduceStock quantity p = Some p' →
  Product.stock p' = 0 →
  Product.reduceStock again p' = None.
Proof.
  unfold Product.reduceStock at 1, Product.isInStock.
  destruct (negb _); [done|]. cbn. intros [= <-].
  case_bool_decide as Hz; cbn; [|done]. intros _.
  unfold Product.reduceStock, Product.isInStock. cbn.
  by rewrite andb_false_r.
Qed.

Lemma sold_out_product_refuses_all_sample :
  Product.reduceStock 0
    (Product.set_isAvailable false (Product.set_stock 0 lastTwo)) = None.
Proof.
  apply (sold_out_product_refuses_all 2 0 lastTwo); reflexivity.
Defined.

(** ** Grouping the items of an order by seller *)

Lemma pushSellerItem_keys sellerId item sellerItems :
  (pushSellerItem sellerId item sellerItems).*1
  = if bool_decide (sellerId ∈ sellerItems.*1) then sellerItems.*1
    else sellerItems.*1 ++ [sellerId].
Proof.
  induction sellerItems as [|[k its] rest IH]; [done|].
  cbn [pushSellerItem].
  destruct (bool_decide (k = sellerId)) eqn:Hk; bool_facts;
    rewrite !fmap_cons; cbn [fst].
  - rewrite bool_decide_eq_true_2; [done|]. subst. apply list_elem_of_here.
  - rewrite IH. destruct (bool_decide (sellerId ∈ rest.*1)) eqn:Hin; bool_facts.
    + rewrite bool_decide_eq_true_2 by (by apply list_elem_of_further). done.
    + rewrite bool_decide_eq_false_2; [done|].
      intros Hin'. apply elem_of_cons in Hin' as [?|?]; congruence.
Qed.

Lemma pushSellerItem_NoDup sellerId item sellerItems :
  NoDup sellerItems.*1 → NoDup (pushSellerItem sellerId item sellerItems).*1.
Proof.
  intros Hnd. rewrite pushSellerItem_keys. case_bool_decide; [done|].
  apply NoDup_app. split; [done|]. split; [|apply NoDup_singleton].
  intros x Hx Hx'. apply list_elem_of_singleton in Hx'. by subst.
Qed.

Lemma pushSellerItem_nonempty sellerId item sellerItems :
  Forall (λ g, g.2 ≠ []) sellerItems →
  Forall (λ g, g.2 ≠ []) (pushSellerItem sellerId item sellerItems).
Proof.
  induction 1 as [|[k its] rest Hk Hrest IH]; simpl.
  - by repeat constructor.
  - case_bool_decide; constructor; simpl; try done.
    by destruct its.
Qed.

Lemma pushSellerItem_sellers products sellerId item sellerItems :
  sellerOf products item = Some sellerId →
  Forall (λ g, Forall (λ item, sellerOf products item = Some g.1) g.2) sellerItems →
  Forall (λ g, Forall (λ item, sellerOf products item = Some g.1) g.2)
    (pushSellerItem sellerId item sellerItems).
Proof.
  intros Hitem. induction 1 as [|[k its] rest Hk Hrest IH]; simpl.
  - by repeat constructor.
  - case_bool_decide; constructor; simpl in *; try done.
    subst. apply Forall_app. split; [done|]. by repeat constructor.
Qed.

Lemma pushSellerItem_items sellerId item sellerItems :
  mjoin (pushSellerItem sellerId item sellerItems).*2 ≡ₚ mjoin sellerItems.*2 ++ [item].
Proof.
  induction sellerItems as [|[k its] rest IH]; simpl; [done|].
  case_bool_decide; simpl.
  - rewrite <- !app_assoc. apply Permutation_app_head, Permutation_app_comm.
  - rewrite IH. by rewrite app_assoc.
Qed.

(** X11. Grouping the items of an order by seller puts every seller
    once in the list and leaves no group empty; every item of a group is
    an item of a product of that seller, and the groups together hold,
    each once, exactly those items of the order whose product was
    found. *)
Theorem groupBySeller_partitions_the_items
    (products : list Product.t) (items : list OrderItem) :
  NoDup (groupBySeller products items).*1
  ∧ Forall (λ g, g.2 ≠ []) (groupBySeller products items)
  ∧ Forall (λ g, Forall (λ item, sellerOf products item = Some g.1) g.2)
      (groupBySeller products items)
  ∧ mjoin (groupBySeller products items).*2
    ≡ₚ filter (λ item, is_Some (sellerOf products item)) items.
Proof.
  unfold groupBySeller.
  assert (∀ acc,
            NoDup acc.*1 → Forall (λ g, g.2 ≠ []) acc →
            Forall (λ g, Forall (λ item, sellerOf products item = Some g.1) g.2) acc →
            let r := foldl (λ sellerItems item,
                       match list_find (λ p, Product._id p = product item) products with
                       | Some (_, p) => pushSellerItem (Product.seller p) item sellerItems
                       | None => sellerItems
                       end) acc items in
            NoDup r.*1 ∧ Forall (λ g, g.2 ≠ []) r
            ∧ Forall (λ g, Forall (λ item, sellerOf products item = Some g.1) g.2) r
            ∧ mjoin r.*2
              ≡ₚ mjoin acc.*2 ++ filter (λ item, is_Some (sellerOf products item)) items)
    as H.
  { induction items as [|item items IH]; intros acc Hnd Hne Hs; simpl.
    - repeat split; try done. by rewrite app_nil_r.
    - rewrite filter_cons.
      assert (sellerOf products item
              = match list_find (λ p, Product._id p = product item) products with
                | Some (_, p) => Some (Product.seller p)
                | None => None
                end) as Hseller by done.
      destruct (list_find (λ p, Product._id p = product item) products)
        as [[k p]|]; simpl.
      + destruct (IH (pushSellerItem (Product.seller p) item acc))
          as (? & ? & ? & Hp).
        * by apply pushSellerItem_NoDup.
        * by apply pushSellerItem_nonempty.
        * by apply pushSellerItem_sellers.
        * repeat split; try done. rewrite Hp, pushSellerItem_items.
          rewrite decide_True by (by rewrite Hseller). by rewrite <- app_assoc.
      + rewrite decide_False by (rewrite Hseller; by intros [? ?]). by apply IH. }
  destruct (H []) as (? & ? & ? & Hp); [constructor..|].
  repeat split; try done.
Qed.

(** ** What an order paid outside the wallet has moved *)

(** X12. An order that POST api/orders returns for a payment method
    other than the wallet is still pending and unpaid, and neither a
    wallet nor the stock of a product has moved. *)
Theorem order_paid_otherwise_moves_nothing
    (env : Env) (user : ReqUser) (req : OrderRequest) (db : Db) (o : Order.t) :
  (handle env user (PostOrder req) db).1 = {| code := 200; body := OrderJson o |} →
  or_paymentMethod req ≠ "wallet" →
  Order.paymentStatus o = PaymentStatus.pending
  ∧ Order.status o = OrderStatus.pending
  ∧ wallets (handle env user (PostOrder req) db).2 = wallets db
  ∧ products (handle env user (PostOrder req) db).2 = products db.
Proof.
  intros Hcreated Hmethod. revert Hcreated.
  unfold handle, handler, postOrder.
  rewrite validated_eq. open_handler.
  destruct (existsb _ _); [|done].
  destruct (forallb _ _) eqn:Hv; [|done].
  pose proof (collectItems_db (or_items req) [] 0 db) as Hc.
  pose proof (collectItems_reply (or_items req) [] 0 db) as Hr.
  destruct (collectItems _ _ _ _) as [[[orderItems productTotal]|r|] db1];
    simpl in Hc; subst db1; try done;
    [|cbn; intros ->; by destruct (Hr _ eq_refl)].
  clear Hr.
  rewrite (bool_decide_eq_false_2 (or_paymentMethod req = "wallet")) by done.
  exec. by intros [= <-].
Qed.

Lemma order_paid_otherwise_moves_nothing_sample :
  Order.paymentStatus createdOrder = PaymentStatus.pending
  ∧ Order.status createdOrder = OrderStatus.pending
  ∧ wallets (handle env1 buyer1 (PostOrder (orderTwoOfA "mobile_money")) market).2
    = wallets market
  ∧ products (handle env1 buyer1 (PostOrder (orderTwoOfA "mobile_money")) market).2
    = products market.
Proof.
  apply (order_paid_otherwise_moves_nothing env1 buyer1
           (orderTwoOfA "mobile_money") market createdOrder).
  - vm_compute. reflexivity.
  - discriminate.
Defined.

(** ** The calendar *)

Section calendar.
Import JsDate.

Lemma civil_round_trip (z : Z) :
  let '(y, m, d) := civilFromDays z in
  1 ≤ m ≤ 12 ∧ 1 ≤ d ≤ 31 ∧ daysFromCivil y m d = z.
Proof.
  unfold civilFromDays, daysFromCivil. cbv zeta.
  repeat case_bool_decide; Z.div_mod_to_equations; lia.
Qed.

Lemma time_of_day (t : Z) : MakeDate (Day t) (TimeWithinDay t) = t.
Proof.
  unfold MakeDate, Day, TimeWithinDay, msPerDay.
  Z.div_mod_to_equations; lia.
Qed.

Lemma makeDay_days (t n : Z) :
  MakeDay (YearFromTime t) (MonthFromTime t) (DateFromTime t + n) = Day t + n.
Proof.
  unfold YearFromTime, MonthFromTime, DateFromTime, MakeDay.
  pose proof (civil_round_trip (Day t)) as H.
  destruct (civilFromDays (Day t)) as [[y m] d]. cbn [fst snd].
  destruct H as (Hm & Hd & H).
  replace ((m - 1) `div` 12) with 0 by (Z.div_mod_to_equations; lia).
  replace ((m - 1) `mod` 12 + 1) with m by (Z.div_mod_to_equations; lia).
  rewrite Z.add_0_r, <- H.
  unfold daysFromCivil. cbv zeta. lia.
Qed.

(** [d.setDate(d.getDate() + n)] moves the time by [n] whole days. *)
Lemma withDate_days (tza tv n : Z) :
  withDate tza (DateFromTime (LocalTime tza tv) + n) tv = tv + n * msPerDay.
Proof.
  unfold withDate. cbv zeta. rewrite makeDay_days.
  pose proof (time_of_day (LocalTime tza tv)) as H.
  unfold MakeDate, UTC, LocalTime in *. lia.
Qed.

Lemma makeDay_months (t : Z) :
  28 ≤ MakeDay (YearFromTime t) (MonthFromTime t + 1) (DateFromTime t) - Day t ≤ 31
  ∧ 59 ≤ MakeDay (YearFromTime t) (MonthFromTime t + 2) (DateFromTime t) - Day t ≤ 62
  ∧ 365 ≤ MakeDay (YearFromTime t + 1) (MonthFromTime t) (DateFromTime t) - Day t ≤ 366.
Proof.
  unfold YearFromTime, MonthFromTime, DateFromTime, MakeDay.
  pose proof (civil_round_trip (Day t)) as H.
  destruct (civilFromDays (Day t)) as [[y m] d]. cbn [fst snd].
  destruct H as (Hm & Hd & H). rewrite <- H. clear H.
  assert (m = 1 ∨ m = 2 ∨ m = 3 ∨ m = 4 ∨ m = 5 ∨ m = 6 ∨ m = 7 ∨ m = 8
          ∨ m = 9 ∨ m = 10 ∨ m = 11 ∨ m = 12) as Hcase by lia.
  unfold daysFromCivil. cbv zeta.
  repeat (destruct Hcase as [->|Hcase]); [..|subst m];
    repeat split; cbn; repeat case_bool_decide; try lia;
    Z.div_mod_to_equations; lia.
Qed.

(** The cycle computed for a plan ends a whole number of days after
    [now], within the bounds of the plan. *)
Lemma cycleEnd_days (tza now : Z) (plan : Plan) :
  ∃ k, cycleEnd tza plan now = now + k * msPerDay
       ∧ (cycleDays plan).1 ≤ k ≤ (cycleDays plan).2.
Proof.
  set (t := LocalTime tza now).
  pose proof (makeDay_months t) as (Hm1 & Hm2 & Hy).
  pose proof (time_of_day t) as Ht.
  destruct plan; unfold cycleEnd; cbv zeta; fold t.
  - eexists (MakeDay (YearFromTime t) (MonthFromTime t + 2) (DateFromTime t) - Day t).
    split; [|exact Hm2].
    unfold withMonth. cbv zeta. fold t.
    unfold MakeDate, UTC, LocalTime in *. subst t. lia.
  - exists 7. split; [apply withDate_days|done].
  - eexists (MakeDay (YearFromTime t) (MonthFromTime t + 1) (DateFromTime t) - Day t).
    split; [|exact Hm1].
    unfold withMonth. cbv zeta. fold t.
    unfold MakeDate, UTC, LocalTime in *. subst t. lia.
  - eexists (MakeDay (YearFromTime t + 1) (MonthFromTime t) (DateFromTime t) - Day t).
    split; [|exact Hy].
    unfold withFullYear. cbv zeta. fold t.
    unfold MakeDate, UTC, LocalTime in *. subst t. lia.
Qed.
End calendar.

(** ** Documents on the heap of dates *)

Ltac js := unfold JsDate.getDate, JsDate.getMonth, JsDate.getFullYear,
             JsDate.setDate, JsDate.setMonth, JsDate.setFullYear,
             JsDate.update, JsDate.getTime, JsDate.newDate,
             mbind, JsDate.Js_bind, mret, JsDate.Js_ret.

Ltac js_run := cbn -[JsDate.DateFromTime JsDate.MonthFromTime
                     JsDate.YearFromTime JsDate.withDate JsDate.withMonth
                     JsDate.withFullYear JsDate.LocalTime].

Lemma traverseOpt_read {A B} (f : A → JsDate.Js B) (g : A → B)
    (o : option A) (h : JsDate.Heap) :
  (∀ a, f a h = (g a, h)) →
  Subscription.traverseOpt f o h = (g <$> o, h).
Proof.
  intros Hf. destruct o as [a|]; [|done].
  unfold Subscription.traverseOpt. js. by rewrite Hf.
Qed.

Lemma traverseList_read {A B} (f : A → JsDate.Js B) (g : A → B)
    (l : list A) (h : JsDate.Heap) :
  (∀ a, f a h = (g a, h)) →
  Subscription.traverseList f l h = (g <$> l, h).
Proof.
  intros Hf. induction l as [|a l IH]; [done|].
  cbn [Subscription.traverseList]. js. by rewrite Hf, IH.
Qed.

(** [store] reads every date of the document from the heap and leaves
    the heap as it is. *)
Lemma store_read (this : Subscription.t JsDate.ref) (h : JsDate.Heap) :
  Subscription.store this h = (mapDates (λ r, h !!! r) this, h).
Proof.
  unfold Subscription.store, Subscription.traverse. js.
  rewrite (traverseOpt_read _ (λ r, h !!! r)) by done.
  rewrite (traverseOpt_read _ (mapPayment (λ r, h !!! r))).
  2:{ intros p. unfold Subscription.traversePayment. js.
      by rewrite (traverseOpt_read _ (λ r, h !!! r)). }
  rewrite (traverseList_read _ (mapRenewal (λ r, h !!! r))).
  2:{ intros r. unfold Subscription.traverseRenewal. js.
      by rewrite (traverseOpt_read _ (λ r, h !!! r)). }
  done.
Qed.

Lemma allocates_newDate : allocates JsDate.newDate (λ h r, h !!! r).
Proof.
  intros tv h. exists [tv]. split; [done|]. intros ext. cbn.
  by apply list_lookup_total_middle.
Qed.

Lemma allocates_opt {A B} (ld : A → JsDate.Js B) rd :
  allocates ld rd →
  allocates (Subscription.traverseOpt ld) (λ h o, rd h <$> o).
Proof.
  intros Hld [a|] h.
  - destruct (Hld a h) as (tail & Hh & Hrd). exists tail.
    unfold Subscription.traverseOpt. js.
    destruct (ld a h) as [b h']. cbn in *. split; [done|].
    intros ext. by rewrite Hrd.
  - exists []. split; [by rewrite app_nil_r|done].
Qed.

Lemma allocates_list {A B} (ld : A → JsDate.Js B) rd :
  allocates ld rd →
  allocates (Subscription.traverseList ld) (λ h l, rd h <$> l).
Proof.
  intros Hld l. induction l as [|a l IH]; intros h.
  - exists []. split; [by rewrite app_nil_r|done].
  - cbn [Subscription.traverseList]. js.
    destruct (Hld a h) as (t1 & Hh1 & Hrd1).
    destruct (ld a h) as [b h1]. cbn in *. subst h1.
    destruct (IH (h ++ t1)) as (t2 & Hh2 & Hrd2).
    destruct (Subscription.traverseList ld l (h ++ t1)) as [bs h2].
    cbn in *. subst h2. exists (t1 ++ t2).
    split; [by rewrite app_assoc|].
    intros ext.
    replace (h ++ (t1 ++ t2) ++ ext) with (h ++ t1 ++ t2 ++ ext)
      by (by rewrite <- !app_assoc).
    cbn. f_equal; [apply Hrd1|].
    rewrite (app_assoc h). apply Hrd2.
Qed.

Lemma allocates_payment :
  allocates (Subscription.traversePayment JsDate.newDate)
    (λ h, mapPayment (λ r, h !!! r)).
Proof.
  intros p h. unfold Subscription.traversePayment. js.
  destruct (allocates_opt _ _ allocates_newDate (sp_paymentDate p) h)
    as (t & Hh & Hrd).
  destruct (Subscription.traverseOpt _ _ h) as [d h1]. cbn in *.
  exists t. split; [done|]. intros ext.
  destruct p. unfold mapPayment. cbn in *. by rewrite Hrd.
Qed.

Lemma allocates_renewal :
  allocates (Subscription.traverseRenewal JsDate.newDate)
    (λ h, mapRenewal (λ r, h !!! r)).
Proof.
  intros r h. unfold Subscription.traverseRenewal.
  unfold mbind, JsDate.Js_bind, mret, JsDate.Js_ret.
  destruct (allocates_newDate (r_startDate r) h) as (t1 & Hh1 & Hrd1).
  destruct (JsDate.newDate (r_startDate r) h) as [s h1]. cbn in *. subst h1.
  destruct (allocates_opt _ _ allocates_newDate (r_endDate r) (h ++ t1))
    as (t2 & Hh2 & Hrd2).
  destruct (Subscription.traverseOpt _ _ (h ++ t1)) as [e h2]. cbn in *. subst h2.
  exists (t1 ++ t2). split; [by rewrite app_assoc|]. intros ext.
  replace (h ++ (t1 ++ t2) ++ ext) with (h ++ t1 ++ t2 ++ ext)
    by (by rewrite <- !app_assoc).
  destruct r. unfold mapRenewal. cbn in *. f_equal; [apply Hrd1|].
  rewrite (app_assoc h). apply Hrd2.
Qed.

(** [load] puts every date of a stored document on the heap; the
    document read from the grown heap, however it grows further, is the
    stored one. *)
Lemma allocates_load : allocates Subscription.load (λ h, mapDates (λ r, h !!! r)).
Proof.
  intros s h. unfold Subscription.load, Subscription.traverse.
  unfold mbind, JsDate.Js_bind, mret, JsDate.Js_ret.
  destruct (allocates_newDate (Subscription.startDate s) h) as (t1 & Hh1 & Hrd1).
  destruct (JsDate.newDate (Subscription.startDate s) h) as [sd h1].
  cbn in Hh1, Hrd1. subst h1.
  destruct (allocates_opt _ _ allocates_newDate (Subscription.endDate s) (h ++ t1))
    as (t2 & Hh2 & Hrd2).
  destruct (Subscription.traverseOpt _ _ (h ++ t1)) as [ed h2].
  cbn in Hh2, Hrd2. subst h2.
  destruct (allocates_opt _ _ allocates_payment
              (Subscription.paymentDetails s) ((h ++ t1) ++ t2))
    as (t3 & Hh3 & Hrd3).
  destruct (Subscription.traverseOpt _ _ ((h ++ t1) ++ t2)) as [pd h3].
  cbn in Hh3, Hrd3. subst h3.
  destruct (allocates_list _ _ allocates_renewal
              (Subscription.renewalHistory s) (((h ++ t1) ++ t2) ++ t3))
    as (t4 & Hh4 & Hrd4).
  destruct (Subscription.traverseList _ _ (((h ++ t1) ++ t2) ++ t3)) as [rh h4].
  cbn in Hh4, Hrd4. subst h4.
  exists (t1 ++ t2 ++ t3 ++ t4). split; [by rewrite <- !app_assoc|].
  intros ext. destruct s. unfold mapDates. cbn in *.
  specialize (Hrd1 (t2 ++ t3 ++ t4 ++ ext)).
  specialize (Hrd2 (t3 ++ t4 ++ ext)).
  specialize (Hrd3 (t4 ++ ext)).
  specialize (Hrd4 ext).
  rewrite <- !app_assoc in *.
  by rewrite Hrd1, Hrd2, Hrd3, Hrd4.
Qed.

(** A method run on a stored document sees it on a heap [h] from which
    [store] reads the stored document back, whatever is appended. *)
Lemma onStored_load (method : Subscription.t JsDate.ref → JsDate.Js (Subscription.t Z))
    (s : Subscription.t Z) :
  ∃ this h,
    Subscription.onStored method s = (method this h).1
    ∧ ∀ ext, mapDates (λ r, (h ++ ext) !!! r) this = s.
Proof.
  destruct (allocates_load s []) as (t & Hh & Hrd).
  unfold Subscription.onStored. js.
  destruct (Subscription.load s []) as [this h]. cbn in *. subst h.
  by exists this, t.
Qed.

Lemma heap_write_last (h : JsDate.Heap) (a b : Z) :
  <[length h := b]> (h ++ [a]) = h ++ [b].
Proof. induction h as [|x h IH]; [done|]. cbn in *. by f_equal. Qed.

Lemma heap_read_new (h ext : JsDate.Heap) (a : Z) :
  (h ++ a :: ext) !!! length h = a.
Proof. by apply list_lookup_total_middle. Qed.

Lemma heap_read_next (h : JsDate.Heap) (a b : Z) :
  (h ++ [a; b]) !!! S (length h) = b.
Proof.
  replace (h ++ [a; b]) with ((h ++ [a]) ++ [b]) by (by rewrite <- app_assoc).
  apply list_lookup_total_middle. rewrite length_app. cbn. lia.
Qed.

Lemma heap_read_third (h : list Z) (a b c : Z) :
  (h ++ [a; b; c]) !!! S (length (h ++ [a])) = c.
Proof.
  replace (h ++ [a; b; c]) with ((h ++ [a; b]) ++ [c]) by (by rewrite <- app_assoc).
  apply list_lookup_total_middle. rewrite !length_app. cbn. lia.
Qed.

(** The fields of a stored document in terms of the document in memory
    and the heap it is read from. *)
Lemma mapDates_fields (f : JsDate.ref → Z) (this : Subscription.t JsDate.ref)
    (s : Subscription.t Z) :
  mapDates f this = s →
  Subscription.seller this = Subscription.seller s
  ∧ Subscription.plan this = Subscription.plan s
  ∧ Subscription.status this = Subscription.status s
  ∧ Subscription.autoRenew this = Subscription.autoRenew s
  ∧ Subscription.price this = Subscription.price s
  ∧ Subscription.paymentMethod this = Subscription.paymentMethod s
  ∧ f (Subscription.startDate this) = Subscription.startDate s
  ∧ f <$> Subscription.endDate this = Subscription.endDate s
  ∧ mapRenewal f <$> Subscription.renewalHistory this = Subscription.renewalHistory s
  ∧ mapRenewal f (Subscription.historyEntry this) = archived s.
Proof.
  intros <-. destruct this as [? ? ? ? ? ? ? ? pd ?]. repeat split.
  unfold mapRenewal, archived, Subscription.historyEntry. cbn.
  by destruct pd.
Qed.

(** The pre-save hook on a document whose plan is new: the cycle end is
    a [Date] of its own, next to the hook's [currentDate]. *)
Lemma save_fresh (tza now : Z) (this : Subscription.t JsDate.ref) (h : JsDate.Heap) :
  let e := cycleEnd tza (Subscription.plan this) now in
  Subscription.save tza now true this h
  = Subscription.store
      (Subscription.set_price (planPrice (Subscription.plan this))
         (Subscription.set_endDate (Some (S (length h))) this))
      (h ++ [e; e]).
Proof.
  unfold Subscription.save, Subscription.preSave, cycleEnd. js.
  destruct (Subscription.plan this) eqn:Hplan; js_run;
    rewrite !heap_read_last, heap_write_last, length_app, <- app_assoc;
    cbn; by rewrite Nat.add_1_r.
Qed.

(** [renew] up to the final [store]. *)
Lemma renew_stores (tza now : Z) (pd : option RenewalPayment)
    (this : Subscription.t JsDate.ref) (h : JsDate.Heap) :
  let e := cycleEnd tza (Subscription.plan this) now in
  let this1 :=
    Subscription.applyPayment pd (length h)
      (Subscription.set_status SubscriptionStatus.active
         (Subscription.set_startDate (length h)
            (Subscription.set_renewalHistory
               (Subscription.renewalHistory this
                  ++ [Subscription.historyEntry this]) this))) in
  Subscription.renew tza now pd this h
  = match Subscription.plan this with
    | free_trial => Subscription.store this1 (h ++ [now])
    | _ => Subscription.store
             (Subscription.set_endDate (Some (S (length h))) this1)
             (h ++ [e; e])
    end.
Proof.
  cbv zeta. unfold Subscription.renew, Subscription.save, Subscription.preSave.
  js. js_run.
  set (this1 := Subscription.applyPayment pd (length h) _).
  assert (Subscription.plan this1 = Subscription.plan this) as ->
    by (subst this1; by destruct pd).
  clearbody this1. unfold cycleEnd.
  destruct (Subscription.plan this) eqn:Hplan; js_run; [done|..];
    rewrite !heap_read_last, heap_write_last, length_app, <- app_assoc;
    cbn; by rewrite Nat.add_1_r.
Qed.

(** The document that [renew] and [changePlan] store, field by field. *)
Lemma applyPayment_fields (pd : option RenewalPayment) (d : JsDate.ref)
    (this : Subscription.t JsDate.ref) :
  let this' := Subscription.applyPayment pd d this in
  Subscription.seller this' = Subscription.seller this
  ∧ Subscription.plan this' = Subscription.plan this
  ∧ Subscription.status this' = Subscription.status this
  ∧ Subscription.autoRenew this' = Subscription.autoRenew this
  ∧ Subscription.price this' = Subscription.price this
  ∧ Subscription.startDate this' = Subscription.startDate this
  ∧ Subscription.endDate this' = Subscription.endDate this
  ∧ Subscription.renewalHistory this' = Subscription.renewalHistory this.
Proof. by destruct pd. Qed.

(** ** Renewing and changing plans *)

Ltac fields :=
  change JsDate.Heap with (list Z) in *;
  change JsDate.ref with nat in *;
  cbn [fst snd mapDates Subscription.seller Subscription.plan
       Subscription.status Subscription.startDate Subscription.endDate
       Subscription.autoRenew Subscription.price Subscription.paymentMethod
       Subscription.paymentDetails Subscription.renewalHistory
       Subscription.set_plan Subscription.set_status
       Subscription.set_startDate Subscription.set_endDate
       Subscription.set_autoRenew Subscription.set_price
       Subscription.set_paymentMethod Subscription.set_paymentDetails
       Subscription.set_renewalHistory] in *.

(** X13. Whatever the stored subscription and whatever the plan,
    [renew] appends to the renewal history exactly one entry, the cycle
    as it was stored (plan, start, end, price, payment method,
    transaction and status), keeps the earlier entries, the plan, the
    price, the seller and the auto-renew flag, and makes the status
    active. *)
Theorem renew_archives_the_cycle
    (tza now : Z) (pd : option RenewalPayment) (s : Subscription.t Z) :
  let r := Subscription.onStored (Subscription.renew tza now pd) s in
  Subscription.renewalHistory r = Subscription.renewalHistory s ++ [archived s]
  ∧ Subscription.status r = SubscriptionStatus.active
  ∧ Subscription.plan r = Subscription.plan s
  ∧ Subscription.price r = Subscription.price s
  ∧ Subscription.seller r = Subscription.seller s
  ∧ Subscription.autoRenew r = Subscription.autoRenew s.
Proof.
  cbv zeta.
  destruct (onStored_load (Subscription.renew tza now pd) s)
    as (this & h & -> & Hrd).
  rewrite renew_stores.
  set (this0 := Subscription.set_status _ _).
  pose proof (applyPayment_fields pd (length h) this0)
    as (Hse & Hpl & Hst & Har & Hpr & Hsd & Hed & Hrh).
  cbv zeta in *.
  set (this1 := Subscription.applyPayment pd (length h) this0) in *.
  assert (∀ ext,
            let r := (Subscription.store this1 (h ++ ext)).1 in
            Subscription.renewalHistory r
            = Subscription.renewalHistory s ++ [archived s]
            ∧ Subscription.status r = SubscriptionStatus.active
            ∧ Subscription.plan r = Subscription.plan s
            ∧ Subscription.price r = Subscription.price s
            ∧ Subscription.seller r = Subscription.seller s
            ∧ Subscription.autoRenew r = Subscription.autoRenew s) as Hplain.
  { intros ext. cbv zeta. rewrite store_read. fields.
    destruct (mapDates_fields _ _ _ (Hrd ext))
      as (Hs1 & Hs2 & Hs3 & Hs4 & Hs5 & Hs6 & Hs7 & Hs8 & Hs9 & Hs10).
    rewrite Hse, Hpl, Hst, Har, Hpr, Hrh. subst this0. fields.
    rewrite fmap_app, Hs9. cbn [fmap list_fmap]. rewrite Hs10.
    by rewrite Hs1, Hs2, Hs4, Hs5. }
  destruct (Subscription.plan this); [apply Hplain|..];
    match goal with
    | |- context [Subscription.store _ (h ++ ?ext)] =>
        specialize (Hplain ext); cbv zeta in Hplain;
        rewrite store_read in Hplain; rewrite store_read
    end; fields; exact Hplain.
Qed.


(** X14. The cycle that [renew] opens ends a whole number of days after
    the call, at the same time of day in every zone of constant offset:
    exactly 7 days later for a weekly plan, 28 to 31 days later for a
    monthly plan and 365 or 366 days later for a yearly plan.  A free
    trial is not extended: its end date stays what it was. *)
Theorem renew_extends_by_a_week_month_or_year
    (tza now : Z) (pd : option RenewalPayment) (s : Subscription.t Z) :
  let r := Subscription.onStored (Subscription.renew tza now pd) s in
  match Subscription.plan s with
  | free_trial => Subscription.endDate r = Subscription.endDate s
  | plan =>
      ∃ days, Subscription.endDate r = Some (now + days * JsDate.msPerDay)
              ∧ (cycleDays plan).1 ≤ days ≤ (cycleDays plan).2
  end.
Proof.
  cbv zeta.
  destruct (onStored_load (Subscription.renew tza now pd) s)
    as (this & h & -> & Hrd).
  rewrite renew_stores.
  set (this0 := Subscription.set_status _ _).
  pose proof (applyPayment_fields pd (length h) this0)
    as (_ & _ & _ & _ & _ & _ & Hed & _).
  cbv zeta in *.
  set (this1 := Subscription.applyPayment pd (length h) this0) in *.
  destruct (mapDates_fields _ _ _ (Hrd [now]))
    as (_ & Hplan & _ & _ & _ & _ & _ & Hend & _).
  rewrite Hplan.
  pose proof (cycleEnd_days tza now (Subscription.plan s)) as (k & Hk & Hrange).
  destruct (Subscription.plan s); rewrite store_read; fields;
    [by rewrite Hed|..];
    exists k; cbn [fmap option_fmap option_map]; by rewrite heap_read_next, Hk.
Qed.


(** X15. [changePlan] archives the old cycle under the name of the new
    plan (the plan is overwritten before the entry is made), makes the
    subscription active and starts the new cycle at the time of the
    call.  Price and end date follow the new plan only when the plan
    differs from the stored one; a change to the plan the subscription
    already has leaves the price and the end date as they were. *)
Theorem changePlan_reprices_only_a_different_plan
    (tza now : Z) (newPlan : Plan) (pd : option RenewalPayment)
    (s : Subscription.t Z) :
  let r := Subscription.onStored (Subscription.changePlan tza now newPlan pd) s in
  Subscription.renewalHistory r
  = Subscription.renewalHistory s ++ [archived (Subscription.set_plan newPlan s)]
  ∧ Subscription.plan r = newPlan
  ∧ Subscription.status r = SubscriptionStatus.active
  ∧ Subscription.startDate r = now
  ∧ (newPlan = Subscription.plan s →
     Subscription.price r = Subscription.price s
     ∧ Subscription.endDate r = Subscription.endDate s)
  ∧ (newPlan ≠ Subscription.plan s →
     Subscription.price r = planPrice newPlan
     ∧ ∃ days, Subscription.endDate r = Some (now + days * JsDate.msPerDay)
               ∧ (cycleDays newPlan).1 ≤ days ≤ (cycleDays newPlan).2).
Proof.
  cbv zeta.
  destruct (onStored_load (Subscription.changePlan tza now newPlan pd) s)
    as (this & h & -> & Hrd).
  unfold Subscription.changePlan. js. cbn [fst snd].
  set (this0 := Subscription.set_status _ _).
  pose proof (applyPayment_fields pd (length h) this0)
    as (Hse & Hpl & Hst & Har & Hpr & Hsd & Hed & Hrh).
  cbv zeta in *.
  set (this1 := Subscription.applyPayment pd (length h) this0) in *.
  assert (∀ ext,
            mapRenewal (λ r, (h ++ ext) !!! r) <$> Subscription.renewalHistory this1
            = Subscription.renewalHistory s
                ++ [archived (Subscription.set_plan newPlan s)]) as Hhist.
  { intros ext.
    destruct (mapDates_fields _ _ _ (Hrd ext))
      as (Hs1 & Hs2 & Hs3 & Hs4 & Hs5 & Hs6 & Hs7 & Hs8 & Hs9 & Hs10).
    rewrite Hrh. subst this0. fields. rewrite fmap_app, Hs9. f_equal.
    cbn [fmap list_fmap]. f_equal.
    apply (f_equal (λ r, {| r_plan := newPlan;
                            r_startDate := r_startDate r;
                            r_endDate := r_endDate r;
                            r_price := r_price r;
                            r_paymentMethod := r_paymentMethod r;
                            r_transactionId := r_transactionId r;
                            r_status := r_status r |})) in Hs10.
    exact Hs10. }
  destruct (mapDates_fields _ _ _ (Hrd [now]))
    as (_ & Hplan & _ & _ & Hprice & _ & _ & Hend & _).
  rewrite Hplan.
  destruct (decide (newPlan = Subscription.plan s)) as [Heq|Hne].
  - rewrite (bool_decide_eq_false_2 (newPlan ≠ Subscription.plan s)) by tauto.
    unfold Subscription.save, Subscription.preSave. js.
    rewrite store_read. fields. rewrite Hhist.
    rewrite Hpl, Hst, Hpr, Hsd, Hed. subst this0. fields.
    rewrite heap_read_new.
    repeat split; try done; tauto.
  - rewrite (bool_decide_eq_true_2 (newPlan ≠ Subscription.plan s)) by done.
    pose proof (save_fresh tza now this1 (h ++ [now])) as Hsave.
    cbv zeta in Hsave. rewrite Hsave. clear Hsave.
    rewrite store_read. fields.
    rewrite <- !app_assoc. cbn [app].
    rewrite Hhist, Hpl, Hst, Hsd. subst this0. fields.
    rewrite heap_read_new.
    pose proof (cycleEnd_days tza now newPlan) as (k & Hk & Hrange).
    repeat split; try done.
    exists k. split; [|done]. cbn [fmap option_fmap option_map]. f_equal.
    rewrite <- Hk. apply heap_read_third.
Qed.

Lemma changePlan_reprices_only_a_different_plan_sample :
  (Subscription.price
     (Subscription.onStored
        (Subscription.changePlan 0 (utc 2023 12 15) monthly (Some renewalPayment))
        subscriptionDec) = 7500
   ∧ Subscription.endDate
       (Subscription.onStored
          (Subscription.changePlan 0 (utc 2023 12 15) monthly (Some renewalPayment))
          subscriptionDec) = Some (utc 2024 1 1))
  ∧ Subscription.price
      (Subscription.onStored
         (Subscription.changePlan 0 (utc 2023 12 15) yearly (Some renewalPayment))
         subscriptionDec) = 75000.
Proof.
  split.
  - destruct (changePlan_reprices_only_a_different_plan 0 (utc 2023 12 15)
                monthly (Some renewalPayment) subscriptionDec)
      as (_ & _ & _ & _ & Hsame & _).
    apply Hsame. reflexivity.
  - destruct (changePlan_reprices_only_a_different_plan 0 (utc 2023 12 15)
                yearly (Some renewalPayment) subscriptionDec)
      as (_ & _ & _ & _ & _ & Hother).
    apply Hother. discriminate.
Defined.

(** ** Subscription routes *)

(** [subscription.save()] on a stored document: the identity when the
    plan is not new, the hook's price and end date when it is. *)
Lemma onStored_save (tza now : Z) (fresh : bool) (s : Subscription.t Z) :
  Subscription.onStored (Subscription.save tza now fresh) s
  = if fresh then
      Subscription.set_price (planPrice (Subscription.plan s))
        (Subscription.set_endDate
           (Some (cycleEnd tza (Subscription.plan s) now)) s)
    else s.
Proof.
  destruct (onStored_load (Subscription.save tza now fresh) s)
    as (this & h & -> & Hrd).
  destruct fresh.
  - pose proof (save_fresh tza now this h) as Hsave. cbv zeta in Hsave.
    rewrite Hsave, store_read. cbn [fst].
    rewrite <- (Hrd [cycleEnd tza (Subscription.plan this) now;
                     cycleEnd tza (Subscription.plan this) now]).
    destruct this. unfold mapDates. fields.
    cbn [fmap option_fmap option_map]. by rewrite heap_read_next.
  - unfold Subscription.save, Subscription.preSave. js.
    rewrite store_read. cbn [fst]. rewrite <- (Hrd []).
    by rewrite app_nil_r.
Qed.


Ltac run_route :=
  repeat (first [ progress open_handler
                | progress cbn -[Subscription.onStored planPrice] ]).

Ltac route :=
  repeat (first [ progress run_route
                | progress (unfold notEmpty, Wallet.hasSufficientBalance,
                              paySubscription)
                | progress decide_known ]).


(** X17. POST api/subscription saves the plan before it looks at the
    wallet.  When a seller with a subscription on file asks for another
    paid plan by wallet and the seller wallet does not hold the price,
    the request answers 400 and moves no wallet and no user, but the
    subscription is stored with the new plan, its price and a new end
    date, its status being what it was. *)
Theorem unpaid_plan_switch_is_stored
    (env : Env) (user : ReqUser) (req : SubscriptionRequest) (db : Db)
    (u : nat) (account : User.t) (i : nat) (s : Subscription.t Z)
    (j : nat) (w : Wallet.t) :
  "seller" ∈ user_roles user →
  sr_paymentMethod req = "wallet" →
  sr_plan req ≠ free_trial →
  list_find (λ x, User._id x = id user) (users db) = Some (u, account) →
  "seller" ∈ User.roles account →
  list_find (λ x, Subscription.seller x = id user) (subscriptions db) = Some (i, s) →
  sr_plan req ≠ Subscription.plan s →
  list_find (λ x, Wallet.owner x = id user ∧ Wallet.walletType x = "seller")
    (wallets db) = Some (j, w) →
  Wallet.balance w < planPrice (sr_plan req) →
  ∃ s' days,
    handle env user (PostSubscription req) db
    = ({| code := 400;
          body := InsufficientBalance (planPrice (sr_plan req)) (Wallet.balance w) |},
       set_subscriptions (<[i := s']> (subscriptions db)) db)
    ∧ Subscription.plan s' = sr_plan req
    ∧ Subscription.price s' = planPrice (sr_plan req)
    ∧ Subscription.status s' = Subscription.status s
    ∧ Subscription.endDate s' = Some (now env + days * JsDate.msPerDay)
    ∧ (cycleDays (sr_plan req)).1 ≤ days ≤ (cycleDays (sr_plan req)).2.
Proof.
  intros Hrole Hpm Hplan Hu Hseller Hs Hne Hw Hbal.
  pose proof (found_lookup _ _ _ _ Hs) as [Hi _].
  assert (i < length (subscriptions db))%nat by (by eapply lookup_lt_Some).
  pose proof (cycleEnd_days (tza env) (now env) (sr_plan req)) as (days & Hk & Hrange).
  eexists _, days.
  unfold handle, handler, postSubscription. rewrite validated_eq, Hpm.
  unfold User.hasRole.
  route. rewrite Hu. route. rewrite Hs. route.
  rewrite onStored_save. cbn -[planPrice]. rewrite Hw. route.
  split; [reflexivity|]. by rewrite <- Hk.
Qed.

Lemma unpaid_plan_switch_is_stored_sample :
  ∃ s' days,
    handle env1 sellerA
      (PostSubscription {| sr_plan := yearly; sr_paymentMethod := "wallet";
                           sr_autoRenew := false |}) subscribed
    = ({| code := 400; body := InsufficientBalance 75000 8000 |},
       set_subscriptions (<[0%nat := s']> (subscriptions subscribed)) subscribed)
    ∧ Subscription.plan s' = yearly
    ∧ Subscription.price s' = 75000
    ∧ Subscription.status s' = SubscriptionStatus.active
    ∧ Subscription.endDate s' = Some (now env1 + days * JsDate.msPerDay)
    ∧ 365 ≤ days ≤ 366.
Proof.
  apply (unpaid_plan_switch_is_stored env1 sellerA
           {| sr_plan := yearly; sr_paymentMethod := "wallet";
              sr_autoRenew := false |}
           subscribed 1%nat (mkUser "sellerA" "seller")
           0%nat subscriptionDec 0%nat sellerAWallet).
  - apply list_elem_of_here.
  - reflexivity.
  - discriminate.
  - reflexivity.
  - apply list_elem_of_here.
  - reflexivity.
  - discriminate.
  - reflexivity.
  - reflexivity.
Defined.

(** X18. Renewing or changing plan with a payment method other than the
    wallet takes no payment and extends nothing: the request answers 200
    and the only change in the database is that the subscription is
    marked pending.  The plan asked for by change-plan is ignored. *)
Theorem unpaid_renewal_only_marks_pending
    (env : Env) (user : ReqUser) (plan : Plan) (paymentMethod : string)
    (db : Db) (i : nat) (s : Subscription.t Z) :
  "seller" ∈ user_roles user →
  paymentMethod ≠ "" →
  paymentMethod ≠ "wallet" →
  plan ∈ [weekly; monthly; yearly] →
  list_find (λ x, Subscription.seller x = id user) (subscriptions db) = Some (i, s) →
  let s' := Subscription.set_status SubscriptionStatus.pending s in
  let db' := set_subscriptions (<[i := s']> (subscriptions db)) db in
  handle env user (PutRenew paymentMethod) db
  = ({| code := 200; body := SubscriptionJson s' |}, db')
  ∧ handle env user (PutChangePlan plan paymentMethod) db
    = ({| code := 200; body := SubscriptionJson s' |}, db').
Proof.
  intros Hrole Hpm Hwallet Hplan Hs s' db'.
  pose proof (found_lookup _ _ _ _ Hs) as [Hi _].
  assert (i < length (subscriptions db))%nat by (by eapply lookup_lt_Some).
  split.
  - unfold handle, handler, putRenew. rewrite validated_eq.
    route. rewrite Hs. route. rewrite onStored_save. by route.
  - unfold handle, handler, putChangePlan. rewrite validated_eq.
    route. rewrite Hs. route. rewrite onStored_save. by route.
Qed.

Lemma unpaid_renewal_only_marks_pending_sample :
  subscriptions (handle env1 sellerA (PutRenew "mobile_money") subscribed).2
  = [Subscription.set_status SubscriptionStatus.pending subscriptionDec]
  ∧ subscriptions
      (handle env1 sellerA (PutChangePlan yearly "mobile_money") subscribed).2
    = [Subscription.set_status SubscriptionStatus.pending subscriptionDec].
Proof.
  destruct (unpaid_renewal_only_marks_pending env1 sellerA yearly "mobile_money"
              subscribed 0%nat subscriptionDec) as [Hrenew Hchange];
    [apply list_elem_of_here|discriminate|discriminate|repeat constructor
    |reflexivity|].
  rewrite Hrenew, Hchange. split; reflexivity.
Defined.

(** ** Which subscriptions are active, expiring, expired *)

Ltac no_match :=
  repeat match goal with
         | H : _ ∧ _ |- _ => destruct H
         | H : ∃ _, _ |- _ => destruct H
         | H : is_Some None |- _ => destruct H as [? [=]]
         | H : dateMatches _ None |- _ => destruct H
         end;
  first [done | congruence].

(** X19. On a server whose zone keeps one offset (no daylight-saving
    change), at every instant the subscriptions listed as expired are
    those whose status says active, that have an end date, and for
    which [isActive] is false; the subscriptions listed as expiring
    within [days] days are active ones whose end date is not the instant
    of the query and lies at most [days] times 24 hours after the
    threshold was made.  No subscription is listed as both. *)
Theorem expired_and_expiring_follow_isActive
    (tza created now days : Z) (subs : list (Subscription.t Z))
    (s : Subscription.t Z) :
  (s ∈ findExpired now subs
   ↔ s ∈ subs
     ∧ Subscription.status s = SubscriptionStatus.active
     ∧ is_Some (Subscription.endDate s)
     ∧ isActive now s = false)
  ∧ (s ∈ findExpiring tza created now days subs
     ↔ s ∈ subs
       ∧ isActive now s = true
       ∧ ∃ endDate, Subscription.endDate s = Some endDate
                    ∧ endDate ≠ now
                    ∧ endDate ≤ created + days * JsDate.msPerDay)
  ∧ ¬ (s ∈ findExpired now subs ∧ s ∈ findExpiring tza created now days subs).
Proof.
  unfold findExpired, findExpiring, isActive. cbv zeta.
  rewrite withDate_days, !list_elem_of_filter.
  destruct (Subscription.endDate s) as [e|];
    destruct (decide (Subscription.status s = SubscriptionStatus.active)) as [Hst|Hst].
  - rewrite (bool_decide_eq_true_2 _ Hst). cbn.
    split; [|split].
    + split.
      * intros [[_ He] Hin]. repeat split; [done..|by eexists|].
        apply bool_decide_eq_false. lia.
      * intros (Hin & _ & _ & He). apply bool_decide_eq_false in He.
        repeat split; [done|lia|done].
    + split.
      * intros [[_ [He1 He2]] Hin]. repeat split; [done|..].
        -- apply bool_decide_eq_true. lia.
        -- exists e. repeat split; [lia|done].
      * intros (Hin & He & e' & [= <-] & Hne & Hle).
        apply bool_decide_eq_true in He. repeat split; [done|done|lia|done].
    + intros [[[_ He] _] [[_ [_ He']] _]]. lia.
  - rewrite (bool_decide_eq_false_2 _ Hst). cbn.
    split; [|split]; [split|split|]; intros ?; no_match.
  - rewrite (bool_decide_eq_true_2 _ Hst). cbn.
    split; [|split]; [split|split|]; intros ?; no_match.
  - rewrite (bool_decide_eq_false_2 _ Hst). cbn.
    split; [|split]; [split|split|]; intros ?; no_match.
Qed.

(** ** Cancelling a subscription *)

Ltac route' :=
  repeat (first [ progress route
                | progress (unfold User.hasRole, isActive, inFreeTrial) ]).

(** A shop that is closed refuses every product request. *)
Lemma closed_shop_refuses (env : Env) (user : ReqUser) (req : ProductRequest)
    (db : Db) :
  shopClosed user db →
  ∃ r, postProduct env user req db = (Reply r, db) ∧ code r ∈ [400; 403].
Proof.
  intros [(i & s & Hs & Hst) (u & account & info & Hu & Hinfo & Hcancelled)].
  unfold postProduct, checkRole.
  destruct (existsb _ _);
    [|eexists; split; [reflexivity|]; cbn; repeat constructor].
  rewrite validated_eq.
  destruct (forallb _ _).
  - route. rewrite Hu. route. rewrite Hs. route'.
    rewrite Hst, Hinfo, Hcancelled. route'.
    eexists. split; [reflexivity|]. cbn. repeat constructor.
  - route. eexists. split; [reflexivity|]. cbn. repeat constructor.
Qed.

(** X20. Cancelling takes effect at once and refunds nothing: the
    subscription is stored as cancelled with auto-renew off, its plan,
    price and dates as they were, and no wallet moves.  The next product
    request of the seller is refused (400 or 403) and creates nothing,
    even before the paid cycle has ended, and so is every later one for
    as long as the subscription and the seller record of the account
    stay cancelled. *)
Theorem cancelling_closes_the_shop
    (env env' : Env) (user : ReqUser) (req : ProductRequest) (db : Db)
    (i : nat) (s : Subscription.t Z) (u : nat) (account : User.t) :
  "seller" ∈ user_roles user →
  list_find (λ x, Subscription.seller x = id user) (subscriptions db) = Some (i, s) →
  list_find (λ x, User._id x = id user) (users db) = Some (u, account) →
  let s' := Subscription.set_autoRenew false
              (Subscription.set_status SubscriptionStatus.cancelled s) in
  ∃ db',
    putCancel env user db = (Val s', db')
    ∧ subscriptions db' = <[i := s']> (subscriptions db)
    ∧ wallets db' = wallets db
    ∧ products db' = products db
    ∧ (∃ r, postProduct env' user req db' = (Reply r, db')
            ∧ code r ∈ [400; 403])
    ∧ shopClosed user db'
    ∧ ∀ (later : Env) (request : ProductRequest) (db'' : Db),
        shopClosed user db'' →
        ∃ r, postProduct later user request db'' = (Reply r, db'')
             ∧ code r ∈ [400; 403].
Proof.
  intros Hrole Hs Hu s'.
  pose proof (found_lookup _ _ _ _ Hs) as [Hi Hseller].
  pose proof (found_lookup _ _ _ _ Hu) as [_ Hid].
  assert (i < length (subscriptions db))%nat by (by eapply lookup_lt_Some).
  set (account' := User.set_sellerInfo
                     (Some (cancelledInfo (User.sellerInfo account))) account).
  exists (set_users (<[u := account']> (users db))
            (set_subscriptions (<[i := s']> (subscriptions db)) db)).
  split.
  { unfold putCancel. route. rewrite Hs. route. rewrite onStored_save.
    route. rewrite Hu. route. reflexivity. }
  split; [done|]. split; [done|]. split; [done|].
  assert (list_find (λ x, User._id x = id user) (<[u := account']> (users db))
          = Some (u, account')) as Hu'
    by (by apply (list_find_insert_same _ _ _ account)).
  assert (list_find (λ x, Subscription.seller x = id user)
            (<[i := s']> (subscriptions db)) = Some (i, s')) as Hs'
    by (by apply (list_find_insert_same _ _ _ s)).
  assert (Subscription.status s' = SubscriptionStatus.cancelled) as Hst by done.
  assert (∃ info, User.sellerInfo account' = Some info
                  ∧ subscriptionStatus info = "cancelled") as (info & Hinfo & Hcancelled).
  { eexists. split; [reflexivity|]. by destruct (User.sellerInfo account). }
  assert (shopClosed user
            (set_users (<[u := account']> (users db))
               (set_subscriptions (<[i := s']> (subscriptions db)) db))) as Hclosed.
  { split; [by exists i, s'|by exists u, account', info]. }
  clearbody s' account'.
  split; [by apply closed_shop_refuses|]. split; [done|].
  intros later request db'' Hclosed''. by apply closed_shop_refuses.
Qed.

Lemma cancelling_closes_the_shop_sample :
  ∃ db',
    putCancel env1 sellerA subscribed
    = (Val (Subscription.set_autoRenew false
              (Subscription.set_status SubscriptionStatus.cancelled
                 subscriptionDec)), db')
    ∧ subscriptions db'
      = <[0%nat := Subscription.set_autoRenew false
                     (Subscription.set_status SubscriptionStatus.cancelled
                        subscriptionDec)]> (subscriptions subscribed)
    ∧ wallets db' = wallets subscribed
    ∧ products db' = products subscribed
    ∧ (∃ r, postProduct env1 sellerA newBasket db' = (Reply r, db')
            ∧ code r ∈ [400; 403])
    ∧ shopClosed sellerA db'
    ∧ ∀ (later : Env) (request : ProductRequest) (db'' : Db),
        shopClosed sellerA db'' →
        ∃ r, postProduct later sellerA request db'' = (Reply r, db'')
             ∧ code r ∈ [400; 403].
Proof.
  apply (cancelling_closes_the_shop env1 env1 sellerA newBasket subscribed
           0%nat subscriptionDec 1%nat (mkUser "sellerA" "seller")).
  - apply list_elem_of_here.
  - reflexivity.
  - reflexivity.
Defined.

(** ** Roles *)

Lemma filter_other_nonempty (role : string) (roles : list string) :
  NoDup roles → role ∈ roles → length roles ≠ 1%nat →
  filter (λ r, r ≠ role) roles ≠ [].
Proof.
  intros Hdup Hin Hlen.
  assert (∃ other, other ∈ roles ∧ other ≠ role) as (other & Ho & Hne).
  { destruct roles as [|a [|b rest]]; [by apply elem_of_nil in Hin|done|].
    apply NoDup_cons in Hdup as [Hab _].
    destruct (decide (a = role)) as [->|Ha].
    - exists b. split; [apply list_elem_of_further, list_elem_of_here|].
      intros ->. apply Hab, list_elem_of_here.
    - exists a. split; [apply list_elem_of_here|done]. }
  intros Hnil.
  assert (other ∈ filter (λ r, r ≠ role) roles) as Hf
    by (by apply list_elem_of_filter).
  rewrite Hnil in Hf. by apply elem_of_nil in Hf.
Qed.

(** X21. An admin cannot strip a user of every role: whenever
    remove-role answers with the user, the user has lost exactly the
    role named and still holds another one, provided the roles held
    no duplicate; the user's wallets, the wallet of the removed role
    among them, are left in place. *)
Theorem remove_role_leaves_a_role
    (user : ReqUser) (userId : ObjectId) (role : string) (db db' : Db)
    (k : nat) (target updated : User.t) :
  list_find (λ x, User._id x = userId) (users db) = Some (k, target) →
  NoDup (User.roles target) →
  putRemoveRole user userId role db = (Val updated, db') →
  User.roles updated ≠ []
  ∧ (∀ r, r ∈ User.roles updated ↔ r ∈ User.roles target ∧ r ≠ role)
  ∧ User._id updated = userId
  ∧ users db' = <[k := updated]> (users db)
  ∧ wallets db' = wallets db.
Proof.
  intros Hk Hdup. pose proof (found_lookup _ _ _ _ Hk) as [_ Hid].
  unfold putRemoveRole. rewrite validated_eq. unfold User.hasRole.
  open_handler.
  destruct (existsb _ _); [|done].
  destruct (forallb _ _); [|done].
  cbn. rewrite Hk. cbn.
  destruct (bool_decide (role ∈ knownRoles)); [|done]. cbn.
  destruct (bool_decide (role ∈ User.roles target)) eqn:Hin; [|done]. cbn.
  destruct (bool_decide (length (User.roles target) = 1%nat)) eqn:Hlen;
    [done|]. cbn.
  bool_facts. intros [= <- <-]. cbn.
  split; [by apply filter_other_nonempty|].
  split; [|done].
  intros r. rewrite list_elem_of_filter. tauto.
Qed.

Lemma remove_role_leaves_a_role_sample :
  User.roles (User_set_roles ["buyer"] sellerAndBuyer) ≠ []
  ∧ wallets (putRemoveRole admin1 "sellerA" "seller" twoRoles).2 = wallets twoRoles.
Proof.
  split.
  - apply (remove_role_leaves_a_role admin1 "sellerA" "seller" twoRoles
             (putRemoveRole admin1 "sellerA" "seller" twoRoles).2
             0%nat sellerAndBuyer (User_set_roles ["buyer"] sellerAndBuyer));
      [reflexivity| |vm_compute; reflexivity].
    apply NoDup_cons. split; [|apply NoDup_singleton].
    intros Hin. apply list_elem_of_singleton in Hin. discriminate.
  - vm_compute. reflexivity.
Defined.

(** ** Availability of delivery agents *)

(** X22. A delivery agent who has switched availability off is refused
    every order they try to accept, whatever the order, and the refusal
    changes nothing; switching availability touches only the agent's
    own account. *)
Theorem unavailable_agent_accepts_nothing
    (env : Env) (user : ReqUser) (orderId : ObjectId) (db : Db)
    (u : nat) (account : User.t) :
  "delivery" ∈ user_roles user →
  list_find (λ x, User._id x = id user) (users db) = Some (u, account) →
  let updated := User_set_deliveryInfo
                   (Some {| deliveryIsAvailable := false |}) account in
  let db' := set_users (<[u := updated]> (users db)) db in
  putAvailability user false db = (Val false, db')
  ∧ isRejection (handle env user (PutAcceptDelivery orderId) db').1 = true
  ∧ (handle env user (PutAcceptDelivery orderId) db').2 = db'.
Proof.
  intros Hrole Hu updated db'.
  pose proof (found_lookup _ _ _ _ Hu) as [_ Hid].
  split.
  { unfold putAvailability. route. rewrite Hu. by route. }
  assert (list_find (λ x, User._id x = id user) (<[u := updated]> (users db))
          = Some (u, updated)) as Hu'
    by (by apply (list_find_insert_same _ _ _ account)).
  assert (User.deliveryInfo updated = Some {| deliveryIsAvailable := false |})
    as Hinfo by done.
  subst db'. clearbody updated.
  unfold handle, handler, putAcceptDelivery. route.
  destruct (list_find _ (orders db)) as [[n o]|]; [|done]. cbn.
  destruct (_ || _); [done|]. route. rewrite Hu'. route. by rewrite Hinfo.
Qed.

Lemma unavailable_agent_accepts_nothing_sample :
  isRejection
    (handle env1 agent2 (PutAcceptDelivery "order1")
       (putAvailability agent2 false dispatch).2).1 = true.
Proof.
  destruct (unavailable_agent_accepts_nothing env1 agent2 "order1" dispatch
              5%nat (mkUser "agent2" "delivery"))
    as (Hoff & Hrefused & _);
    [apply list_elem_of_here|reflexivity|].
  rewrite Hoff. exact Hrefused.
Defined.

(** ** Restocking *)




(** ** The debit behind the subscription routes *)



(** ** What POST api/subscription never does *)

(** X24. A request to POST api/subscription that pays by wallet for a
    weekly, monthly or yearly plan never changes the status of the
    subscription on file, whatever the caller, the wallet and the
    outcome of the request: a subscription that was cancelled, expired
    or pending stays so, and [isActive] stays false for it. *)
Theorem wallet_subscription_request_keeps_the_status
    (env : Env) (user : ReqUser) (req : SubscriptionRequest) (db : Db)
    (i : nat) (s : Subscription.t Z) :
  sr_paymentMethod req = "wallet" →
  sr_plan req ≠ free_trial →
  list_find (λ x, Subscription.seller x = id user) (subscriptions db) = Some (i, s) →
  ∃ s',
    subscriptions (handle env user (PostSubscription req) db).2 !! i = Some s'
    ∧ Subscription.status s' = Subscription.status s
    ∧ Subscription.seller s' = Subscription.seller s
    ∧ (Subscription.status s ≠ SubscriptionStatus.active →
       ∀ now, isActive now s' = false).
Proof.
  intros Hpm Hplan Hs.
  pose proof (found_lookup _ _ _ _ Hs) as [Hi _].
  assert (i < length (subscriptions db))%nat as Hlt by (by eapply lookup_lt_Some).
  assert (∀ s', Subscription.status s' = Subscription.status s →
                Subscription.status s ≠ SubscriptionStatus.active →
                ∀ now, isActive now s' = false) as Hinactive.
  { intros s' Hst Hne now. unfold isActive. rewrite Hst.
    by rewrite (bool_decide_eq_false_2 _ Hne). }
  set (stored :=
         Subscription.onStored
           (Subscription.save (tza env) (now env)
              (bool_decide (sr_plan req ≠ Subscription.plan s)))
           (Subscription.set_paymentMethod "wallet"
              (Subscription.set_autoRenew (sr_autoRenew req)
                 (Subscription.set_plan (sr_plan req) s)))).
  assert (Subscription.status stored = Subscription.status s
          ∧ Subscription.seller stored = Subscription.seller s) as (Hstatus & Hseller).
  { subst stored. rewrite onStored_save. by destruct (bool_decide _). }
  assert (∀ v : Subscription.t Z, <[i := v]> (subscriptions db) !! i = Some v)
    as Hput by (intros v; by apply list_lookup_insert_eq).
  assert (∀ subs : list (Subscription.t Z),
            (subs = subscriptions db
             ∨ subs = <[i := stored]> (subscriptions db)) →
            ∃ s', subs !! i = Some s'
                  ∧ Subscription.status s' = Subscription.status s
                  ∧ Subscription.seller s' = Subscription.seller s
                  ∧ (Subscription.status s ≠ SubscriptionStatus.active →
                     ∀ now, isActive now s' = false)) as Hkept.
  { intros subs [->| ->].
    - exists s. repeat split; [done|]. by apply Hinactive.
    - exists stored. rewrite Hput. repeat split; [done..|]. by apply Hinactive. }
  unfold handle, handler, postSubscription. rewrite validated_eq, Hpm.
  open_handler.
  destruct (existsb _ _); [|apply Hkept; by left].
  cbn -[Subscription.onStored planPrice].
  unfold notEmpty. decide_known. cbn -[Subscription.onStored planPrice].
  destruct (list_find _ (users db)) as [[u account]|]; [|apply Hkept; by left].
  cbn -[Subscription.onStored planPrice].
  destruct (User.hasRole "seller" account); [|apply Hkept; by left].
  cbn -[Subscription.onStored planPrice]. rewrite Hs.
  cbn -[Subscription.onStored planPrice]. decide_known.
  cbn -[Subscription.onStored planPrice]. decide_known.
  cbn -[Subscription.onStored planPrice]. fold stored. decide_known.
  unfold paySubscription. open_handler.
  cbn -[Subscription.onStored planPrice].
  destruct (list_find _ (wallets db)) as [[j w]|];
    cbn -[Subscription.onStored planPrice]; decide_known;
    [|apply Hkept; by right].
  destruct (Wallet.hasSufficientBalance _ w);
    cbn -[Subscription.onStored planPrice]; decide_known;
    [|apply Hkept; by right].
  route. rewrite onStored_save, length_insert. route.
  rewrite list_insert_insert_eq.
  eexists. rewrite Hput. repeat split; [done..|].
  by apply Hinactive.
Qed.

Lemma wallet_subscription_request_keeps_the_status_sample :
  ∃ s',
    subscriptions
      (handle env1 sellerA
         (PostSubscription {| sr_plan := yearly; sr_paymentMethod := "wallet";
                              sr_autoRenew := false |}) cancelledShop).2
      !! 0%nat = Some s'
    ∧ Subscription.status s' = SubscriptionStatus.cancelled
    ∧ Subscription.seller s' = "sellerA"
    ∧ (SubscriptionStatus.cancelled ≠ SubscriptionStatus.active →
       ∀ now, isActive now s' = false).
Proof.
  apply (wallet_subscription_request_keeps_the_status env1 sellerA
           {| sr_plan := yearly; sr_paymentMethod := "wallet";
              sr_autoRenew := false |}
           cancelledShop 0%nat
           (Subscription.set_autoRenew false
              (Subscription.set_status SubscriptionStatus.cancelled
                 subscriptionDec))).
  - reflexivity.
  - discriminate.
  - vm_compute. reflexivity.
Defined.
